(** * A shallow embedding of the etcd-backed key-value client
      (src/cluster/kv/etcd/store.go)

    The client is modelled sequentially: every method is a function from
    the client (and the transport it owns) to a result and the next client.
    Go's [int] is taken to be 64 bits wide, so [int] and [int64] coincide
    and both wrap around at 2^63. *)

From Stdlib Require Import ZArith Lia Bool List.
From stdpp Require Import base option gmap strings list fin_maps.

Local Open Scope Z_scope.

(** ** Machine integers *)

Definition min_int64 : Z := - 2 ^ 63.
Definition max_int64 : Z := 2 ^ 63 - 1.

(** Two's-complement reduction of a mathematical integer to 64 bits. *)
Definition wrap64 (z : Z) : Z := (z + 2 ^ 63) mod 2 ^ 64 - 2 ^ 63.

Definition add64 (a b : Z) : Z := wrap64 (a + b).
Definition sub64 (a b : Z) : Z := wrap64 (a - b).

Definition in_int64 (z : Z) : Prop := min_int64 <= z <= max_int64.

(** [[]byte] *)
Abbreviation bytes := (list Byte.byte).

(** ** Errors

    The sentinels of package [kv], the two package-level errors of
    store.go, the errors built with [fmt.Errorf] (kept structured), and
    what comes from outside: the transport and [proto.Marshal]. The last
    two are opaque messages; no foreign package can produce one of the
    sentinels of this package. *)

Inductive error : Type :=
| ErrNotFound
| ErrVersionMismatch
| ErrAlreadyExists
| ErrConditionCheckFailed
| ErrUnknownTargetType
| ErrUnknownCompareType
| ErrUnknownOpType
| errInvalidHistoryVersion
| errNilPutResponse
| errCouldNotFindVersion (version : Z) (key : string)
| errNoWatchable (key : string)
| errNotValueWatchable (key : string)
| errTransport (msg : string)
| errMarshal (msg : string)
| NonRetryableError (inner : error).

#[global] Instance error_eq_dec : EqDecision error.
Proof. solve_decision. Defined.

(** ** Wire types of the transport (packages mvccpb and clientv3) *)

Module Mvccpb.
Record KeyValue : Type := mkKeyValue {
  Key : string;
  Value : bytes;
  Version : Z;
  ModRevision : Z
}.

Inductive EventType : Type := PUT | DELETE.

Record Event : Type := mkEvent {
  Type_ : EventType;
  Kv : KeyValue
}.
End Mvccpb.

Module Clientv3.
Record GetResponse : Type := mkGetResponse {
  Count : Z;
  Kvs : list Mvccpb.KeyValue
}.

Record PutResponse : Type := mkPutResponse {
  PrevKv : option Mvccpb.KeyValue
}.

Record DeleteResponse : Type := mkDeleteResponse {
  Deleted : Z;
  PrevKvs : list Mvccpb.KeyValue
}.

(** One entry of a transaction response; [GetResponsePut] is nil on
    every variant but the first. *)
Inductive ResponseOp : Type :=
| ResponsePut (r : PutResponse)
| ResponseRange (r : GetResponse)
| ResponseDeleteRange (r : DeleteResponse).

Definition GetResponsePut (r : ResponseOp) : option PutResponse :=
  match r with
  | ResponsePut p => Some p
  | _ => None
  end.

Record TxnResponse : Type := mkTxnResponse {
  Succeeded : bool;
  Responses : list ResponseOp
}.

(** [clientv3.Compare(clientv3.Version(key), "=", v)] *)
Inductive Cmp : Type :=
| CompareVersionEqual (key : string) (v : Z).

(** [clientv3.OpPut(key, val)] with or without [WithPrevKV]. *)
Inductive Op : Type :=
| OpPut (key : string) (val : bytes) (withPrevKV : bool).

(** The options of a read: [WithSerializable] and [WithRev]. *)
Record GetOptions : Type := mkGetOptions {
  serializable : bool;
  rev : option Z
}.

(** A request as it leaves the client. *)
Inductive Request : Type :=
| ReqGet (key : string) (o : GetOptions)
| ReqPut (key : string) (val : bytes) (withPrevKV : bool)
| ReqDelete (key : string) (withPrevKV : bool)
| ReqTxn (cmps : list Cmp) (ops : list Op).
End Clientv3.

(** The transport the client is built on: four calls, each of which may
    fail and may change the state of the remote store. *)
Class Transport (T : Type) : Type := {
  kvGet : string -> Clientv3.GetOptions -> T ->
          (string + Clientv3.GetResponse) * T;
  kvPut : string -> bytes -> bool -> T ->
          (string + Clientv3.PutResponse) * T;
  kvDelete : string -> bool -> T ->
             (string + Clientv3.DeleteResponse) * T;
  kvTxn : list Clientv3.Cmp -> list Clientv3.Op -> T ->
          (string + Clientv3.TxnResponse) * T
}.

(** [proto.Marshal] on the messages the client stores. *)
Class Codec (Message : Type) : Type := {
  Marshal : Message -> string + bytes
}.

(** ** The value record *)

Record value : Type := mkValue {
  Val : bytes;
  Ver : Z;
  Rev : Z
}.

Definition newValue (val : bytes) (ver rev : Z) : value :=
  {| Val := val; Ver := ver; Rev := rev |}.

(** What a [kv.Value] interface value can hold: a [*value] of this
    package, or a value of another implementation, of which only
    [Version()] is observable here. *)
Inductive kvValue : Type :=
| ptrValue (v : value)
| otherValue (version : Z).

Definition Version (c : value) : Z := Ver c.

Definition kvVersion (v : kvValue) : Z :=
  match v with
  | ptrValue c => Version c
  | otherValue n => n
  end.

Definition IsNewer (c : value) (other : kvValue) : bool :=
  match other with
  | ptrValue othervalue => Rev othervalue <? Rev c
  | otherValue _ => kvVersion other <? Version c
  end.

(** ** Collaborators outside store.go *)

(** Modelled from the spec: the configuration of the client (options.go is
    not part of the sources at hand), as far as the modelled methods read
    it. [Prefix] is "prepended to every key"; [EnableFastGets] permits
    serializable reads; [MaxRetries] stands for the retry options, the
    bound of the retrier used by the fallback read of a watch;
    [RequestTimeout] is the "per-request context deadline; 0 = none", a
    [time.Duration], that is an [int64] of nanoseconds. *)
Record Options : Type := mkOptions {
  Prefix : string;
  EnableFastGets : bool;
  MaxRetries : nat;
  RequestTimeout : Z
}.

(** Modelled from the spec: [Options.ApplyPrefix], by the glossary "the
    concatenation of the configured prefix and the caller-supplied key". *)
Definition ApplyPrefix (o : Options) (key : string) : string :=
  String.append (Prefix o) key.

Module Kv.
(** Modelled from the spec: the single-value watchable of package kv
    (section 4.3). It holds the latest observed value; [Update] "accepts
    nil (tombstone) to propagate deletion; otherwise applied only when
    strictly newer than current". [updates] records every value the
    watchable took, oldest first. *)
Record ValueWatchable : Type := mkValueWatchable {
  held : option kvValue;
  updates : list (option kvValue)
}.

(** Modelled from the spec: [ValueWatchable.Get], the current snapshot. *)
Definition Get (w : ValueWatchable) : option kvValue := held w.

(** Modelled from the spec: [ValueWatchable.Update]. Nil is taken as it
    is; another value is taken when the watchable holds none or an older
    one. The client only ever passes values of its own type. *)
Definition Update (nv : option value) (w : ValueWatchable) : ValueWatchable :=
  match nv with
  | None =>
      {| held := None; updates := updates w ++ [None] |}
  | Some v =>
      let accept :=
        match held w with
        | None => true
        | Some cur => IsNewer v cur
        end in
      if accept
      then {| held := Some (ptrValue v);
              updates := updates w ++ [Some (ptrValue v)] |}
      else w
  end.

(** Modelled from the spec: what the registry of a client can hold under
    a key, "two variants share one interface": the single-value watchable,
    or the prefix watchable of the prefix store, whose content no modelled
    method reads. *)
Inductive Watchable : Type :=
| OfValue (w : ValueWatchable)
| OfPrefix.

(** Modelled from the spec: the target and the comparison of a condition,
    "target: VERSION, compare: EQUAL". The enumerations are open in the
    code (each switch has a default), hence the second constructors. *)
Inductive TargetType : Type := TargetVersion | TargetOther.
Inductive CompareType : Type := CompareEqual | CompareOther.

(** Modelled from the spec: [kv.Condition], "{ key, target, compare,
    value: int }". *)
Record Condition : Type := mkCondition {
  condTargetType : TargetType;
  condCompareType : CompareType;
  condKey : string;
  condValue : Z
}.

(** Modelled from the spec: [kv.Op], "{ kind: SET, key, payload: message }
    the only kind currently defined"; the code has a default case for
    other kinds. *)
Inductive OpType : Type := OpSet | OpOther.

Inductive Op (Message : Type) : Type :=
| SetOp (key : string) (Value : Message)
| UnknownOp (key : string).
Arguments SetOp {Message} key Value.
Arguments UnknownOp {Message} key.

Definition opType {Message} (op : Op Message) : OpType :=
  match op with
  | SetOp _ _ => OpSet
  | UnknownOp _ => OpOther
  end.

(** Modelled from the spec: [kv.OpResponse], the "per-op response" of
    [Commit], which for a SET "carries the resulting version";
    [NewOpResponse] and [SetValue] build it as the code calls them. *)
Record OpResponse (Message : Type) : Type := mkOpResponse {
  oprOp : Op Message;
  oprValue : option Z
}.
Arguments mkOpResponse {Message} oprOp oprValue.
Arguments oprOp {Message} o.
Arguments oprValue {Message} o.

Definition NewOpResponse {Message} (op : Op Message) : OpResponse Message :=
  mkOpResponse op None.

Definition SetValue {Message} (v : Z) (r : OpResponse Message)
  : OpResponse Message :=
  mkOpResponse (oprOp r) (Some v).
End Kv.


(** ** Computations that may panic *)

(** A run of a method ends with its results, or in a Go panic (an index
    out of range, a call of a nil function), or, for the one loop whose
    length the transport decides, with the fuel of the model used up. *)
Inductive exec (A : Type) : Type :=
| Done (a : A)
| Panic
| OutOfFuel.
Arguments Done {A} a.
Arguments Panic {A}.
Arguments OutOfFuel {A}.

Definition M (S A : Type) : Type := S -> exec (A * S).

Definition ret {S A : Type} (a : A) : M S A := fun s => Done (a, s).

Definition bind {S A B : Type} (c : M S A) (k : A -> M S B) : M S B :=
  fun s =>
    match c s with
    | Done (a, s') => k a s'
    | Panic => Panic
    | OutOfFuel => OutOfFuel
    end.

Definition panic {S A : Type} : M S A := fun _ => Panic.

Definition outOfFuel {S A : Type} : M S A := fun _ => OutOfFuel.

(** Lifts a step that cannot panic. *)
Definition lift {S A : Type} (f : S -> A * S) : M S A := fun s => Done (f s).

Definition modify {S : Type} (f : S -> S) : M S unit := fun s => Done (tt, f s).

Definition gets {S A : Type} (f : S -> A) : M S A := fun s => Done (f s, s).

Declare Scope exec_scope.
Delimit Scope exec_scope with exec.
Notation "x <~ c ;; k" := (bind c (fun x => k))
  (at level 100, c at next level, right associativity) : exec_scope.
Notation "c ;;; k" := (bind c (fun _ => k))
  (at level 100, right associativity) : exec_scope.

Module Retry.
(** Modelled from the spec: the retrier of package x/retry (section 4.5),
    "bounded retries", where "a distinguished sentinel non-retryable
    wraps errors to short-circuit the loop". [fn] runs once and then at
    most [retries] more times. Backoff delays have no counterpart here. *)
Fixpoint Attempt {S : Type} (retries : nat) (fn : M S (option error))
  : M S (option error) :=
  (err <~ fn ;;
   match err with
   | None => ret None
   | Some (NonRetryableError _) => ret err
   | Some _ =>
       match retries with
       | O => ret err
       | Datatypes.S n => Attempt n fn
       end
   end)%exec.

(** Modelled from the spec: [xerrors.GetInnerNonRetryableError], the
    error inside the non-retryable marker, nil when there is none. *)
Definition GetInnerNonRetryableError (err : error) : option error :=
  match err with
  | NonRetryableError inner => Some inner
  | _ => None
  end.
End Retry.

(** ** The client *)

Definition etcdVersionZero : Z := 0.

Record clientMetrics : Type := mkClientMetrics {
  etcdGetError : nat;
  etcdPutError : nat;
  etcdTnxError : nat;
  diskWriteError : nat;
  diskReadError : nat
}.

(** The fields of [client] that the modelled methods touch. [cache] is
    [valueCache.Values]; [cacheUpdatedCh] is the number of signals waiting
    in the channel, whose capacity is one. [sent] is not a field of the Go
    struct: it lists the requests handed to the transport, oldest first. *)
Record client (T : Type) : Type := mkClient {
  opts : Options;
  kv : T;
  watchables : gmap string Kv.Watchable;
  m : clientMetrics;
  cache : gmap string value;
  cacheUpdatedCh : nat;
  sent : list Clientv3.Request
}.
Arguments mkClient {T}.
Arguments opts {T} c.
Arguments kv {T} c.
Arguments watchables {T} c.
Arguments m {T} c.
Arguments cache {T} c.
Arguments cacheUpdatedCh {T} c.
Arguments sent {T} c.

Definition cacheUpdatedChCap : nat := 1.

(** A [context.Context], as far as the client decides it: the deadline
    it was given, if any. *)
Record Context : Type := mkContext {
  deadline : option Z
}.

(** A [context.CancelFunc]: a function value, which may be nil. *)
Inductive CancelFunc : Type :=
| nilFunc
| cancelCtx.

(** [var noopCancel func()]: declared without a value and assigned
    nowhere, so it is the nil function. *)
Definition noopCancel : CancelFunc := nilFunc.

(** [defer cancel()] in front of [body]: the deferred call runs when the
    method returns or panics. Calling [cancelCtx] releases the context,
    which the model does not see; calling a nil function panics, so a
    method that would have returned panics instead. *)
Definition deferCall {A : Type} (cancel : CancelFunc) (body : exec A)
  : exec A :=
  match body with
  | Done a =>
      match cancel with
      | cancelCtx => Done a
      | nilFunc => Panic
      end
  | Panic => Panic
  | OutOfFuel => OutOfFuel
  end.

(** The same in front of the rest of a method that threads a state. *)
Definition defer {S A : Type} (cancel : CancelFunc) (rest : M S A) : M S A :=
  fun s => deferCall cancel (rest s).

Section Client.
Context {T : Type} {transport : Transport T}.
Context {Message : Type} {codec : Codec Message}.

Implicit Types c : client T.

Definition withKv (t : T) c : client T :=
  mkClient (opts c) t (watchables c) (m c) (cache c) (cacheUpdatedCh c)
           (sent c).

Definition withWatchables (ws : gmap string Kv.Watchable) c : client T :=
  mkClient (opts c) (kv c) ws (m c) (cache c) (cacheUpdatedCh c) (sent c).

Definition withMetrics (ms : clientMetrics) c : client T :=
  mkClient (opts c) (kv c) (watchables c) ms (cache c) (cacheUpdatedCh c)
           (sent c).

Definition withCache (vs : gmap string value) c : client T :=
  mkClient (opts c) (kv c) (watchables c) (m c) vs (cacheUpdatedCh c)
           (sent c).

Definition withCacheUpdatedCh (n : nat) c : client T :=
  mkClient (opts c) (kv c) (watchables c) (m c) (cache c) n (sent c).

Definition withSent (rs : list Clientv3.Request) c : client T :=
  mkClient (opts c) (kv c) (watchables c) (m c) (cache c)
           (cacheUpdatedCh c) rs.

Definition incEtcdGetError c : client T :=
  withMetrics
    (mkClientMetrics (S (etcdGetError (m c))) (etcdPutError (m c))
       (etcdTnxError (m c)) (diskWriteError (m c)) (diskReadError (m c))) c.

Definition incEtcdPutError c : client T :=
  withMetrics
    (mkClientMetrics (etcdGetError (m c)) (S (etcdPutError (m c)))
       (etcdTnxError (m c)) (diskWriteError (m c)) (diskReadError (m c))) c.

Definition incEtcdTnxError c : client T :=
  withMetrics
    (mkClientMetrics (etcdGetError (m c)) (etcdPutError (m c))
       (S (etcdTnxError (m c))) (diskWriteError (m c))
       (diskReadError (m c))) c.

(** *** Request contexts *)

(** [c.context()]: a context without a deadline and [noopCancel] when no
    request timeout is configured, and else what [context.WithTimeout]
    returns. The deadline shows in the model only through the transport,
    which may fail any call. *)
Definition context c : Context * CancelFunc :=
  if 0 <? RequestTimeout (opts c)
  then (mkContext (Some (RequestTimeout (opts c))), cancelCtx)
  else (mkContext None, noopCancel).

(** *** Calls on [c.kv] *)

Definition callGet (key : string) (o : Clientv3.GetOptions) c
  : (string + Clientv3.GetResponse) * client T :=
  let '(r, t) := kvGet key o (kv c) in
  (r, withSent (sent c ++ [Clientv3.ReqGet key o]) (withKv t c)).

Definition callPut (key : string) (val : bytes) (withPrevKV : bool) c
  : (string + Clientv3.PutResponse) * client T :=
  let '(r, t) := kvPut key val withPrevKV (kv c) in
  (r, withSent (sent c ++ [Clientv3.ReqPut key val withPrevKV])
        (withKv t c)).

Definition callDelete (key : string) (withPrevKV : bool) c
  : (string + Clientv3.DeleteResponse) * client T :=
  let '(r, t) := kvDelete key withPrevKV (kv c) in
  (r, withSent (sent c ++ [Clientv3.ReqDelete key withPrevKV])
        (withKv t c)).

Definition callTxn (cmps : list Clientv3.Cmp) (ops : list Clientv3.Op) c
  : (string + Clientv3.TxnResponse) * client T :=
  let '(r, t) := kvTxn cmps ops (kv c) in
  (r, withSent (sent c ++ [Clientv3.ReqTxn cmps ops]) (withKv t c)).

(** *** The cache *)

Definition notifyCacheUpdate c : client T :=
  if (cacheUpdatedCh c <? cacheUpdatedChCap)%nat
  then withCacheUpdatedCh (S (cacheUpdatedCh c)) c
  else c.

Definition deleteCache (key : string) c : client T :=
  match cache c !! key with
  | None => c
  | Some _ => notifyCacheUpdate (withCache (delete key (cache c)) c)
  end.

Definition getCache (key : string) c : option value := cache c !! key.

Definition mergeCache (key : string) (v : value) c : client T :=
  let store :=
    match cache c !! key with
    | None => true
    | Some cur => IsNewer v (ptrValue cur)
    end in
  if store
  then notifyCacheUpdate (withCache (<[key := v]> (cache c)) c)
  else c.

(** *** Reads *)

(** The [kv.Value] that [get] returns is nil or holds a [*value]; the
    result keeps the concrete type. *)
Definition get (key : string) : M (client T) (option value * option error) :=
  fun c =>
    deferCall (snd (context c))
      (let o := Clientv3.mkGetOptions (EnableFastGets (opts c)) None in
       let '(r, c) := callGet key o c in
       match r with
       | inl err =>
           let c := incEtcdGetError c in
           match getCache key c with
           | Some cachedV => Done ((Some cachedV, None), c)
           | None => Done ((None, Some (errTransport err)), c)
           end
       | inr r =>
           if Clientv3.Count r =? 0
           then Done ((None, Some ErrNotFound), deleteCache key c)
           else
             match Clientv3.Kvs r with
             | [] => Panic
             | kv0 :: _ =>
                 let v := newValue (Mvccpb.Value kv0) (Mvccpb.Version kv0)
                            (Mvccpb.ModRevision kv0) in
                 Done ((Some v, None), mergeCache key v c)
             end
       end).

Definition Get (key : string) : M (client T) (option value * option error) :=
  fun c => get (ApplyPrefix (opts c) key) c.

(** [res[i] = v], with the bounds check of a Go slice. *)
Definition setIndex {S A : Type} (res : list A) (i : Z) (v : A)
  : M S (list A) :=
  if (0 <=? i) && (i <? Z.of_nat (length res))
  then ret (<[Z.to_nat i := v]> res)
  else panic.

(** The loop [for version > from] of [History]. The transport decides
    how often it runs, hence the fuel. *)
Fixpoint historyLoop (fuel : nat) (key newKey : string) (from to : Z)
    (version modRev : Z) (res : list (option value))
  : M (client T) (list (option value) * option error) :=
  if from <? version then
    match fuel with
    | O => outOfFuel
    | S fuel' =>
        (cancel <~ gets (fun c => snd (context c)) ;;
         defer cancel
           (r <~ lift (callGet newKey
                         (Clientv3.mkGetOptions false
                            (Some (sub64 modRev 1)))) ;;
            match r with
            | inl err => ret ([], Some (errTransport err))
            | inr r =>
                if Clientv3.Count r =? 0
                then ret ([], Some (errCouldNotFindVersion
                                      (sub64 version 1) key))
                else
                  match Clientv3.Kvs r with
                  | [] => panic
                  | v :: _ =>
                      let modRev := Mvccpb.ModRevision v in
                      let version := Mvccpb.Version v in
                      res <~ (if version <? to
                              then setIndex res (sub64 version from)
                                     (Some (newValue (Mvccpb.Value v)
                                              (Mvccpb.Version v)
                                              (Mvccpb.ModRevision v)))
                              else ret res) ;;
                      historyLoop fuel' key newKey from to version modRev res
                  end
            end))%exec
    end
  else ret (res, None).

Definition History (fuel : nat) (key : string) (from to : Z)
  : M (client T) (list (option value) * option error) :=
  if (to <? from) || (from <? 0) || (to <? 0)
  then ret ([], Some errInvalidHistoryVersion)
  else if from =? to
  then ret ([], None)
  else
    (newKey <~ gets (fun c => ApplyPrefix (opts c) key) ;;
     cancel <~ gets (fun c => snd (context c)) ;;
     defer cancel
       (r <~ lift (callGet newKey (Clientv3.mkGetOptions false None)) ;;
        match r with
        | inl err => ret ([], Some (errTransport err))
        | inr r =>
            if Clientv3.Count r =? 0
            then ret ([], Some ErrNotFound)
            else
              match Clientv3.Kvs r with
              | [] => panic
              | latestKV :: _ =>
                  let numValue := sub64 to from in
                  let version := Mvccpb.Version latestKV in
                  let modRev := Mvccpb.ModRevision latestKV in
                  if version <? from
                  then ret ([], None)
                  else
                    let numValue :=
                      if add64 (sub64 version from) 1 <? numValue
                      then add64 (sub64 version from) 1
                      else numValue in
                    if numValue <? 0 then panic
                    else
                      let res : list (option value) :=
                        replicate (Z.to_nat numValue) None in
                      res <~ (if version <? to
                              then setIndex res (sub64 version from)
                                     (Some (newValue (Mvccpb.Value latestKV)
                                              (Mvccpb.Version latestKV)
                                              modRev))
                              else ret res) ;;
                      historyLoop fuel key newKey from to version modRev res
              end
        end))%exec.

(** *** Writes *)

(** No path of [Set] or [CheckAndSet] indexes a slice: between the
    deferred call and the return there is one result, whatever the branch. *)
Definition Set_ (key : string) (v : Message)
  : M (client T) (Z * option error) :=
  fun c =>
    deferCall (snd (context c))
      (Done
         match Marshal v with
         | inl err => ((0, Some (errMarshal err)), c)
         | inr value =>
             let '(r, c) := callPut (ApplyPrefix (opts c) key) value true c in
             match r with
             | inl err => ((0, Some (errTransport err)), incEtcdPutError c)
             | inr r =>
                 match Clientv3.PrevKv r with
                 | None => ((etcdVersionZero + 1, None), c)
                 | Some prev => ((add64 (Mvccpb.Version prev) 1, None), c)
                 end
             end
         end).

Definition CheckAndSet (key : string) (version : Z) (v : Message)
  : M (client T) (Z * option error) :=
  fun c =>
    deferCall (snd (context c))
      (Done
         match Marshal v with
         | inl err => ((0, Some (errMarshal err)), c)
         | inr value =>
             let key := ApplyPrefix (opts c) key in
             let '(r, c) :=
               callTxn [Clientv3.CompareVersionEqual key version]
                       [Clientv3.OpPut key value false] c in
             match r with
             | inl err => ((0, Some (errTransport err)), incEtcdTnxError c)
             | inr r =>
                 if negb (Clientv3.Succeeded r)
                 then ((0, Some ErrVersionMismatch), c)
                 else ((add64 version 1, None), c)
             end
         end).

Definition SetIfNotExists (key : string) (v : Message)
  : M (client T) (Z * option error) :=
  (r <~ CheckAndSet key etcdVersionZero v ;;
   let '(version, err) := r in
   let err :=
     if decide (err = Some ErrVersionMismatch)
     then Some ErrAlreadyExists
     else err in
   ret (version, err))%exec.

Definition Delete (key : string) : M (client T) (option value * option error) :=
  fun c =>
    deferCall (snd (context c))
      (let key := ApplyPrefix (opts c) key in
       let '(r, c) := callDelete key true c in
       match r with
       | inl err => Done ((None, Some (errTransport err)), c)
       | inr r =>
           if Clientv3.Deleted r =? 0
           then Done ((None, Some ErrNotFound), c)
           else
             match Clientv3.PrevKvs r with
             | [] => Panic
             | prev :: _ =>
                 let prevKV :=
                   newValue (Mvccpb.Value prev) (Mvccpb.Version prev)
                     (Mvccpb.ModRevision prev) in
                 Done ((Some prevKV, None), deleteCache key c)
             end
       end).

(** *** Transactions *)

Definition processCondition (condition : Kv.Condition) c
  : Clientv3.Cmp + error :=
  match Kv.condTargetType condition with
  | Kv.TargetVersion =>
      let key := ApplyPrefix (opts c) (Kv.condKey condition) in
      match Kv.condCompareType condition with
      | Kv.CompareEqual =>
          inl (Clientv3.CompareVersionEqual key (Kv.condValue condition))
      | Kv.CompareOther => inr ErrUnknownCompareType
      end
  | Kv.TargetOther => inr ErrUnknownTargetType
  end.

Definition processOp (op : Kv.Op Message) c : Clientv3.Op + error :=
  match op with
  | Kv.SetOp key Value =>
      match Marshal Value with
      | inl err => inr (errMarshal err)
      | inr value =>
          inl (Clientv3.OpPut (ApplyPrefix (opts c) key) value true)
      end
  | Kv.UnknownOp _ => inr ErrUnknownOpType
  end.

(** The first loop of [Commit]: it stops at the first condition that
    does not translate. *)
Fixpoint processConditions (conditions : list Kv.Condition) c
  : list Clientv3.Cmp + error :=
  match conditions with
  | [] => inl []
  | condition :: rest =>
      match processCondition condition c with
      | inr err => inr err
      | inl cmp =>
          match processConditions rest c with
          | inr err => inr err
          | inl cmps => inl (cmp :: cmps)
          end
      end
  end.

(** The second loop: the operations of the transaction and the responses
    prepared for them. *)
Fixpoint processOps (ops : list (Kv.Op Message)) c
  : (list Clientv3.Op * list (Kv.OpResponse Message)) + error :=
  match ops with
  | [] => inl ([], [])
  | op :: rest =>
      match processOp op c with
      | inr err => inr err
      | inl etcdOp =>
          match processOps rest c with
          | inr err => inr err
          | inl (etcdOps, opResponses) =>
              inl (etcdOp :: etcdOps, Kv.NewOpResponse op :: opResponses)
          end
      end
  end.

(** The last loop, [for i := range r.Responses], from index [i] on. *)
Fixpoint fillResponses (i : nat) (responses : list Clientv3.ResponseOp)
    (opResponses : list (Kv.OpResponse Message))
  : exec (list (Kv.OpResponse Message) + error) :=
  match responses with
  | [] => Done (inl opResponses)
  | response :: rest =>
      match opResponses !! i with
      | None => Panic
      | Some opr =>
          match Kv.opType (Kv.oprOp opr) with
          | Kv.OpSet =>
              match Clientv3.GetResponsePut response with
              | None => Done (inr errNilPutResponse)
              | Some res =>
                  let opr :=
                    match Clientv3.PrevKv res with
                    | Some prev =>
                        Kv.SetValue (add64 (Mvccpb.Version prev) 1) opr
                    | None => Kv.SetValue (etcdVersionZero + 1) opr
                    end in
                  fillResponses (S i) rest (<[i := opr]> opResponses)
              end
          | Kv.OpOther =>
              fillResponses (S i) rest (<[i := opr]> opResponses)
          end
      end
  end.

Definition Commit (conditions : list Kv.Condition)
    (ops : list (Kv.Op Message))
  : M (client T) (option (list (Kv.OpResponse Message)) * option error) :=
  fun c =>
    deferCall (snd (context c))
      match processConditions conditions c with
      | inr err => Done ((None, Some err), c)
      | inl cmps =>
          match processOps ops c with
          | inr err => Done ((None, Some err), c)
          | inl (etcdOps, opResponses) =>
              let '(r, c) := callTxn cmps etcdOps c in
              match r with
              | inl err =>
                  Done ((None, Some (errTransport err)), incEtcdTnxError c)
              | inr r =>
                  if negb (Clientv3.Succeeded r)
                  then Done ((None, Some ErrConditionCheckFailed), c)
                  else
                    match fillResponses 0 (Clientv3.Responses r)
                            opResponses with
                    | Done (inl opResponses) =>
                        Done ((Some opResponses, None), c)
                    | Done (inr err) => Done ((None, Some err), c)
                    | Panic => Panic
                    | OutOfFuel => OutOfFuel
                    end
              end
          end
      end.

(** *** The update callback of a single-key watch *)

(** The closure handed to the retrier writes [nv] and [err], so the
    retrier runs over the client together with these two variables. *)
Definition getAttempt (key : string)
  : M (client T * (option value * option error)) (option error) :=
  fun s =>
    match get key (fst s) with
    | Done ((nv, err), c) =>
        let ret_ :=
          if decide (err = Some ErrNotFound)
          then Some (NonRetryableError ErrNotFound)
          else err in
        Done (ret_, (c, (nv, err)))
    | Panic => Panic
    | OutOfFuel => OutOfFuel
    end.

Definition getFromKVStore (key : string)
  : M (client T) (option value * option error) :=
  fun c =>
    match Retry.Attempt (MaxRetries (opts c)) (getAttempt key)
            (c, (None, None)) with
    | Done (execErr, (c, (nv, _))) =>
        match execErr with
        | Some e =>
            if decide (Retry.GetInnerNonRetryableError e = Some ErrNotFound)
            then Done ((nv, None), c)
            else Done ((None, Some e), c)
        | None => Done ((nv, None), c)
        end
    | Panic => Panic
    | OutOfFuel => OutOfFuel
    end.

Definition getFromEtcdEvents (key : string) (events : list Mvccpb.Event) c
  : exec (option value * client T) :=
  match last events with
  | None => Panic
  | Some lastEvent =>
      match Mvccpb.Type_ lastEvent with
      | Mvccpb.DELETE => Done (None, deleteCache key c)
      | Mvccpb.PUT =>
          let kv0 := Mvccpb.Kv lastEvent in
          let nv := newValue (Mvccpb.Value kv0) (Mvccpb.Version kv0)
                      (Mvccpb.ModRevision kv0) in
          Done (Some nv, mergeCache key nv c)
      end
  end.

(** [watchable.Update(nv)] on the watchable registered under [key]. *)
Definition updateWatchable (key : string) (watchable : Kv.ValueWatchable)
    (nv : option value) : M (client T) (option error) :=
  (modify (fun c =>
     withWatchables
       (<[key := Kv.OfValue (Kv.Update nv watchable)]> (watchables c)) c) ;;;
   ret None)%exec.

Definition update (key : string) (events : list Mvccpb.Event)
  : M (client T) (option error) :=
  (r <~ (if (length events =? 0)%nat
         then getFromKVStore key
         else nv <~ getFromEtcdEvents key events ;; ret (nv, None)) ;;
   let '(nv, err) := r in
   match err with
   | Some _ => ret None
   | None =>
       w <~ gets (fun c => watchables c !! key) ;;
       match w with
       | None => ret (Some (errNoWatchable key))
       | Some Kv.OfPrefix => ret (Some (errNotValueWatchable key))
       | Some (Kv.OfValue watchable) =>
           let curValue := Kv.Get watchable in
           match curValue, nv with
           | None, None => ret None
           | Some _, None => updateWatchable key watchable None
           | None, Some v => updateWatchable key watchable nv
           | Some cur, Some v =>
               if IsNewer v cur
               then updateWatchable key watchable nv
               else ret None
           end
       end
   end)%exec.
End Client.

(** The rule of [Set] for the version a put leaves behind, from what the
    transport reports as the previous key-value: "prev.version + 1 when
    present, else 1", in the arithmetic of [int64]. *)
Definition versionAfterPut (prevKv : option Mvccpb.KeyValue) : Z :=
  match prevKv with
  | Some prev => add64 (Mvccpb.Version prev) 1
  | None => 1
  end.

(** The remapping that the spec gives for [SetIfNotExists]: "a version
    mismatch is remapped to already exists". *)
Definition remapVersionMismatch (err : option error) : option error :=
  match err with
  | Some ErrVersionMismatch => Some ErrAlreadyExists
  | _ => err
  end.

(** ** The callback of a prefix watch

    [NewPrefixStore] hands [updateForPrefix] to the watch manager. Of this
    callback the two parts that work on maps alone are modelled: how a
    batch of events is split into values and deletions, and how these are
    combined with what the prefix watchable holds. *)

(** [getFromEtcdEventsForPrefix]: the values of the put events of a batch
    under their keys, a later put of a key taking the place of an earlier
    one, and the keys of its delete events in the order of the batch. The
    method does not read the client. *)
Definition getFromEtcdEventsForPrefix (events : list Mvccpb.Event)
  : gmap string value * list string :=
  fold_left
    (fun '(values, toDelete) e =>
       match Mvccpb.Type_ e with
       | Mvccpb.DELETE => (values, toDelete ++ [Mvccpb.Key (Mvccpb.Kv e)])
       | Mvccpb.PUT =>
           (<[Mvccpb.Key (Mvccpb.Kv e) :=
                newValue (Mvccpb.Value (Mvccpb.Kv e))
                  (Mvccpb.Version (Mvccpb.Kv e))
                  (Mvccpb.ModRevision (Mvccpb.Kv e))]> values,
            toDelete)
       end)
    events (∅, []).

(** [updateForPrefix] from the snapshot of the watchable on (the lines
    after [curValues := watchable.Get()]). [curValues] is that snapshot,
    [values] and [toDelete] are what the batch or the read gave. The result
    is the map handed to [watchable.Update], or [None] when the callback
    returns without an update. The last loop returns at the first key of
    [values] that is new or newer, always with the same map, so the order
    in which Go visits [values] does not show in the result. *)
Definition updateForPrefixMerge (curValues : gmap string kvValue)
    (values : gmap string value) (toDelete : list string)
  : option (gmap string kvValue) :=
  if (size curValues =? 0)%nat && (size values =? 0)%nat then None
  else
    let updatedValues := curValues in
    let updatedValues := (ptrValue <$> values) ∪ updatedValues in
    let updatedValues :=
      fold_left (fun acc k => delete k acc) toDelete updatedValues in
    if negb (size updatedValues =? size curValues)%nat
    then Some updatedValues
    else if existsb
              (fun '(k, v) =>
                 match curValues !! k with
                 | None => true
                 | Some existing => IsNewer v existing
                 end)
              (map_to_list values)
    then Some updatedValues
    else None.

(** ** A reference transport

    An in-memory multi-version store that answers the four calls the way
    the etcd service does: every write takes the next revision, a key's
    version counts its writes since it was created, a read can be pinned
    to a past revision, and a store that is not [online] fails every call.
    Compaction and leases are left out. *)

Module Etcd.
(** One write of the log: a put, or a tombstone when [wVal] is [None]. *)
Record Write : Type := mkWrite {
  wRev : Z;
  wKey : string;
  wVal : option bytes
}.

(** [log] is newest first. *)
Record Store : Type := mkStore {
  online : bool;
  revision : Z;
  log : list Write
}.

(** A fresh etcd cluster is at revision 1. *)
Definition empty : Store := mkStore true 1 [].

(** The key-value of [key] as of revision [r]. *)
Fixpoint kvAt (l : list Write) (key : string) (r : Z)
  : option Mvccpb.KeyValue :=
  match l with
  | [] => None
  | w :: older =>
      if (wRev w <=? r) && bool_decide (wKey w = key)
      then
        match wVal w with
        | None => None
        | Some val =>
            let prevVersion :=
              match kvAt older key r with
              | Some prev => Mvccpb.Version prev
              | None => 0
              end in
            Some (Mvccpb.mkKeyValue key val (prevVersion + 1) (wRev w))
        end
      else kvAt older key r
  end.

Definition latest (s : Store) (key : string) : option Mvccpb.KeyValue :=
  kvAt (log s) key (revision s).

Definition unavailable : string := "etcdserver: request timed out".
Definition futureRev : string :=
  "etcdserver: mvcc: required revision is a future revision".
Definition duplicateKey : string :=
  "etcdserver: duplicate key given in txn request".

Definition rangeResponse (o : option Mvccpb.KeyValue)
  : Clientv3.GetResponse :=
  match o with
  | Some kv0 => Clientv3.mkGetResponse 1 [kv0]
  | None => Clientv3.mkGetResponse 0 []
  end.

(** A revision of zero or less asks for the newest state. *)
Definition get (key : string) (o : Clientv3.GetOptions) (s : Store)
  : (string + Clientv3.GetResponse) * Store :=
  if negb (online s) then (inl unavailable, s)
  else
    let r :=
      match Clientv3.rev o with
      | Some r => if r <=? 0 then revision s else r
      | None => revision s
      end in
    if revision s <? r then (inl futureRev, s)
    else (inr (rangeResponse (kvAt (log s) key r)), s).

Definition put (key : string) (val : bytes) (withPrevKV : bool) (s : Store)
  : (string + Clientv3.PutResponse) * Store :=
  if negb (online s) then (inl unavailable, s)
  else
    let prev := latest s key in
    let r := revision s + 1 in
    (inr (Clientv3.mkPutResponse (if withPrevKV then prev else None)),
     mkStore (online s) r (mkWrite r key (Some val) :: log s)).

Definition delete (key : string) (withPrevKV : bool) (s : Store)
  : (string + Clientv3.DeleteResponse) * Store :=
  if negb (online s) then (inl unavailable, s)
  else
    match latest s key with
    | None => (inr (Clientv3.mkDeleteResponse 0 []), s)
    | Some prev =>
        let r := revision s + 1 in
        (inr (Clientv3.mkDeleteResponse 1 (if withPrevKV then [prev] else [])),
         mkStore (online s) r (mkWrite r key None :: log s))
    end.

Definition holds (s : Store) (cmp : Clientv3.Cmp) : bool :=
  match cmp with
  | Clientv3.CompareVersionEqual key v =>
      match latest s key with
      | Some kv0 => Mvccpb.Version kv0 =? v
      | None => 0 =? v
      end
  end.

Definition opKey (op : Clientv3.Op) : string :=
  match op with
  | Clientv3.OpPut key _ _ => key
  end.

Fixpoint distinct (keys : list string) : bool :=
  match keys with
  | [] => true
  | k :: rest => negb (bool_decide (k ∈ rest)) && distinct rest
  end.

(** All the writes of one transaction share one revision. *)
Definition txn (cmps : list Clientv3.Cmp) (ops : list Clientv3.Op)
    (s : Store) : (string + Clientv3.TxnResponse) * Store :=
  if negb (online s) then (inl unavailable, s)
  else if negb (distinct (map opKey ops)) then (inl duplicateKey, s)
  else if forallb (holds s) cmps then
    match ops with
    | [] => (inr (Clientv3.mkTxnResponse true []), s)
    | _ =>
        let r := revision s + 1 in
        let responses :=
          map (fun op =>
                 match op with
                 | Clientv3.OpPut key _ withPrevKV =>
                     Clientv3.ResponsePut
                       (Clientv3.mkPutResponse
                          (if withPrevKV then latest s key else None))
                 end) ops in
        let writes :=
          map (fun op =>
                 match op with
                 | Clientv3.OpPut key val _ => mkWrite r key (Some val)
                 end) ops in
        (inr (Clientv3.mkTxnResponse true responses),
         mkStore (online s) r (rev writes ++ log s))
    end
  else (inr (Clientv3.mkTxnResponse false []), s).

(** The log of a store that grew by the calls above: revisions do not
    increase towards older writes, two writes of one key never share a
    revision, and every revision lies between 2 and the current one,
    which fits an [int64]. *)
Fixpoint wfLog (l : list Write) : bool :=
  match l with
  | [] => true
  | w :: older =>
      forallb (fun w' =>
                 (wRev w' <? wRev w)
                 || ((wRev w' =? wRev w)
                     && negb (bool_decide (wKey w' = wKey w)))) older
      && wfLog older
  end.

Definition wf (s : Store) : bool :=
  wfLog (log s)
  && forallb (fun w => (2 <=? wRev w) && (wRev w <=? revision s)) (log s)
  && (1 <=? revision s) && (revision s <=? max_int64).
End Etcd.

#[global] Instance etcdTransport : Transport Etcd.Store := {
  kvGet := Etcd.get;
  kvPut := Etcd.put;
  kvDelete := Etcd.delete;
  kvTxn := Etcd.txn
}.

(** Messages that are their own encoding. *)
#[global] Instance bytesCodec : Codec bytes := {
  Marshal msg := inr msg
}.

(** A client as [newStore] leaves it, without a cache file. *)
Definition newClient {T : Type} (o : Options) (t : T) : client T :=
  mkClient o t ∅ (mkClientMetrics 0 0 0 0 0) ∅ 0 [].

(** ** Scenarios

    Concrete clients over the reference transport, used to run the model:
    a fresh client with prefix ["p/"] and a request timeout of ten
    seconds, the same client after five writes of the key ["k"], clients
    cut off from the store, and a client with a watch on the key. *)

Module Scenario.
Import Byte.

(** Ten seconds, in nanoseconds. *)
Definition tenSeconds : Z := 10000000000.

Definition options : Options := mkOptions "p/" false 2 tenSeconds.

Definition fresh : client Etcd.Store := newClient options Etcd.empty.

(** The client that a run leaves behind; [c] when the run did not return. *)
Definition after {A : Type} (c : client Etcd.Store)
    (run : M (client Etcd.Store) A) : client Etcd.Store :=
  match run c with
  | Done (_, c') => c'
  | _ => c
  end.

Definition written5 : client Etcd.Store :=
  let c := after fresh (Set_ "k" [x61]) in
  let c := after c (Set_ "k" [x62]) in
  let c := after c (Set_ "k" [x63]) in
  let c := after c (Set_ "k" [x64]) in
  after c (Set_ "k" [x65]).

Definition store5 : Etcd.Store := kv written5.

Definition kv5 : Mvccpb.KeyValue := Mvccpb.mkKeyValue "p/k" [x65] 5 6.
Definition v5 : value := newValue [x65] 5 6.
Definition v3 : value := newValue [x63] 3 4.

(** [written5] once it has read the key (the persister has taken the
    signal of the cache). *)
Definition cached5 : client Etcd.Store :=
  withCacheUpdatedCh 0 (mergeCache "p/k" v5 written5).

Definition severed (c : client Etcd.Store) : client Etcd.Store :=
  withKv (Etcd.mkStore false (Etcd.revision (kv c)) (Etcd.log (kv c))) c.

(** A client that watches ["p/k"], whose watchable holds [v5], while the
    store no longer has the key. *)
Definition watching : client Etcd.Store :=
  withWatchables
    {[ "p/k"%string := Kv.OfValue (Kv.mkValueWatchable (Some (ptrValue v5)) []) ]}
    fresh.
End Scenario.

(** ** Further scenarios

    A message that does not serialize, the events of a watch on ["p/k"],
    a store that stays down, a client without a request timeout, and a
    batch of a prefix watch that deletes a key and then puts it again. *)

Definition nilMessage : string := "proto: Marshal called with nil".

(** Messages that may be absent: an absent one does not serialize, as
    [proto.Marshal] of a nil message; another one is its own encoding. *)
#[global] Instance optionCodec : Codec (option bytes) := {
  Marshal msg :=
    match msg with
    | Some b => inr b
    | None => inl nilMessage
    end
}.

Module Fixtures.
Import Byte Scenario.

Definition v6 : value := newValue [x66] 6 7.
Definition kv6 : Mvccpb.KeyValue := Mvccpb.mkKeyValue "p/k" [x66] 6 7.

Definition put6 : Mvccpb.Event := Mvccpb.mkEvent Mvccpb.PUT kv6.
Definition put3 : Mvccpb.Event :=
  Mvccpb.mkEvent Mvccpb.PUT (Mvccpb.mkKeyValue "p/k" [x63] 3 4).
Definition deleted8 : Mvccpb.Event :=
  Mvccpb.mkEvent Mvccpb.DELETE (Mvccpb.mkKeyValue "p/k" [] 0 8).

(** The watchable of [watching]. *)
Definition holding5 : Kv.ValueWatchable :=
  Kv.mkValueWatchable (Some (ptrValue v5)) [].

Definition down (s : Etcd.Store) : Prop := Etcd.online s = false.

(** A fresh client configured without a request timeout. *)
Definition untimed : client Etcd.Store :=
  newClient (mkOptions "p/" false 2 0) Etcd.empty.

Definition va : value := newValue [x61] 1 2.
Definition vb : value := newValue [x63] 1 5.

Definition deleteA : Mvccpb.Event :=
  Mvccpb.mkEvent Mvccpb.DELETE (Mvccpb.mkKeyValue "p/a" [] 0 3).
Definition putA : Mvccpb.Event :=
  Mvccpb.mkEvent Mvccpb.PUT (Mvccpb.mkKeyValue "p/a" [x62] 1 4).
Definition putB : Mvccpb.Event :=
  Mvccpb.mkEvent Mvccpb.PUT (Mvccpb.mkKeyValue "p/b" [x63] 1 5).

Definition batch : list Mvccpb.Event := [deleteA; putA; putB].

(** What a prefix watchable on ["p/"] holds when only ["p/a"] exists. *)
Definition heldA : gmap string kvValue := {[ "p/a"%string := ptrValue va ]}.
End Fixtures.

(** * Properties *)

(** ** Machine arithmetic *)

Lemma wrap64_id (z : Z) : in_int64 z -> wrap64 z = z.
Proof.
  unfold in_int64, min_int64, max_int64, wrap64. intros Hz.
  rewrite Z.mod_small; lia.
Qed.

Lemma add64_succ (z : Z) : min_int64 <= z < max_int64 -> add64 z 1 = z + 1.
Proof.
  intros Hz. unfold add64. apply wrap64_id.
  unfold in_int64, min_int64, max_int64 in *. lia.
Qed.

Lemma sub64_exact (a b : Z) : in_int64 (a - b) -> sub64 a b = a - b.
Proof. intros Hz. unfold sub64. by apply wrap64_id. Qed.

(** ** Request contexts and the deferred cancel *)

Lemma deferCall_live {A : Type} (body : exec A) :
  deferCall cancelCtx body = body.
Proof. by destruct body. Qed.

Lemma deferCall_nil {A : Type} (body : exec A) (a : A) :
  deferCall nilFunc body <> Done a.
Proof. by destruct body. Qed.

Lemma deferCall_Done {A : Type} (cancel : CancelFunc) (body : exec A) (a : A) :
  deferCall cancel body = Done a -> cancel = cancelCtx /\ body = Done a.
Proof. by destruct body, cancel. Qed.

Lemma context_live {T : Type} (c : client T) :
  0 < RequestTimeout (opts c) -> snd (context c) = cancelCtx.
Proof. intros Hlive. unfold context. by destruct (Z.ltb_spec 0 (RequestTimeout (opts c))); [|lia]. Qed.

Lemma context_nil {T : Type} (c : client T) :
  RequestTimeout (opts c) <= 0 -> snd (context c) = nilFunc.
Proof. intros Hnone. unfold context. by destruct (Z.ltb_spec 0 (RequestTimeout (opts c))); [lia|]. Qed.

Lemma context_cancelCtx {T : Type} (c : client T) :
  snd (context c) = cancelCtx -> 0 < RequestTimeout (opts c).
Proof. unfold context. by destruct (Z.ltb_spec 0 (RequestTimeout (opts c))). Qed.

(** A method that has returned has called a cancel function that is not
    nil; what is left is the run of its body. *)
Ltac returned :=
  let H := fresh "Hrun" in
  intros H; apply deferCall_Done in H as [_ H]; revert H.

(** ** The value record *)

(** C1. [a.IsNewer(b)] compares the revisions when [b] is a [*value] too,
    so that it holds exactly when [a.Rev > b.Rev]; the versions are
    compared only when [b] is a [kv.Value] of another kind, one that
    carries no revision. *)
Theorem IsNewer_revision_else_version :
  (forall a b : value, IsNewer a (ptrValue b) = true <-> Rev a > Rev b) /\
  (forall (a : value) (n : Z),
      IsNewer a (otherValue n) = true <-> Version a > n).
Proof.
  split; intros a b; simpl; rewrite Z.ltb_lt; lia.
Qed.

Section ClientFacts.
Context {T : Type} {transport : Transport T}.
Context {Message : Type} {codec : Codec Message}.

Implicit Types c : client T.

(** ** The cache *)

Lemma notifyCacheUpdate_fields c :
  let c' := notifyCacheUpdate c in
  opts c' = opts c /\ kv c' = kv c /\ watchables c' = watchables c /\
  m c' = m c /\ cache c' = cache c /\ sent c' = sent c.
Proof. unfold notifyCacheUpdate. by case_match. Qed.

Lemma cache_deleteCache (key : string) c :
  cache (deleteCache key c) = delete key (cache c).
Proof.
  unfold deleteCache. destruct (cache c !! key) eqn:Hk.
  - by destruct (notifyCacheUpdate_fields (withCache (delete key (cache c)) c))
      as (_ & _ & _ & _ & -> & _).
  - by rewrite delete_id.
Qed.

Lemma cache_mergeCache (key : string) (v : value) c :
  cache (mergeCache key v c) =
  match cache c !! key with
  | None => <[key := v]> (cache c)
  | Some cur => if Rev cur <? Rev v then <[key := v]> (cache c) else cache c
  end.
Proof.
  unfold mergeCache. destruct (cache c !! key) as [cur|]; simpl.
  - destruct (Rev cur <? Rev v); [|done].
    by destruct (notifyCacheUpdate_fields (withCache (<[key:=v]> (cache c)) c))
      as (_ & _ & _ & _ & -> & _).
  - by destruct (notifyCacheUpdate_fields (withCache (<[key:=v]> (cache c)) c))
      as (_ & _ & _ & _ & -> & _).
Qed.

(** C10. A cache operation that leaves the map as it was sends no
    signal: [deleteCache] of a key the map does not hold, and
    [mergeCache] of a value that is not newer than the entry, return the
    client unchanged, map and channel alike. *)
Theorem cache_unchanged_no_signal (key : string) c :
  (cache c !! key = None -> deleteCache key c = c) /\
  (forall v cur : value,
      cache c !! key = Some cur ->
      IsNewer v (ptrValue cur) = false ->
      mergeCache key v c = c).
Proof.
  split.
  - intros Hk. unfold deleteCache. by rewrite Hk.
  - intros v cur Hk Hold. unfold mergeCache. by rewrite Hk, Hold.
Qed.

(** ** Get *)


(** ** History: the checks on the range *)

Lemma setIndex_cases {S A : Type} (res : list A) (i : Z) (v : A) (s : S) :
  setIndex res i v s = Panic \/
  setIndex res i v s = Done (<[Z.to_nat i := v]> res, s).
Proof.
  unfold setIndex.
  destruct ((0 <=? i) && (i <? Z.of_nat (length res))); [by right | by left].
Qed.

(** The loop of [History] fails only with an error of the transport or
    with the report of a missing version. *)
Lemma historyLoop_errors (fuel : nat) (key newKey : string) (from to : Z) :
  forall (version modRev : Z) (res : list (option value)) c res' e c',
    historyLoop fuel key newKey from to version modRev res c
    = Done ((res', Some e), c') ->
    (exists msg, e = errTransport msg) \/
    (exists n, e = errCouldNotFindVersion n key).
Proof.
  induction fuel as [|fuel IH]; intros version modRev res c res' e c';
    simpl; destruct (from <? version); try done.
  unfold bind, gets, defer, lift. returned.
  destruct (callGet _ _ c) as [[err | r] c1].
  { intros [= <- <- <-]. left. by eexists. }
  destruct (Clientv3.Count r =? 0).
  { intros [= <- <- <-]. right. by eexists. }
  destruct (Clientv3.Kvs r) as [|v rest]; [done|].
  destruct (Mvccpb.Version v <? to).
  - destruct (setIndex_cases res (sub64 (Mvccpb.Version v) from)
                (Some (newValue (Mvccpb.Value v) (Mvccpb.Version v)
                         (Mvccpb.ModRevision v))) c1) as [-> | ->];
      [done | apply IH].
  - apply IH.
Qed.

(** A run of the loop that has ended does not change when it is given
    more fuel. *)
Lemma historyLoop_more_fuel (fuel : nat) (key newKey : string) (from to : Z) :
  forall (version modRev : Z) (res : list (option value)) c x (k : nat),
    historyLoop fuel key newKey from to version modRev res c = Done x ->
    historyLoop (fuel + k) key newKey from to version modRev res c = Done x.
Proof.
  induction fuel as [|fuel IH]; intros version modRev res c x k.
  - simpl. destruct (from <? version) eqn:Hlt; [done|].
    intros <-. destruct k; simpl; by rewrite Hlt.
  - simpl. destruct (from <? version); [|done].
    unfold bind, gets, defer, lift.
    intros Hrun. apply deferCall_Done in Hrun as [-> Hrun].
    rewrite deferCall_live. revert Hrun.
    destruct (callGet _ _ c) as [[err | r] c1]; [done|].
    destruct (Clientv3.Count r =? 0); [done|].
    destruct (Clientv3.Kvs r) as [|v rest]; [done|].
    destruct (Mvccpb.Version v <? to).
    + destruct (setIndex_cases res (sub64 (Mvccpb.Version v) from)
                  (Some (newValue (Mvccpb.Value v) (Mvccpb.Version v)
                           (Mvccpb.ModRevision v))) c1) as [-> | ->];
        [done | apply IH].
    + apply IH.
Qed.

(** C4. [History] fails with the invalid-range error exactly when the
    range violates [0 <= from <= to]; an empty range [from = to] gives an
    empty result and no error. In both cases the client is returned as it
    was: nothing has been sent to the store. No amount of fuel changes
    this. *)
Theorem History_range_check (fuel : nat) (key : string) (from to : Z) c :
  ((to < from \/ from < 0 \/ to < 0) ->
   History fuel key from to c = Done (([], Some errInvalidHistoryVersion), c)) /\
  (forall res c',
      History fuel key from to c
      = Done ((res, Some errInvalidHistoryVersion), c') ->
      to < from \/ from < 0 \/ to < 0) /\
  (0 <= from -> from = to ->
   History fuel key from to c = Done (([], None), c)).
Proof.
  unfold History.
  destruct ((to <? from) || (from <? 0) || (to <? 0)) eqn:Hbad.
  - assert (to < from \/ from < 0 \/ to < 0) as Hinv.
    { apply orb_true_iff in Hbad as [Hbad | Hbad];
        [apply orb_true_iff in Hbad as [Hbad | Hbad]|];
        apply Z.ltb_lt in Hbad; lia. }
    split; [done|]. split; [done|]. lia.
  - apply orb_false_iff in Hbad as [Hbad Hto].
    apply orb_false_iff in Hbad as [Hlt Hfrom].
    apply Z.ltb_ge in Hlt, Hfrom, Hto.
    split; [lia|]. split.
    + intros res c'. destruct (from =? to); [done|].
      unfold bind, gets, defer, lift. returned.
      destruct (callGet _ _ c) as [[err | r] c1]; [done|].
      destruct (Clientv3.Count r =? 0); [done|].
      destruct (Clientv3.Kvs r) as [|latestKV rest]; [done|].
      destruct (Mvccpb.Version latestKV <? from); [done|].
      match goal with
      | |- context [if ?n <? 0 then _ else _] => destruct (n <? 0)
      end; [done|].
      destruct (Mvccpb.Version latestKV <? to);
        [match goal with
         | |- context [setIndex ?l ?i ?v ?s] =>
             destruct (setIndex_cases l i v s) as [-> | ->]
         end|]; try done.
      all: intros Hloop; apply historyLoop_errors in Hloop;
        destruct Hloop as [[? ?] | [? ?]]; done.
    + intros _ ->. by rewrite Z.eqb_refl.
Qed.
(** ** Writes *)


(** C7. [SetIfNotExists(k, m)] returns what [CheckAndSet(k, 0, m)]
    returns, version and client included, except that the error
    VersionMismatch is replaced by AlreadyExists. *)
Theorem SetIfNotExists_is_CheckAndSet_zero (key : string) (v : Message) c :
  SetIfNotExists key v c =
  match CheckAndSet key 0 v c with
  | Done (r, c') => Done ((fst r, remapVersionMismatch (snd r)), c')
  | Panic => Panic
  | OutOfFuel => OutOfFuel
  end.
Proof.
  unfold SetIfNotExists, etcdVersionZero, bind, ret.
  destruct (CheckAndSet key 0 v c) as [[[version err] c'] | |]; [|done|done].
  simpl. case_decide as Herr; [by subst|].
  destruct err as [[]|]; done.
Qed.

(** ** Delete *)

(** ** The versions that Set and Commit report *)



(** ** The update callback on an empty batch *)

Lemma deleteCache_registry (key : string) c :
  watchables (deleteCache key c) = watchables c /\
  opts (deleteCache key c) = opts c.
Proof.
  unfold deleteCache. destruct (cache c !! key); [|done].
  by destruct (notifyCacheUpdate_fields (withCache (delete key (cache c)) c))
    as (-> & _ & -> & _).
Qed.

Lemma mergeCache_registry (key : string) (v : value) c :
  watchables (mergeCache key v c) = watchables c /\
  opts (mergeCache key v c) = opts c.
Proof.
  unfold mergeCache.
  destruct (match cache c !! key with
            | Some cur => IsNewer v (ptrValue cur)
            | None => true
            end); [|done].
  by destruct (notifyCacheUpdate_fields (withCache (<[key:=v]> (cache c)) c))
    as (-> & _ & -> & _).
Qed.

Lemma get_results (key : string) c r c' :
  get key c = Done (r, c') ->
  watchables c' = watchables c /\ opts c' = opts c /\
  ((exists v, r = (Some v, None)) \/
   r = (None, Some ErrNotFound) \/
   (exists msg, r = (None, Some (errTransport msg)) /\
                cache c' = cache c /\
                cacheUpdatedCh c' = cacheUpdatedCh c)).
Proof.
  unfold get, callGet. returned.
  destruct (kvGet _ _ (kv c)) as [[err | resp] t'].
  - unfold getCache. simpl. destruct (cache c !! key) as [cachedV|];
      intros [= <- <-]; (split; [done|]); (split; [done|]); eauto 10.
  - destruct (Clientv3.Count resp =? 0).
    + intros [= <- <-].
      destruct (deleteCache_registry key
                  (withSent (sent c ++ [Clientv3.ReqGet key
                     (Clientv3.mkGetOptions (EnableFastGets (opts c)) None)])
                     (withKv t' c))) as [-> ->].
      eauto.
    + destruct (Clientv3.Kvs resp) as [|kv0 rest]; [done|].
      intros [= <- <-].
      match goal with
      | |- context [mergeCache ?k ?v ?c0] =>
          destruct (mergeCache_registry k v c0) as [-> ->]
      end.
      eauto 10.
Qed.

(** What the retried read leaves behind: a value and no error, or
    NotFound under the non-retryable marker, or the transport's error of
    the last attempt, in which case every attempt failed and the cache is
    as it was. The registry of watchables is not touched. *)
Lemma Attempt_get_results (key : string) (retries : nat) :
  forall c st execErr c1 nv err,
    Retry.Attempt retries (getAttempt key) (c, st)
    = Done (execErr, (c1, (nv, err))) ->
    watchables c1 = watchables c /\ opts c1 = opts c /\
    ((execErr = None /\ exists v, nv = Some v) \/
     (execErr = Some (NonRetryableError ErrNotFound) /\ nv = None) \/
     (exists msg, execErr = Some (errTransport msg) /\
                  cache c1 = cache c /\
                  cacheUpdatedCh c1 = cacheUpdatedCh c)).
Proof.
  induction retries as [|retries IH]; intros c st execErr c1 nv err; simpl;
    unfold bind, getAttempt; simpl;
    destruct (get key c) as [[[nv0 err0] c0] | |] eqn:Hget; try done;
    apply get_results in Hget
      as (Hw & Ho &
          [[v [= -> ->]] | [[= -> ->] | (msg & [= -> ->] & Hcache & Hch)]]);
    simpl.
  - intros [= <- <- <- <-]. eauto 10.
  - intros [= <- <- <- <-]. eauto 10.
  - intros [= <- <- <- <-]. eauto 10.
  - intros [= <- <- <- <-]. eauto 10.
  - intros [= <- <- <- <-]. eauto 10.
  - intros Hrest. apply IH in Hrest as (Hw' & Ho' & Hcases).
    split; [congruence|]. split; [congruence|].
    destruct Hcases as [? | [? | (msg' & ? & Hcache' & Hch')]]; eauto.
    right. right. exists msg'. split; [done|]. split; congruence.
Qed.

(** C3, as the code has it. On an empty batch the callback makes the
    retried point read. When that read fails with anything but NotFound,
    the callback returns with the registry and the cache as they were: no
    [Update] reaches the watchable and its value stays. NotFound does not
    count as a failure: the callback goes on with a nil value, which a
    watchable that holds a value receives as an [Update(nil)], and which
    changes nothing for a watchable that holds none. *)
Theorem update_empty_batch (key : string) c (execErr : option error)
    (c1 : client T) (nv : option value) (err : option error) :
  Retry.Attempt (MaxRetries (opts c)) (getAttempt key) (c, (None, None))
  = Done (execErr, (c1, (nv, err))) ->
  (forall e,
      execErr = Some e -> e <> NonRetryableError ErrNotFound ->
      update key [] c = Done (None, c1) /\
      watchables c1 = watchables c /\
      cache c1 = cache c /\ cacheUpdatedCh c1 = cacheUpdatedCh c) /\
  (forall w,
      execErr = Some (NonRetryableError ErrNotFound) ->
      watchables c !! key = Some (Kv.OfValue w) ->
      match Kv.held w with
      | Some cur =>
          update key [] c
          = Done (None,
                  withWatchables
                    (<[key := Kv.OfValue
                                (Kv.mkValueWatchable None
                                   (Kv.updates w ++ [None]))]>
                       (watchables c)) c1)
      | None =>
          update key [] c = Done (None, c1) /\ watchables c1 = watchables c
      end).
Proof.
  intros Hread.
  pose proof (Attempt_get_results _ _ _ _ _ _ _ _ Hread)
    as (Hw & _ & Hcases).
  unfold update, bind, getFromKVStore. simpl. rewrite Hread. split.
  - intros e -> Hne.
    destruct Hcases as [[? _] | [[? _] | (msg & [= ->] & Hcache & Hch)]];
      [done|congruence|].
    simpl. done.
  - intros w -> Hkey.
    destruct Hcases as [[? _] | [[_ ->] | (msg & ? & _)]]; [done| |done].
    simpl. unfold gets. rewrite Hw, Hkey. unfold Kv.Get.
    destruct (Kv.held w) as [cur|]; [|done].
    unfold updateWatchable, bind, modify, ret. simpl. by rewrite Hw.
Qed.
End ClientFacts.

(** ** The reference transport: how the versions of a key are chained *)

Section EtcdFacts.
Import Etcd.

Implicit Types (l : list Write) (key : string) (r : Z).

Lemma wfLog_older_same_key (w : Write) l :
  wfLog (w :: l) = true ->
  wfLog l = true /\
  forall w', w' ∈ l -> wKey w' = wKey w -> wRev w' < wRev w.
Proof.
  simpl. intros [Hhead Hrest]%andb_true_iff. split; [done|].
  intros w' Hin Hkey. apply list_elem_of_In in Hin.
  rewrite forallb_forall in Hhead. specialize (Hhead w' Hin).
  apply orb_true_iff in Hhead as [Hlt | Heq].
  - by apply Z.ltb_lt.
  - apply andb_true_iff in Heq as [_ Hne].
    apply negb_true_iff, bool_decide_eq_false in Hne. done.
Qed.

(** Reads at two revisions agree when no write of the key lies between. *)
Lemma kvAt_irrelevant l key (r1 r2 : Z) :
  (forall w, w ∈ l -> wKey w = key -> wRev w <= r1) ->
  r1 <= r2 ->
  kvAt l key r2 = kvAt l key r1.
Proof.
  induction l as [|w older IH]; intros Hbound Hle; [done|]. simpl.
  assert (kvAt older key r2 = kvAt older key r1) as Holder.
  { apply IH; [|done]. intros w' Hin. apply Hbound. by right. }
  destruct (bool_decide (wKey w = key)) eqn:Hkey.
  - apply bool_decide_eq_true in Hkey.
    assert (wRev w <= r1) as Hw by (apply Hbound; [by left | done]).
    rewrite !andb_true_r.
    destruct (Z.leb_spec (wRev w) r2); [|lia].
    destruct (Z.leb_spec (wRev w) r1); [|lia].
    by rewrite Holder.
  - by rewrite !andb_false_r.
Qed.

Lemma kvAt_Some l key r (kv0 : Mvccpb.KeyValue) :
  kvAt l key r = Some kv0 ->
  Mvccpb.Key kv0 = key /\ Mvccpb.ModRevision kv0 <= r /\
  exists w, w ∈ l /\ wRev w = Mvccpb.ModRevision kv0.
Proof.
  induction l as [|w older IH]; [done|]. simpl.
  destruct ((wRev w <=? r) && bool_decide (wKey w = key)) eqn:Hhead.
  - apply andb_true_iff in Hhead as [Hle%Z.leb_le _].
    destruct (wVal w) as [val|]; [|done].
    intros [= <-]. simpl. split; [done|]. split; [done|].
    exists w. split; [by left | done].
  - intros Hk. destruct (IH Hk) as (? & ? & w' & ? & ?).
    split; [done|]. split; [done|]. exists w'. split; [by right | done].
Qed.

(** The chain that [History] walks: a read just below the mod-revision
    of a key-value gives the key-value of the version before, and
    nothing when there is none; a read at the mod-revision gives the
    key-value itself. *)
Lemma kvAt_chain l key r (kv0 : Mvccpb.KeyValue) :
  wfLog l = true ->
  kvAt l key r = Some kv0 ->
  1 <= Mvccpb.Version kv0 /\
  kvAt l key (Mvccpb.ModRevision kv0) = Some kv0 /\
  match kvAt l key (Mvccpb.ModRevision kv0 - 1) with
  | Some prev =>
      Mvccpb.Version prev = Mvccpb.Version kv0 - 1 /\
      Mvccpb.ModRevision prev < Mvccpb.ModRevision kv0
  | None => Mvccpb.Version kv0 = 1
  end.
Proof.
  revert r kv0. induction l as [|w older IH]; intros r kv0; [done|].
  intros [Hwf Hsame]%wfLog_older_same_key. simpl.
  destruct ((wRev w <=? r) && bool_decide (wKey w = key)) eqn:Hhead.
  - apply andb_true_iff in Hhead as [Hle%Z.leb_le Hkey].
    rewrite Hkey. apply bool_decide_eq_true in Hkey.
    destruct (wVal w) as [val|]; [|done].
    intros [= <-]. simpl.
    assert (forall r', wRev w - 1 <= r' ->
                       kvAt older key r' = kvAt older key (wRev w - 1))
      as Hsettled.
    { intros r' Hr'. apply kvAt_irrelevant; [|done].
      intros w' Hin Hk. specialize (Hsame w' Hin). rewrite Hk, Hkey in Hsame.
      specialize (Hsame eq_refl). lia. }
    rewrite (Hsettled r) by lia. rewrite (Hsettled (wRev w)) by lia.
    rewrite Z.leb_refl. simpl.
    destruct (Z.leb_spec (wRev w) (wRev w - 1)); [lia|]. simpl.
    destruct (kvAt older key (wRev w - 1)) as [prev|] eqn:Hprev.
    + destruct (IH _ _ Hwf Hprev) as (Hpos & _ & _).
      apply kvAt_Some in Hprev as (_ & Hrev & _).
      repeat split; lia.
    + repeat split; lia.
  - intros Hk. destruct (IH _ _ Hwf Hk) as (Hpos & Hself & Hprev).
    apply kvAt_Some in Hk as (_ & Hrev & _).
    split; [done|].
    assert (forall r', r' <= r ->
              (wRev w <=? r') && bool_decide (wKey w = key) = false)
      as Hskip.
    { intros r' Hr'. apply andb_false_iff.
      apply andb_false_iff in Hhead as [Hgt | Hne].
      - left. apply Z.leb_gt in Hgt. apply Z.leb_gt. lia.
      - by right. }
    rewrite !Hskip by lia. done.
Qed.
Lemma wf_revisions (s : Store) :
  wf s = true ->
  wfLog (log s) = true /\ revision s <= max_int64 /\ 1 <= revision s /\
  forall w, w ∈ log s -> 2 <= wRev w <= revision s.
Proof.
  unfold wf.
  intros [[[Hlog Hall]%andb_true_iff Hone]%andb_true_iff Hmax]%andb_true_iff.
  apply Z.leb_le in Hone, Hmax. do 3 (split; [done|]).
  intros w Hin. apply list_elem_of_In in Hin.
  rewrite forallb_forall in Hall. apply Hall in Hin.
  apply andb_true_iff in Hin as [Hlo%Z.leb_le Hhi%Z.leb_le]. done.
Qed.

Lemma wfLog_cons (w : Write) l :
  wfLog (w :: l) = true <->
  (forall w', w' ∈ l ->
     wRev w' < wRev w \/ (wRev w' = wRev w /\ wKey w' <> wKey w)) /\
  wfLog l = true.
Proof.
  simpl. rewrite andb_true_iff, forallb_forall. split.
  - intros [Hhead Hrest]. split; [|done].
    intros w' Hin%list_elem_of_In. specialize (Hhead w' Hin).
    apply orb_true_iff in Hhead as [Hlt%Z.ltb_lt | Heq]; [by left|].
    apply andb_true_iff in Heq as [Hrev%Z.eqb_eq Hne].
    apply negb_true_iff, bool_decide_eq_false in Hne. by right.
  - intros [Hhead Hrest]. split; [|done].
    intros w' Hin%list_elem_of_In. apply orb_true_iff.
    destruct (Hhead w' Hin) as [Hlt | [Hrev Hne]].
    + left. by apply Z.ltb_lt.
    + right. apply andb_true_iff. split; [by apply Z.eqb_eq|].
      by apply negb_true_iff, bool_decide_eq_false.
Qed.

Lemma wf_intro (s : Store) :
  wfLog (log s) = true ->
  (forall w, w ∈ log s -> 2 <= wRev w <= revision s) ->
  1 <= revision s <= max_int64 ->
  wf s = true.
Proof.
  intros Hlog Hrevs [Hone Hmax]. unfold wf.
  rewrite !andb_true_iff, forallb_forall. repeat split; try done.
  - intros w Hin%list_elem_of_In. apply Hrevs in Hin.
    apply andb_true_iff. split; apply Z.leb_le; lia.
  - by apply Z.leb_le.
  - by apply Z.leb_le.
Qed.

(** The writes of one transaction, put on top of a log. *)
Lemma wfLog_txn (r : Z) (ops : list Clientv3.Op) :
  forall acc,
    wfLog acc = true ->
    (forall w, w ∈ acc -> wRev w <= r) ->
    (forall w, w ∈ acc -> wRev w = r -> wKey w ∉ map opKey ops) ->
    distinct (map opKey ops) = true ->
    wfLog (rev (map (fun op =>
                       match op with
                       | Clientv3.OpPut key val _ => mkWrite r key (Some val)
                       end) ops) ++ acc) = true.
Proof.
  induction ops as [|[key val p] ops IH]; intros acc Hacc Hle Hfresh Hdistinct;
    [done|].
  simpl in *. apply andb_true_iff in Hdistinct as [Hnew Hdistinct].
  apply negb_true_iff, bool_decide_eq_false in Hnew.
  rewrite <- app_assoc. simpl. apply IH; [| | |done].
  - apply wfLog_cons. split; [|done]. simpl.
    intros w' Hin. destruct (Z.eq_dec (wRev w') r) as [Heq | Hne].
    + right. split; [done|]. intros Hkey.
      apply (Hfresh w' Hin Heq). rewrite Hkey. by left.
    + left. specialize (Hle w' Hin). lia.
  - intros w [-> | Hin]%elem_of_cons; [simpl; lia | by apply Hle].
  - intros w [-> | Hin]%elem_of_cons Hrev; simpl.
    + done.
    + intros Hk. apply (Hfresh w Hin Hrev). by right.
Qed.

(** Every call keeps the log of the reference store well formed, as long
    as the revision has room to grow. *)
Lemma wf_preserved (s : Store) :
  wf s = true -> revision s < max_int64 ->
  (forall key o, wf (snd (get key o s)) = true) /\
  (forall key val p, wf (snd (put key val p s)) = true) /\
  (forall key p, wf (snd (delete key p s)) = true) /\
  (forall cmps ops, wf (snd (txn cmps ops s)) = true).
Proof.
  intros Hwf Hroom.
  destruct (wf_revisions _ Hwf) as (Hlog & Hmax & Hone & Hrevs).
  assert (forall key val,
             wf (mkStore (online s) (revision s + 1)
                   (mkWrite (revision s + 1) key val :: log s)) = true)
    as Hwrite.
  { intros key val. apply wf_intro; cbn [log revision]; [| |lia].
    - apply wfLog_cons. split; [|done]. simpl.
      intros w' Hin. left. specialize (Hrevs w' Hin). lia.
    - intros w [-> | Hin]%elem_of_cons; [simpl; lia|].
      specialize (Hrevs w Hin). lia. }
  split; [|split; [|split]].
  - intros key o. unfold get. by repeat case_match.
  - intros key val p. unfold put. destruct (online s); simpl; [|done].
    apply Hwrite.
  - intros key p. unfold delete. destruct (online s); simpl; [|done].
    destruct (latest s key); simpl; [apply Hwrite | done].
  - intros cmps ops. unfold txn. destruct (online s); cbn [negb]; [|done].
    destruct (distinct (map opKey ops)) eqn:Hdistinct; cbn [negb]; [|done].
    destruct (forallb (holds s) cmps); [|done].
    destruct ops as [|op ops]; [done|]. cbn [snd].
    apply wf_intro; cbn [log revision]; [| |lia].
    + apply wfLog_txn; [done| | |done].
      * intros w Hin. specialize (Hrevs w Hin). lia.
      * intros w Hin Hrev. specialize (Hrevs w Hin). lia.
    + intros w [Hin | Hin]%elem_of_app.
      * apply list_elem_of_In in Hin. apply in_rev in Hin.
        apply list_elem_of_In, list_elem_of_fmap in Hin
          as ([key val p] & -> & _).
        simpl. lia.
      * specialize (Hrevs w Hin). lia.
Qed.

Lemma withKv_same (c : client Store) : withKv (kv c) c = c.
Proof. by destruct c. Qed.

(** A read of the reference store pinned to a past revision. *)
Lemma callGet_at (c : client Store) key (rv : Z) :
  online (kv c) = true ->
  1 <= rv <= revision (kv c) ->
  callGet key (Clientv3.mkGetOptions false (Some rv)) c
  = (inr (rangeResponse (kvAt (log (kv c)) key rv)),
     withSent (sent c ++ [Clientv3.ReqGet key
                            (Clientv3.mkGetOptions false (Some rv))]) c).
Proof.
  intros Hon Hrv. unfold callGet. simpl. unfold get. rewrite Hon. simpl.
  destruct (Z.leb_spec rv 0); [lia|].
  destruct (Z.ltb_spec (revision (kv c)) rv); [lia|].
  by rewrite withKv_same.
Qed.

(** One turn of the loop of [History] against the reference store. *)
Lemma historyLoop_step (s : Store) (fuel : nat) key newKey
    (from to r : Z) (cur : Mvccpb.KeyValue) :
  online s = true -> wf s = true ->
  kvAt (log s) newKey r = Some cur ->
  forall (c : client Store) (res : list (option value)) (version : Z),
    kv c = s ->
    version = Mvccpb.Version cur ->
    from < version ->
    0 < RequestTimeout (opts c) ->
    historyLoop (S fuel) key newKey from to version
      (Mvccpb.ModRevision cur) res c
    = let c1 :=
        withSent (sent c ++ [Clientv3.ReqGet newKey
                               (Clientv3.mkGetOptions false
                                  (Some (Mvccpb.ModRevision cur - 1)))]) c in
      match kvAt (log s) newKey (Mvccpb.ModRevision cur - 1) with
      | None =>
          Done (([], Some (errCouldNotFindVersion (sub64 version 1) key)), c1)
      | Some prev =>
          bind (if Mvccpb.Version prev <? to
                then setIndex res (sub64 (Mvccpb.Version prev) from)
                       (Some (newValue (Mvccpb.Value prev)
                                (Mvccpb.Version prev)
                                (Mvccpb.ModRevision prev)))
                else ret res)
               (fun res' =>
                  historyLoop fuel key newKey from to (Mvccpb.Version prev)
                    (Mvccpb.ModRevision prev) res') c1
      end.
Proof.
  intros Hon Hwf Hcur c res version <- -> Hlt Hlive.
  destruct (wf_revisions _ Hwf) as (Hlog & Hmax & Hone & Hrevs).
  destruct (kvAt_Some _ _ _ _ Hcur) as (_ & _ & w & Hin & Hw).
  specialize (Hrevs w Hin). rewrite Hw in Hrevs.
  simpl. destruct (Z.ltb_spec from (Mvccpb.Version cur)); [|lia].
  unfold bind at 1. unfold gets, defer.
  rewrite (context_live _ Hlive), deferCall_live.
  unfold bind at 1. unfold lift.
  rewrite sub64_exact
    by (unfold in_int64, min_int64, max_int64 in *; lia).
  rewrite callGet_at by (done || lia).
  by destruct (kvAt (log (kv c)) newKey (Mvccpb.ModRevision cur - 1)).
Qed.

Lemma historyLoop_done (c : client Store) (fuel : nat) key newKey
    (from to version modRev : Z) (res : list (option value)) :
  version <= from ->
  historyLoop fuel key newKey from to version modRev res c
  = Done ((res, None), c).
Proof.
  intros Hle. destruct fuel; simpl;
    by destruct (Z.ltb_spec from version); [lia|].
Qed.

#[local] Arguments historyLoop : simpl never.

Lemma callGet_latest (c : client Store) key :
  online (kv c) = true -> wf (kv c) = true ->
  callGet key (Clientv3.mkGetOptions false None) c
  = (inr (rangeResponse (latest (kv c) key)),
     withSent (sent c ++ [Clientv3.ReqGet key
                            (Clientv3.mkGetOptions false None)]) c).
Proof.
  intros Hon Hwf. unfold callGet. simpl. unfold get. rewrite Hon. simpl.
  rewrite Z.ltb_irrefl. by rewrite withKv_same.
Qed.

(** C5, as the code has it. The range of [History] is half open: on a
    client with a request timeout, for a key whose latest version is 5,
    [History(k, 1, 4)] returns the values of versions 1, 2 and 3, in this
    order, each as the store held it at its revision; four turns of the
    loop are enough, and the store is left as it was. *)
Theorem History_one_to_four (c : client Store) (key : string)
    (kv5 : Mvccpb.KeyValue) :
  let newKey := ApplyPrefix (opts c) key in
  0 < RequestTimeout (opts c) ->
  online (kv c) = true -> wf (kv c) = true ->
  latest (kv c) newKey = Some kv5 ->
  Mvccpb.Version kv5 = 5 ->
  exists (v1 v2 v3 : value) (c' : client Store),
    (forall fuel, (4 <= fuel)%nat ->
       History fuel key 1 4 c
       = Done (([Some v1; Some v2; Some v3], None), c')) /\
    Ver v1 = 1 /\ Ver v2 = 2 /\ Ver v3 = 3 /\
    Rev v1 < Rev v2 < Rev v3 /\
    (forall v, v ∈ [v1; v2; v3] ->
       kvAt (log (kv c)) newKey (Rev v)
       = Some (Mvccpb.mkKeyValue newKey (Val v) (Ver v) (Rev v))) /\
    kv c' = kv c.
Proof.
  intros newKey Hlive Hon Hwf Hlatest Hv5.
  destruct (wf_revisions _ Hwf) as (Hlog & _).
  unfold latest in Hlatest.
  destruct (kvAt_chain _ _ _ _ Hlog Hlatest) as (_ & _ & H4).
  destruct (kvAt (log (kv c)) newKey (Mvccpb.ModRevision kv5 - 1))
    as [kv4|] eqn:Hkv4; [|lia].
  destruct H4 as [Hv4 Hr4]. rewrite Hv5 in Hv4. change (5 - 1) with 4 in Hv4.
  destruct (kvAt_chain _ _ _ _ Hlog Hkv4) as (_ & _ & H3).
  destruct (kvAt (log (kv c)) newKey (Mvccpb.ModRevision kv4 - 1))
    as [kv3|] eqn:Hkv3; [|lia].
  destruct H3 as [Hv3 Hr3]. rewrite Hv4 in Hv3. change (4 - 1) with 3 in Hv3.
  destruct (kvAt_chain _ _ _ _ Hlog Hkv3) as (_ & Hself3 & H2).
  destruct (kvAt (log (kv c)) newKey (Mvccpb.ModRevision kv3 - 1))
    as [kv2|] eqn:Hkv2; [|lia].
  destruct H2 as [Hv2 Hr2]. rewrite Hv3 in Hv2. change (3 - 1) with 2 in Hv2.
  destruct (kvAt_chain _ _ _ _ Hlog Hkv2) as (_ & Hself2 & H1).
  destruct (kvAt (log (kv c)) newKey (Mvccpb.ModRevision kv2 - 1))
    as [kv1|] eqn:Hkv1; [|lia].
  destruct H1 as [Hv1 Hr1]. rewrite Hv2 in Hv1. change (2 - 1) with 1 in Hv1.
  destruct (kvAt_chain _ _ _ _ Hlog Hkv1) as (_ & Hself1 & _).
  eexists (newValue (Mvccpb.Value kv1) 1 (Mvccpb.ModRevision kv1)),
          (newValue (Mvccpb.Value kv2) 2 (Mvccpb.ModRevision kv2)),
          (newValue (Mvccpb.Value kv3) 3 (Mvccpb.ModRevision kv3)),
          _.
  split; [|split; [done|split; [done|split; [done|split; [simpl; lia|split]]]]].
  - intros fuel Hfuel.
    do 4 (destruct fuel as [|fuel]; [lia|]).
    unfold History. simpl. unfold bind at 1. unfold gets at 1. fold newKey.
    unfold bind at 1. unfold gets, defer.
    rewrite (context_live _ Hlive), deferCall_live.
    unfold bind at 1. unfold lift.
    rewrite callGet_latest by done. unfold latest. rewrite Hlatest. simpl.
    rewrite Hv5. simpl. unfold bind at 1. unfold ret at 1.
    rewrite (historyLoop_step _ _ _ _ _ _ _ _ Hon Hwf Hlatest) by (done || lia).
    simpl. rewrite Hkv4, Hv4. simpl. unfold bind at 1. unfold ret at 1.
    rewrite (historyLoop_step _ _ _ _ _ _ _ _ Hon Hwf Hkv4) by (done || lia).
    simpl. rewrite Hkv3, Hv3. simpl. unfold bind at 1.
    change (sub64 3 1) with 2. unfold setIndex at 1. simpl.
    rewrite (historyLoop_step _ _ _ _ _ _ _ _ Hon Hwf Hkv3) by (done || lia).
    simpl. rewrite Hkv2, Hv2. simpl. unfold bind at 1.
    change (sub64 2 1) with 1. unfold setIndex at 1. simpl.
    rewrite (historyLoop_step _ _ _ _ _ _ _ _ Hon Hwf Hkv2) by (done || lia).
    simpl. rewrite Hkv1, Hv1. simpl. unfold bind at 1.
    change (sub64 1 1) with 0. unfold setIndex at 1. simpl.
    rewrite historyLoop_done by lia.
    reflexivity.
  - intros v Hv. simpl.
    apply elem_of_cons in Hv as [-> | Hv]; [|apply elem_of_cons in Hv as [-> | Hv]];
      [| |apply list_elem_of_singleton in Hv as ->]; simpl.
    + rewrite Hself1. f_equal. destruct kv1; simpl in *.
      apply kvAt_Some in Hkv1 as (Hk & _). simpl in Hk. congruence.
    + rewrite Hself2. f_equal. destruct kv2; simpl in *.
      apply kvAt_Some in Hkv2 as (Hk & _). simpl in Hk. congruence.
    + rewrite Hself3. f_equal. destruct kv3; simpl in *.
      apply kvAt_Some in Hkv3 as (Hk & _). simpl in Hk. congruence.
  - reflexivity.
Qed.
(** ** The reference transport: History in general *)

(** A key cannot have more versions than there are revisions below its
    mod-revision. *)
Lemma kvAt_version_bound (s : Store) key :
  wf s = true ->
  forall (n : nat) r (kv0 : Mvccpb.KeyValue),
    kvAt (log s) key r = Some kv0 ->
    Mvccpb.Version kv0 = Z.of_nat n ->
    Mvccpb.Version kv0 <= Mvccpb.ModRevision kv0 - 1.
Proof.
  intros Hwf. destruct (wf_revisions _ Hwf) as (Hlog & _ & _ & Hrevs).
  induction n as [|n IH]; intros r kv0 Hkv Hn;
    destruct (kvAt_chain _ _ _ _ Hlog Hkv) as (Hpos & _ & Hprev); [lia|].
  destruct (kvAt_Some _ _ _ _ Hkv) as (_ & _ & w & Hin & Hw).
  specialize (Hrevs w Hin).
  destruct (kvAt (log s) key (Mvccpb.ModRevision kv0 - 1)) as [prev|] eqn:Hp;
    [|lia].
  destruct Hprev as [Hvp Hrp]. specialize (IH _ _ Hp). lia.
Qed.

(** The loop of [History], started at a version that the store holds,
    fills the index of every version from [from] up to the one before the
    start that lies below [to], and leaves the other indices alone. *)
Lemma historyLoop_fill (s : Store) key newKey (from to : Z) :
  online s = true -> wf s = true -> 1 <= from ->
  forall (n : nat) (cur : Mvccpb.KeyValue) (r : Z) (fuel : nat)
         (res : list (option value)) (c : client Store),
    kv c = s ->
    0 < RequestTimeout (opts c) ->
    kvAt (log s) newKey r = Some cur ->
    Mvccpb.Version cur = from + Z.of_nat n ->
    (n <= fuel)%nat ->
    Z.min to (Mvccpb.Version cur) - from <= Z.of_nat (length res) ->
    exists res' c',
      historyLoop fuel key newKey from to (Mvccpb.Version cur)
        (Mvccpb.ModRevision cur) res c = Done ((res', None), c') /\
      kv c' = s /\ length res' = length res /\
      (forall i : nat,
          from + Z.of_nat i < Mvccpb.Version cur -> from + Z.of_nat i < to ->
          exists v, res' !! i = Some (Some v) /\
                    Ver v = from + Z.of_nat i /\
                    kvAt (log s) newKey (Rev v)
                    = Some (Mvccpb.mkKeyValue newKey (Val v) (Ver v) (Rev v))) /\
      (forall i : nat,
          ~ (from + Z.of_nat i < Mvccpb.Version cur /\ from + Z.of_nat i < to) ->
          res' !! i = res !! i).
Proof.
  intros Hon Hwf Hfrom.
  destruct (wf_revisions _ Hwf) as (Hlog & Hmax & Hone & Hrevs).
  induction n as [|n IH];
    intros cur r fuel res c Hkv Hlive Hcur Hver Hfuel Hlen.
  - exists res, c. rewrite historyLoop_done by lia.
    repeat split; try done. intros i Hi. lia.
  - destruct fuel as [|fuel]; [lia|].
    rewrite (historyLoop_step _ _ _ _ _ _ _ _ Hon Hwf Hcur) by (done || lia).
    cbv zeta.
    destruct (kvAt_chain _ _ _ _ Hlog Hcur) as (Hpos & _ & Hprev).
    destruct (kvAt (log s) newKey (Mvccpb.ModRevision cur - 1))
      as [p|] eqn:Hp; [|lia].
    destruct Hprev as [Hvp Hrp].
    destruct (kvAt_chain _ _ _ _ Hlog Hp) as (Hposp & Hselfp & _).
    destruct (kvAt_Some _ _ _ _ Hp) as (Hkeyp & _ & w & Hin & Hw).
    specialize (Hrevs w Hin).
    pose proof (kvAt_version_bound s newKey Hwf (Z.to_nat (Mvccpb.Version p))
                  _ p Hp ltac:(lia)) as Hbound.
    set (c1 := withSent _ c).
    assert (kv c1 = s) as Hkv1 by done.
    unfold bind. destruct (Z.ltb_spec (Mvccpb.Version p) to) as [Hlt | Hge].
    + unfold setIndex.
      rewrite sub64_exact
        by (unfold in_int64, min_int64, max_int64 in *; lia).
      replace (Mvccpb.Version p - from) with (Z.of_nat n) by lia.
      assert ((0 <=? Z.of_nat n) && (Z.of_nat n <? Z.of_nat (length res)) = true)
        as ->.
      { apply andb_true_iff. split; [apply Z.leb_le | apply Z.ltb_lt]; lia. }
      unfold ret. rewrite Nat2Z.id.
      set (vp := newValue (Mvccpb.Value p) (Mvccpb.Version p)
                   (Mvccpb.ModRevision p)).
      destruct (IH p _ fuel (<[n := Some vp]> res) c1 Hkv1 Hlive Hp)
        as (res' & c' & Hrun & Hkv' & Hlen' & Hfilled & Hrest);
        [lia | lia | rewrite length_insert; lia |].
      exists res', c'. rewrite Hrun. rewrite length_insert in Hlen'.
      repeat split; try done.
      * intros i Hi Hto.
        destruct (Z.eq_dec (from + Z.of_nat i) (Mvccpb.Version p)) as [Heq | Hne].
        -- exists vp. assert (i = n) as -> by lia.
           rewrite Hrest by lia.
           rewrite list_lookup_insert_eq by lia.
           split; [done|]. split; [simpl; lia|].
           simpl. rewrite Hselfp. f_equal. destruct p; simpl in *. congruence.
        -- apply Hfilled; lia.
      * intros i Hi. rewrite Hrest by lia.
        apply list_lookup_insert_ne. lia.
    + unfold ret.
      destruct (IH p _ fuel res c1 Hkv1 Hlive Hp)
        as (res' & c' & Hrun & Hkv' & Hlen' & Hfilled & Hrest); [lia..|].
      exists res', c'. rewrite Hrun. repeat split; try done.
      * intros i Hi Hto. apply Hfilled; lia.
      * intros i Hi. apply Hrest. lia.
Qed.
(** The start of [History] on a key that the store holds: the checks pass,
    the latest key-value is read, the result is allocated and, when the
    latest version lies below [to], its entry is written. *)
Lemma History_start (c : client Store) (fuel : nat) key (from to : Z)
    (latestKV : Mvccpb.KeyValue) :
  let newKey := ApplyPrefix (opts c) key in
  let version := Mvccpb.Version latestKV in
  let size := Z.to_nat (Z.min (to - from) (version - from + 1)) in
  let c1 := withSent (sent c ++ [Clientv3.ReqGet newKey
                                   (Clientv3.mkGetOptions false None)]) c in
  0 < RequestTimeout (opts c) ->
  online (kv c) = true -> wf (kv c) = true ->
  latest (kv c) newKey = Some latestKV ->
  0 <= from -> from < to -> to <= max_int64 -> from <= version ->
  History fuel key from to c
  = historyLoop fuel key newKey from to version (Mvccpb.ModRevision latestKV)
      (if version <? to
       then <[Z.to_nat (version - from) :=
                Some (newValue (Mvccpb.Value latestKV) version
                        (Mvccpb.ModRevision latestKV))]>
              (replicate size None)
       else replicate size None) c1.
Proof.
  intros newKey version size c1 Hlive Hon Hwf Hlatest Hfrom Hlt Hto Hle.
  destruct (wf_revisions _ Hwf) as (Hlog & Hmax & Hone & Hrevs).
  destruct (kvAt_chain _ _ _ _ Hlog Hlatest) as (Hpos & _).
  destruct (kvAt_Some _ _ _ _ Hlatest) as (_ & Hrev & _).
  pose proof (kvAt_version_bound _ newKey Hwf (Z.to_nat version) _ _ Hlatest
                ltac:(unfold version in *; lia)) as Hbound.
  fold version in Hpos, Hbound.
  unfold History.
  destruct (Z.ltb_spec to from); [lia|].
  destruct (Z.ltb_spec from 0); [lia|].
  destruct (Z.ltb_spec to 0); [lia|]. cbn [orb].
  destruct (Z.eqb_spec from to); [lia|].
  unfold bind at 1. unfold gets at 1. fold newKey.
  unfold bind at 1. unfold gets, defer.
  rewrite (context_live _ Hlive), deferCall_live.
  unfold bind at 1. unfold lift.
  rewrite callGet_latest by done. fold c1. rewrite Hlatest.
  cbn [rangeResponse Clientv3.Count Clientv3.Kvs Z.eqb].
  fold version.
  destruct (Z.ltb_spec version from); [lia|].
  rewrite !sub64_exact by (unfold in_int64, min_int64, max_int64 in *; lia).
  unfold add64. rewrite wrap64_id
    by (unfold in_int64, min_int64, max_int64 in *; lia).
  assert ((if version - from + 1 <? to - from
           then version - from + 1 else to - from)
          = Z.min (to - from) (version - from + 1)) as ->.
  { destruct (Z.ltb_spec (version - from + 1) (to - from)); lia. }
  destruct (Z.ltb_spec (Z.min (to - from) (version - from + 1)) 0); [lia|].
  fold size. unfold bind.
  destruct (Z.ltb_spec version to) as [Hbelow | Habove]; [|done].
  unfold setIndex. rewrite length_replicate.
  assert ((0 <=? version - from) && (version - from <? Z.of_nat size) = true)
    as ->; [|done].
  apply andb_true_iff. split; [apply Z.leb_le | apply Z.ltb_lt]; lia.
Qed.

(** The range of [History] is half open. On a client with a request
    timeout, for a key that the store holds with latest version [n], and
    [1 <= from < to] with [from <= n], the result has one entry for each
    version in [from, to) that exists, in ascending order, and every entry
    is filled. *)
Theorem History_half_open (c : client Store) key (from to : Z)
    (latestKV : Mvccpb.KeyValue) :
  let newKey := ApplyPrefix (opts c) key in
  let version := Mvccpb.Version latestKV in
  0 < RequestTimeout (opts c) ->
  online (kv c) = true -> wf (kv c) = true ->
  latest (kv c) newKey = Some latestKV ->
  1 <= from -> from < to -> to <= max_int64 -> from <= version ->
  exists res c',
    (forall fuel, (Z.to_nat (version - from) <= fuel)%nat ->
       History fuel key from to c = Done ((res, None), c')) /\
    kv c' = kv c /\
    Z.of_nat (length res) = Z.min (to - from) (version - from + 1) /\
    forall i : nat,
      (i < length res)%nat ->
      exists v, res !! i = Some (Some v) /\
                Ver v = from + Z.of_nat i /\
                kvAt (log (kv c)) newKey (Rev v)
                = Some (Mvccpb.mkKeyValue newKey (Val v) (Ver v) (Rev v)).
Proof.
  intros newKey version Hlive Hon Hwf Hlatest Hfrom Hlt Hto Hle.
  destruct (wf_revisions _ Hwf) as (Hlog & _).
  destruct (kvAt_chain _ _ _ _ Hlog Hlatest) as (_ & Hself & _).
  destruct (kvAt_Some _ _ _ _ Hlatest) as (Hkey & _).
  set (size := Z.to_nat (Z.min (to - from) (version - from + 1))).
  set (latestV := newValue (Mvccpb.Value latestKV) version
                    (Mvccpb.ModRevision latestKV)).
  set (res0 := if version <? to
               then <[Z.to_nat (version - from) := Some latestV]>
                      (replicate size None)
               else replicate size None).
  assert (length res0 = size) as Hlen0.
  { unfold res0. destruct (version <? to);
      by rewrite ?length_insert, length_replicate. }
  set (c1 := withSent (sent c ++ [Clientv3.ReqGet newKey
                                    (Clientv3.mkGetOptions false None)]) c).
  destruct (historyLoop_fill (kv c) key newKey from to Hon Hwf Hfrom
              (Z.to_nat (version - from)) latestKV _
              (Z.to_nat (version - from)) res0 c1 eq_refl Hlive Hlatest)
    as (res & c' & Hrun & Hkv & Hlen & Hfilled & Hrest);
    [fold version; lia | lia | rewrite Hlen0; unfold size; fold version; lia |].
  exists res, c'. split; [|split; [done|split]].
  - intros fuel Hfuel.
    rewrite (History_start c fuel key from to latestKV)
      by (done || fold version; lia).
    fold newKey version size latestV res0 c1.
    replace fuel
      with (Z.to_nat (version - from)
            + (fuel - Z.to_nat (version - from)))%nat by lia.
    by apply historyLoop_more_fuel.
  - rewrite Hlen, Hlen0. unfold size. lia.
  - intros i Hi. rewrite Hlen, Hlen0 in Hi. unfold size in Hi.
    fold version in Hfilled, Hrest.
    destruct (Z.lt_ge_cases (from + Z.of_nat i) version) as [Hbelow | Hat].
    + apply Hfilled; lia.
    + assert (version = from + Z.of_nat i) as Hi' by lia.
      exists latestV. rewrite Hrest by lia. unfold res0.
      destruct (Z.ltb_spec version to); [|lia].
      replace (Z.to_nat (version - from)) with i by lia.
      rewrite list_lookup_insert_eq by (rewrite length_replicate; lia).
      split; [done|]. split; [simpl; lia|].
      simpl. rewrite Hself. f_equal. rewrite <- Hkey, Hi'.
      unfold version in Hi'. rewrite <- Hi'. by destruct latestKV.
Qed.
(** With [from = 0] the loop walks below version 1 and fails there. *)
Lemma historyLoop_from_zero (s : Store) key newKey (to : Z) :
  online s = true -> wf s = true ->
  forall (n : nat) (cur : Mvccpb.KeyValue) (r : Z) (fuel : nat)
         (res : list (option value)) (c : client Store),
    kv c = s ->
    0 < RequestTimeout (opts c) ->
    kvAt (log s) newKey r = Some cur ->
    Mvccpb.Version cur = Z.of_nat n ->
    (n <= fuel)%nat ->
    Z.min to (Mvccpb.Version cur) <= Z.of_nat (length res) ->
    exists c',
      historyLoop fuel key newKey 0 to (Mvccpb.Version cur)
        (Mvccpb.ModRevision cur) res c
      = Done (([], Some (errCouldNotFindVersion 0 key)), c') /\
      kv c' = s.
Proof.
  intros Hon Hwf.
  destruct (wf_revisions _ Hwf) as (Hlog & Hmax & Hone & Hrevs).
  induction n as [|n IH];
    intros cur r fuel res c Hkv Hlive Hcur Hver Hfuel Hlen;
    destruct (kvAt_chain _ _ _ _ Hlog Hcur) as (Hpos & _ & Hprev); [lia|].
  destruct fuel as [|fuel]; [lia|].
  rewrite (historyLoop_step _ _ _ _ _ _ _ _ Hon Hwf Hcur) by (done || lia).
  cbv zeta.
  destruct (kvAt (log s) newKey (Mvccpb.ModRevision cur - 1))
    as [p|] eqn:Hp.
  - destruct Hprev as [Hvp Hrp].
    destruct (kvAt_Some _ _ _ _ Hp) as (_ & _ & w & Hin & Hw).
    specialize (Hrevs w Hin).
    pose proof (kvAt_version_bound s newKey Hwf n _ p Hp ltac:(lia)) as Hbound.
    set (c1 := withSent _ c).
    unfold bind. destruct (Z.ltb_spec (Mvccpb.Version p) to) as [Hlt | Hge].
    + unfold setIndex.
      rewrite sub64_exact
        by (unfold in_int64, min_int64, max_int64 in *; lia).
      rewrite Z.sub_0_r.
      assert ((0 <=? Mvccpb.Version p)
              && (Mvccpb.Version p <? Z.of_nat (length res)) = true) as ->.
      { apply andb_true_iff. split; [apply Z.leb_le | apply Z.ltb_lt]; lia. }
      unfold ret.
      apply (IH p (Mvccpb.ModRevision cur - 1) fuel _ c1);
        [done | done | done | lia | lia |].
      rewrite length_insert. lia.
    + unfold ret.
      apply (IH p (Mvccpb.ModRevision cur - 1) fuel _ c1);
        [done | done | done | lia | lia | lia].
  - rewrite Hprev. eexists. split; [reflexivity | done].
Qed.

(** On the reference store, and on a client with a request timeout,
    [History(k, 0, to)] fails for every key that exists, whatever [to] is:
    version 0 is asked for and never found. *)
Lemma History_from_zero_fails (c : client Store) key (to : Z)
    (latestKV : Mvccpb.KeyValue) :
  0 < RequestTimeout (opts c) ->
  online (kv c) = true -> wf (kv c) = true ->
  latest (kv c) (ApplyPrefix (opts c) key) = Some latestKV ->
  0 < to -> to <= max_int64 ->
  exists c',
    forall fuel, (Z.to_nat (Mvccpb.Version latestKV) <= fuel)%nat ->
      History fuel key 0 to c
      = Done (([], Some (errCouldNotFindVersion 0 key)), c').
Proof.
  intros Hlive Hon Hwf Hlatest Hlt Hto.
  destruct (wf_revisions _ Hwf) as (Hlog & _).
  destruct (kvAt_chain _ _ _ _ Hlog Hlatest) as (Hpos & _).
  set (version := Mvccpb.Version latestKV) in *.
  set (size := Z.to_nat (Z.min (to - 0) (version - 0 + 1))).
  set (res0 := if version <? to
               then <[Z.to_nat (version - 0) :=
                        Some (newValue (Mvccpb.Value latestKV) version
                                (Mvccpb.ModRevision latestKV))]>
                      (replicate size None)
               else replicate size (@None value)).
  assert (length res0 = size) as Hlen0.
  { unfold res0. destruct (version <? to);
      by rewrite ?length_insert, length_replicate. }
  destruct (historyLoop_from_zero (kv c) key (ApplyPrefix (opts c) key) to
              Hon Hwf (Z.to_nat version) latestKV _ (Z.to_nat version) res0
              (withSent (sent c ++ [Clientv3.ReqGet (ApplyPrefix (opts c) key)
                                      (Clientv3.mkGetOptions false None)]) c)
              eq_refl Hlive Hlatest) as (c' & Hrun & _);
    [fold version; lia | lia | rewrite Hlen0; unfold size; fold version; lia |].
  exists c'. intros fuel Hfuel.
  rewrite (History_start c fuel key 0 to latestKV)
    by (done || fold version; lia).
  fold version size res0.
  replace fuel with (Z.to_nat version + (fuel - Z.to_nat version))%nat by lia.
  by apply historyLoop_more_fuel.
Qed.
End EtcdFacts.

(** ** The properties on the scenarios *)

Section Runs.
Import Byte Scenario.


(** The cache: deleting a key that is not cached and merging an older
    value leave the client as it was, with no signal in the channel. *)
Lemma cache_unchanged_no_signal_witness :
  deleteCache "p/k" fresh = fresh /\
  mergeCache "p/k" v3 cached5 = cached5 /\
  cacheUpdatedCh (mergeCache "p/k" v3 cached5) = 0%nat.
Proof.
  split; [|split].
  - apply (cache_unchanged_no_signal "p/k" fresh). vm_compute. reflexivity.
  - apply (proj2 (cache_unchanged_no_signal "p/k" cached5) v3 v5);
      vm_compute; reflexivity.
  - rewrite (proj2 (cache_unchanged_no_signal "p/k" cached5) v3 v5);
      vm_compute; reflexivity.
Defined.

(** History: a reversed range, an empty range. *)
Lemma History_range_check_witness :
  History 0 "k" 5 2 written5
  = Done (([], Some errInvalidHistoryVersion), written5) /\
  (2 < 5 \/ 5 < 0 \/ 2 < 0) /\
  History 0 "k" 2 2 written5 = Done (([], None), written5).
Proof.
  split; [|split].
  - apply (History_range_check 0 "k" 5 2 written5). lia.
  - apply (proj1 (proj2 (History_range_check 0 "k" 5 2 written5))
             [] written5).
    vm_compute. reflexivity.
  - apply (History_range_check 0 "k" 2 2 written5); [lia | reflexivity].
Defined.



(** The update callback on an empty batch: with the store cut off the
    watchable is left alone; with the key gone from the store the
    watchable, which held [v5], takes a nil update. *)
Lemma update_empty_batch_witness :
  (exists c1, update "p/k" [] (severed watching) = Done (None, c1) /\
              watchables c1 = watchables (severed watching)) /\
  (exists c', update "p/k" [] watching = Done (None, c') /\
              watchables c' !! "p/k"%string
              = Some (Kv.OfValue (Kv.mkValueWatchable None [None]))).
Proof.
  split.
  - destruct (Retry.Attempt (MaxRetries (opts (severed watching)))
                (getAttempt "p/k") (severed watching, (None, None)))
      as [[execErr [c1 [nv err]]] | |] eqn:Hread;
      try (vm_compute in Hread; discriminate Hread).
    destruct (update_empty_batch "p/k" (severed watching) _ _ _ _ Hread)
      as [Hfail _].
    exists c1.
    destruct (Hfail (errTransport Etcd.unavailable)) as (Hupdate & Hsame & _);
      [| |by split].
    + vm_compute in Hread. by injection Hread as <- _ _ _.
    + discriminate.
  - destruct (Retry.Attempt (MaxRetries (opts watching))
                (getAttempt "p/k") (watching, (None, None)))
      as [[execErr [c1 [nv err]]] | |] eqn:Hread;
      try (vm_compute in Hread; discriminate Hread).
    destruct (update_empty_batch "p/k" watching _ _ _ _ Hread)
      as [_ Hgone].
    specialize (Hgone (Kv.mkValueWatchable (Some (ptrValue v5)) [])).
    simpl in Hgone. eexists. split.
    + apply Hgone.
      * vm_compute in Hread. by injection Hread as <- _ _ _.
      * vm_compute. reflexivity.
    + apply lookup_insert_eq.
Defined.

(** C3 as the spec states it fails on [watching]: the retried read of
    the empty batch fails with NotFound, and yet the watchable, which
    held [v5], receives a nil update and holds nothing afterwards. *)
Lemma update_NotFound_counterexample :
  (exists c1 nv err,
      Retry.Attempt (MaxRetries (opts watching)) (getAttempt "p/k")
        (watching, (None, None))
      = Done (Some (NonRetryableError ErrNotFound), (c1, (nv, err)))) /\
  watchables watching !! "p/k"%string
  = Some (Kv.OfValue (Kv.mkValueWatchable (Some (ptrValue v5)) [])) /\
  (exists c', update "p/k" [] watching = Done (None, c') /\
              watchables c' !! "p/k"%string
              = Some (Kv.OfValue (Kv.mkValueWatchable None [None])) /\
              watchables c' <> watchables watching).
Proof.
  split; [|split].
  - do 3 eexists. vm_compute. reflexivity.
  - vm_compute. reflexivity.
  - eexists. split; [vm_compute; reflexivity|]. split.
    + vm_compute. reflexivity.
    + intros Heq. apply (f_equal (fun ws => ws !! "p/k"%string)) in Heq.
      vm_compute in Heq. discriminate Heq.
Qed.

(** History on the key written five times. *)
Lemma History_one_to_four_witness :
  exists (v1 v2 v3 : value) (c' : client Etcd.Store),
    (forall fuel, (4 <= fuel)%nat ->
       History fuel "k" 1 4 written5
       = Done (([Some v1; Some v2; Some v3], None), c')) /\
    Ver v1 = 1 /\ Ver v2 = 2 /\ Ver v3 = 3 /\
    Rev v1 < Rev v2 < Rev v3 /\
    (forall v, v ∈ [v1; v2; v3] ->
       Etcd.kvAt (Etcd.log (kv written5)) "p/k" (Rev v)
       = Some (Mvccpb.mkKeyValue "p/k" (Val v) (Ver v) (Rev v))) /\
    kv c' = kv written5.
Proof.
  apply (History_one_to_four written5 "k" kv5); vm_compute; reflexivity.
Defined.

Example History_one_to_four_run :
  exists c', History 4 "k" 1 4 written5
             = Done (([Some (newValue [x61] 1 2); Some (newValue [x62] 2 3);
                       Some (newValue [x63] 3 4)], None), c').
Proof. eexists. vm_compute. reflexivity. Qed.

(** C5 as the spec states it fails on the key written five times: the
    latest version is 5, and [History(k, 0, 3)] ends with the error of
    the missing version 0 once the loop has had its five turns; with
    less fuel the model has no result at all. It never returns three
    values. *)
Lemma History_zero_three_counterexample :
  Etcd.latest (kv written5) "p/k" = Some kv5 /\
  (forall fuel, (5 <= fuel)%nat ->
     exists c', History fuel "k" 0 3 written5
                = Done (([], Some (errCouldNotFindVersion 0 "k")), c')) /\
  (forall fuel v1 v2 v3 c',
     History fuel "k" 0 3 written5
     <> Done (([Some v1; Some v2; Some v3], None), c')).
Proof.
  split; [vm_compute; reflexivity|]. split.
  - intros fuel Hfuel. do 5 (destruct fuel as [|fuel]; [lia|]).
    eexists. vm_compute. reflexivity.
  - intros fuel v1 v2 v3 c'.
    do 5 (destruct fuel as [|fuel]; [vm_compute; discriminate|]).
    vm_compute. discriminate.
Qed.
End Runs.

(** * Further properties of the client *)

(** ** The cache and its wakeup channel *)

Section CacheFacts.
Context {T : Type} {transport : Transport T}.

Implicit Types c : client T.

Lemma notifyCacheUpdate_slot c :
  (cacheUpdatedCh c <= cacheUpdatedChCap)%nat ->
  cacheUpdatedCh (notifyCacheUpdate c) = 1%nat.
Proof.
  unfold notifyCacheUpdate, cacheUpdatedChCap.
  destruct (Nat.ltb_spec (cacheUpdatedCh c) 1); simpl; lia.
Qed.

Lemma deleteCache_slot (key : string) c :
  (cacheUpdatedCh c <= cacheUpdatedChCap)%nat ->
  (cacheUpdatedCh (deleteCache key c) <= cacheUpdatedChCap)%nat.
Proof.
  intros Hc. unfold deleteCache. destruct (cache c !! key); [|done].
  rewrite notifyCacheUpdate_slot; [done | exact Hc].
Qed.

Lemma mergeCache_slot (key : string) (v : value) c :
  (cacheUpdatedCh c <= cacheUpdatedChCap)%nat ->
  (cacheUpdatedCh (mergeCache key v c) <= cacheUpdatedChCap)%nat.
Proof.
  intros Hc. unfold mergeCache.
  destruct (match cache c !! key with
            | Some cur => IsNewer v (ptrValue cur)
            | None => true
            end); [|done].
  rewrite notifyCacheUpdate_slot; [done | exact Hc].
Qed.

Lemma mergeCache_entry_helper (key : string) (v : value) c :
  exists v' : value,
    cache (mergeCache key v c) !! key = Some v' /\ Rev v <= Rev v'.
Proof.
  rewrite cache_mergeCache. destruct (cache c !! key) as [cur|] eqn:Hcur.
  - destruct (Z.ltb_spec (Rev cur) (Rev v)).
    + exists v. rewrite lookup_insert_eq. split; [done | lia].
    + exists cur. split; [done | lia].
  - exists v. rewrite lookup_insert_eq. split; [done | lia].
Qed.

(** X1. After [mergeCache(key, v)] the cache holds an entry for the key
    whose revision is at least that of [v] and at least that of the entry
    it held before; the entries of the other keys are the same. *)
Theorem mergeCache_entry_monotone (key : string) (v : value) c :
  (exists v' : value,
      cache (mergeCache key v c) !! key = Some v' /\
      Rev v <= Rev v' /\
      (v' = v \/ cache c !! key = Some v') /\
      forall cur : value, cache c !! key = Some cur -> Rev cur <= Rev v') /\
  (forall k : string,
      k <> key -> cache (mergeCache key v c) !! k = cache c !! k).
Proof.
  rewrite cache_mergeCache. split.
  - destruct (cache c !! key) as [cur|] eqn:Hcur.
    + destruct (Z.ltb_spec (Rev cur) (Rev v)).
      * exists v. rewrite lookup_insert_eq.
        repeat split; [lia | by left |]. intros cur' [= <-]. lia.
      * exists cur. rewrite Hcur.
        repeat split; [lia | by right |]. intros cur' [= <-]. lia.
    + exists v. rewrite lookup_insert_eq.
      repeat split; [lia | by left | done].
  - intros k Hk. destruct (cache c !! key) as [cur|].
    + destruct (Rev cur <? Rev v); [|done]. by rewrite lookup_insert_ne.
    + by rewrite lookup_insert_ne.
Qed.

(** X2. Every operation that changes the map of the cache leaves a signal
    in the wakeup channel, and never more than one: after [deleteCache] of
    a cached key, and after [mergeCache] of a value that is stored, the
    channel holds exactly one signal, whether or not one was waiting. *)
Theorem cache_change_signals_once (key : string) c :
  (cacheUpdatedCh c <= cacheUpdatedChCap)%nat ->
  (forall cur : value,
      cache c !! key = Some cur ->
      cache (deleteCache key c) !! key = None /\
      cacheUpdatedCh (deleteCache key c) = 1%nat) /\
  (forall v : value,
      (cache c !! key = None \/
       exists cur, cache c !! key = Some cur /\ Rev cur < Rev v) ->
      cache (mergeCache key v c) !! key = Some v /\
      cacheUpdatedCh (mergeCache key v c) = 1%nat).
Proof.
  intros Hslot. split.
  - intros cur Hcur. split.
    + rewrite cache_deleteCache. apply lookup_delete_eq.
    + unfold deleteCache. rewrite Hcur. by apply notifyCacheUpdate_slot.
  - intros v Hstore.
    assert (match cache c !! key with
            | Some cur => IsNewer v (ptrValue cur)
            | None => true
            end = true) as Hnewer.
    { destruct Hstore as [-> | (cur & -> & Hlt)]; [done|].
      simpl. by apply Z.ltb_lt. }
    split.
    + rewrite cache_mergeCache.
      destruct Hstore as [-> | (cur & -> & Hlt)].
      * apply lookup_insert_eq.
      * apply Z.ltb_lt in Hlt. rewrite Hlt. apply lookup_insert_eq.
    + unfold mergeCache. rewrite Hnewer. by apply notifyCacheUpdate_slot.
Qed.
End CacheFacts.

(** ** Reads, the cache and a failing transport *)

Section ReadFacts.
Context {T : Type} {transport : Transport T}.

Implicit Types c : client T.

(** A read or a delete that has returned was made with a request
    timeout. *)
Lemma get_returned (key : string) c x :
  get key c = Done x -> 0 < RequestTimeout (opts c).
Proof.
  unfold get. intros [Hcancel _]%deferCall_Done. by apply context_cancelCtx.
Qed.

Lemma Delete_returned (key : string) c x :
  Delete key c = Done x -> 0 < RequestTimeout (opts c).
Proof.
  unfold Delete. intros [Hcancel _]%deferCall_Done.
  by apply context_cancelCtx.
Qed.

(** What a read leaves in the cache under the key it read. *)
Lemma get_cache_after (key : string) c nv err c1 :
  get key c = Done ((nv, err), c1) ->
  opts c1 = opts c /\
  match nv, err with
  | Some v, _ =>
      exists v', cache c1 !! key = Some v' /\ Rev v <= Rev v'
  | None, Some ErrNotFound => cache c1 !! key = None
  | None, _ => True
  end.
Proof.
  unfold get, callGet. returned.
  destruct (kvGet _ _ (kv c)) as [[e | resp] t'].
  - unfold getCache. simpl. destruct (cache c !! key) as [cachedV|] eqn:Hc;
      intros [= <- <- <-]; simpl; (split; [done|]); [|done].
    exists cachedV. split; [done | lia].
  - destruct (Clientv3.Count resp =? 0).
    + intros [= <- <- <-]. split.
      * match goal with
        | |- context [deleteCache ?k ?c0] =>
            by destruct (deleteCache_registry k c0) as [_ ->]
        end.
      * rewrite cache_deleteCache. apply lookup_delete_eq.
    + destruct (Clientv3.Kvs resp) as [|kv0 rest]; [done|].
      intros [= <- <- <-]. split.
      { match goal with
        | |- context [mergeCache ?k ?v ?c0] =>
            by destruct (mergeCache_registry k v c0) as [_ ->]
        end. }
      match goal with
      | |- context [mergeCache ?k ?v ?c0] =>
          destruct (mergeCache_entry_helper k v c0) as (v' & Hv' & Hle)
      end.
      exists v'. done.
Qed.
(** A read that the transport fails. *)
Lemma get_on_failure (key : string) c (e : string) (t2 : T) :
  0 < RequestTimeout (opts c) ->
  kvGet key (Clientv3.mkGetOptions (EnableFastGets (opts c)) None) (kv c)
  = (inl e, t2) ->
  exists c2,
    get key c
    = Done (match cache c !! key with
            | Some cachedV => (Some cachedV, None)
            | None => (None, Some (errTransport e))
            end, c2) /\
    cache c2 = cache c /\ cacheUpdatedCh c2 = cacheUpdatedCh c.
Proof.
  intros Hlive Hget. unfold get, callGet.
  rewrite (context_live _ Hlive), deferCall_live.
  rewrite Hget. unfold getCache. simpl.
  destruct (cache c !! key); eexists; done.
Qed.

Lemma Delete_cache_after (key : string) c nv err c1 :
  Delete key c = Done ((nv, err), c1) ->
  opts c1 = opts c /\
  match nv with
  | Some _ => cache c1 !! ApplyPrefix (opts c) key = None
  | None => cache c1 = cache c /\ cacheUpdatedCh c1 = cacheUpdatedCh c
  end.
Proof.
  unfold Delete, callDelete. returned.
  destruct (kvDelete _ _ (kv c)) as [[e | resp] t'].
  - by intros [= <- <- <-].
  - destruct (Clientv3.Deleted resp =? 0); [by intros [= <- <- <-]|].
    destruct (Clientv3.PrevKvs resp) as [|prev rest]; [done|].
    intros [= <- <- <-]. split.
    + match goal with
      | |- context [deleteCache ?k ?c0] =>
          by destruct (deleteCache_registry k c0) as [_ ->]
      end.
    + rewrite cache_deleteCache. apply lookup_delete_eq.
Qed.

(** X3. A value that [Get] has returned survives an outage: if the
    transport then gets into a state in which it fails the read of the
    key, [Get] answers from the cache, without an error, with a value whose
    revision is at least that of the value returned before. *)
Theorem Get_then_transport_failure (key : string) c (v : value) c1
    (t : T) (e : string) (t2 : T) :
  Get key c = Done ((Some v, None), c1) ->
  kvGet (ApplyPrefix (opts c) key)
        (Clientv3.mkGetOptions (EnableFastGets (opts c)) None) t
  = (inl e, t2) ->
  exists v' c2,
    Get key (withKv t c1) = Done ((Some v', None), c2) /\
    Rev v <= Rev v' /\
    cache c2 = cache c1.
Proof.
  unfold Get. intros Hfirst Hfail.
  destruct (get_cache_after _ _ _ _ _ Hfirst) as (Hopts & v' & Hcached & Hle).
  pose proof (get_returned _ _ _ Hfirst) as Hlive.
  destruct (get_on_failure (ApplyPrefix (opts c) key) (withKv t c1) e t2)
    as (c2 & Hget & Hcache & _).
  { simpl. by rewrite Hopts. }
  { simpl. rewrite Hopts. exact Hfail. }
  simpl in Hget, Hcache. rewrite Hcached in Hget.
  exists v', c2. simpl. rewrite Hopts. done.
Qed.

(** X4. No stale value after a miss or a delete: once [Get] has answered
    NotFound, or [Delete] has returned the deleted value, the cache has no
    entry for the key, so that a following read which the transport fails
    gives the error of the transport. *)
Theorem no_cached_value_after_miss_or_delete (key : string) c c1
    (t : T) (e : string) (t2 : T) :
  (Get key c = Done ((None, Some ErrNotFound), c1) \/
   exists v, Delete key c = Done ((Some v, None), c1)) ->
  kvGet (ApplyPrefix (opts c) key)
        (Clientv3.mkGetOptions (EnableFastGets (opts c)) None) t
  = (inl e, t2) ->
  cache c1 !! ApplyPrefix (opts c) key = None /\
  exists c2,
    Get key (withKv t c1) = Done ((None, Some (errTransport e)), c2).
Proof.
  intros Hfirst Hfail.
  assert (opts c1 = opts c /\ cache c1 !! ApplyPrefix (opts c) key = None)
    as [Hopts Hnone].
  { destruct Hfirst as [Hget | [v Hdel]].
    - by destruct (get_cache_after _ _ _ _ _ Hget) as [? ?].
    - by destruct (Delete_cache_after _ _ _ _ _ Hdel) as [? ?]. }
  assert (0 < RequestTimeout (opts c)) as Hlive.
  { destruct Hfirst as [Hget | [v Hdel]].
    - exact (get_returned _ _ _ Hget).
    - exact (Delete_returned _ _ _ Hdel). }
  split; [done|]. unfold Get.
  destruct (get_on_failure (ApplyPrefix (opts c) key) (withKv t c1) e t2)
    as (c2 & Hget & _).
  { simpl. by rewrite Hopts. }
  { simpl. rewrite Hopts. exact Hfail. }
  simpl in Hget. rewrite Hnone in Hget.
  exists c2. simpl. rewrite Hopts. done.
Qed.
End ReadFacts.

(** ** History: what it sends, what it leaves alone, how much it returns *)

Section HistoryFacts.
Context {T : Type} {transport : Transport T}.

Implicit Types c : client T.

Lemma callGet_frame (key : string) (o : Clientv3.GetOptions) c r c1 :
  callGet key o c = (r, c1) ->
  cache c1 = cache c /\ cacheUpdatedCh c1 = cacheUpdatedCh c /\
  watchables c1 = watchables c /\ m c1 = m c /\ opts c1 = opts c /\
  sent c1 = sent c ++ [Clientv3.ReqGet key o].
Proof.
  unfold callGet. destruct (kvGet key o (kv c)) as [r' t'].
  by intros [= <- <-].
Qed.

(** The loop of [History] only reads the key, at most once per unit of
    fuel, and returns a result of the length it was given, or no result
    together with an error. *)
Lemma historyLoop_frame (fuel : nat) (key newKey : string) (from to : Z) :
  forall (version modRev : Z) (res : list (option value)) c res' err c',
    historyLoop fuel key newKey from to version modRev res c
    = Done ((res', err), c') ->
    cache c' = cache c /\ cacheUpdatedCh c' = cacheUpdatedCh c /\
    watchables c' = watchables c /\ m c' = m c /\ opts c' = opts c /\
    (exists reads,
        sent c' = sent c ++ reads /\
        (length reads <= fuel)%nat /\
        Forall (fun q => exists o, q = Clientv3.ReqGet newKey o) reads) /\
    ((err = None /\ length res' = length res) \/ (err <> None /\ res' = [])).
Proof.
  induction fuel as [|fuel IH]; intros version modRev res c res' err c'; simpl;
    destruct (from <? version); try done;
    try (intros [= <- <- <-]; do 5 (split; [done|]); split; [|by left];
         exists []; split; [by rewrite app_nil_r|]; split; [simpl; lia | done]).
  - unfold bind, gets, defer, lift. returned.
    destruct (callGet _ _ c) as [r c1] eqn:Hcall.
    destruct (callGet_frame _ _ _ _ _ Hcall)
      as (Hcache & Hch & Hw & Hm & Ho & Hsent).
    assert (exists reads,
               sent c1 = sent c ++ reads /\
               (length reads <= S fuel)%nat /\
               Forall (fun q => exists o, q = Clientv3.ReqGet newKey o) reads)
      as Hone.
    { eexists. split; [exact Hsent|]. split; [simpl; lia|].
      apply Forall_singleton. by eexists. }
    destruct r as [e | r].
    { intros [= <- <- <-]. do 5 (split; [done|]). split; [done | by right]. }
    destruct (Clientv3.Count r =? 0).
    { intros [= <- <- <-]. do 5 (split; [done|]). split; [done | by right]. }
    destruct (Clientv3.Kvs r) as [|v rest]; [done|].
    assert (forall res1,
               length res1 = length res ->
               historyLoop fuel key newKey from to (Mvccpb.Version v)
                 (Mvccpb.ModRevision v) res1 c1 = Done (res', err, c') ->
               cache c' = cache c ∧ cacheUpdatedCh c' = cacheUpdatedCh c ∧
               watchables c' = watchables c ∧ m c' = m c ∧ opts c' = opts c ∧
               (∃ reads, sent c' = sent c ++ reads ∧
                         (length reads ≤ S fuel)%nat ∧
                         Forall (λ q, ∃ o, q = Clientv3.ReqGet newKey o) reads) ∧
               (err = None ∧ length res' = length res ∨ err ≠ None ∧ res' = []))
      as Hrest.
    { intros res1 Hlen Hrun.
      apply IH in Hrun
        as (Hcache' & Hch' & Hw' & Hm' & Ho' & (reads & Hsent' & Hn & Hall) & Hres).
      do 5 (split; [congruence|]). split.
      - exists (Clientv3.ReqGet newKey
                  (Clientv3.mkGetOptions false (Some (sub64 modRev 1))) :: reads).
        split; [rewrite Hsent', Hsent, <- app_assoc; done|].
        split; [simpl; lia|]. apply Forall_cons. split; [by eexists | done].
      - rewrite Hlen in Hres. done. }
    destruct (Mvccpb.Version v <? to).
    + destruct (setIndex_cases res (sub64 (Mvccpb.Version v) from)
                  (Some (newValue (Mvccpb.Value v) (Mvccpb.Version v)
                           (Mvccpb.ModRevision v))) c1) as [-> | ->];
        [done|].
      apply Hrest. apply length_insert.
    + by apply Hrest.
Qed.

(** X5. [History] never writes: whatever it returns, the cache, its
    channel, the registry of watchables and the counters are as before,
    and all it has sent are reads of the fully-qualified key, at most one
    more than the loop has fuel. *)
Theorem History_only_reads (fuel : nat) (key : string) (from to : Z) c r c' :
  History fuel key from to c = Done (r, c') ->
  cache c' = cache c /\ cacheUpdatedCh c' = cacheUpdatedCh c /\
  watchables c' = watchables c /\ m c' = m c /\
  exists reads,
    sent c' = sent c ++ reads /\
    (length reads <= S fuel)%nat /\
    Forall (fun q => exists o,
                q = Clientv3.ReqGet (ApplyPrefix (opts c) key) o) reads.
Proof.
  unfold History.
  destruct ((to <? from) || (from <? 0) || (to <? 0)).
  { intros [= <- <-]. do 4 (split; [done|]). exists [].
    split; [by rewrite app_nil_r|]. split; [simpl; lia | done]. }
  destruct (from =? to).
  { intros [= <- <-]. do 4 (split; [done|]). exists [].
    split; [by rewrite app_nil_r|]. split; [simpl; lia | done]. }
  unfold bind, gets, defer, lift. returned.
  destruct (callGet _ _ c) as [r1 c1] eqn:Hcall.
  destruct (callGet_frame _ _ _ _ _ Hcall)
    as (Hcache & Hch & Hw & Hm & Ho & Hsent).
  assert (exists reads,
             sent c1 = sent c ++ reads /\
             (length reads <= S fuel)%nat /\
             Forall (fun q => exists o,
                         q = Clientv3.ReqGet (ApplyPrefix (opts c) key) o) reads)
    as Hone.
  { eexists. split; [exact Hsent|]. split; [simpl; lia|].
    apply Forall_singleton. by eexists. }
  destruct r1 as [e | r1]; [by intros [= <- <-]|].
  destruct (Clientv3.Count r1 =? 0); [by intros [= <- <-]|].
  destruct (Clientv3.Kvs r1) as [|latestKV rest]; [done|].
  destruct (Mvccpb.Version latestKV <? from); [by intros [= <- <-]|].
  match goal with
  | |- context [if ?n <? 0 then _ else _] => destruct (n <? 0)
  end; [done|].
  assert (forall res1,
             historyLoop fuel key (ApplyPrefix (opts c) key) from to
               (Mvccpb.Version latestKV) (Mvccpb.ModRevision latestKV) res1 c1
             = Done (r, c') ->
             cache c' = cache c ∧ cacheUpdatedCh c' = cacheUpdatedCh c ∧
             watchables c' = watchables c ∧ m c' = m c ∧
             ∃ reads, sent c' = sent c ++ reads ∧ (length reads ≤ S fuel)%nat ∧
                      Forall (λ q, ∃ o,
                                q = Clientv3.ReqGet (ApplyPrefix (opts c) key) o)
                        reads) as Hrest.
  { intros res1 Hrun. destruct r as [res' err].
    apply historyLoop_frame in Hrun
      as (Hcache' & Hch' & Hw' & Hm' & _ & (reads & Hsent' & Hn & Hall) & _).
    do 4 (split; [congruence|]).
    exists (Clientv3.ReqGet (ApplyPrefix (opts c) key)
              (Clientv3.mkGetOptions false None) :: reads).
    split; [rewrite Hsent', Hsent, <- app_assoc; done|].
    split; [simpl; lia|]. apply Forall_cons. split; [by eexists | done]. }
  destruct (Mvccpb.Version latestKV <? to);
    [match goal with
     | |- context [setIndex ?l ?i ?v ?s] =>
         destruct (setIndex_cases l i v s) as [-> | ->]
     end|]; try done; apply Hrest.
Qed.

(** X6. [History] returns at most [to - from] entries, whatever the
    transport answers, and none at all together with an error. *)
Theorem History_length_bound (fuel : nat) (key : string) (from to : Z) c
    (res : list (option value)) (err : option error) c' :
  0 <= from -> from <= to -> to <= max_int64 ->
  History fuel key from to c = Done ((res, err), c') ->
  Z.of_nat (length res) <= to - from /\
  (err <> None -> res = []).
Proof.
  intros Hfrom Hle Hto. unfold History.
  destruct ((to <? from) || (from <? 0) || (to <? 0)).
  { intros [= <- <- <-]. simpl. split; [lia | done]. }
  destruct (from =? to).
  { intros [= <- <- <-]. simpl. split; [lia | done]. }
  unfold bind, gets, defer, lift. returned.
  destruct (callGet _ _ c) as [r1 c1].
  destruct r1 as [e | r1].
  { intros [= <- <- <-]. simpl. split; [lia | done]. }
  destruct (Clientv3.Count r1 =? 0).
  { intros [= <- <- <-]. simpl. split; [lia | done]. }
  destruct (Clientv3.Kvs r1) as [|latestKV rest]; [done|].
  destruct (Mvccpb.Version latestKV <? from).
  { intros [= <- <- <-]. simpl. split; [lia | done]. }
  rewrite (sub64_exact to from)
    by (unfold in_int64, min_int64, max_int64 in *; lia).
  set (numValue := if add64 (sub64 (Mvccpb.Version latestKV) from) 1 <? to - from
                   then add64 (sub64 (Mvccpb.Version latestKV) from) 1
                   else to - from).
  assert (numValue <= to - from) as Hnum.
  { unfold numValue.
    destruct (Z.ltb_spec (add64 (sub64 (Mvccpb.Version latestKV) from) 1)
                (to - from)); lia. }
  destruct (Z.ltb_spec numValue 0); [done|].
  assert (forall res1,
             length res1 = Z.to_nat numValue ->
             historyLoop fuel key (ApplyPrefix (opts c) key) from to
               (Mvccpb.Version latestKV) (Mvccpb.ModRevision latestKV) res1 c1
             = Done (res, err, c') ->
             Z.of_nat (length res) <= to - from /\ (err <> None -> res = []))
    as Hrest.
  { intros res1 Hlen Hrun.
    apply historyLoop_frame in Hrun as (_ & _ & _ & _ & _ & _ & Hres).
    destruct Hres as [[-> Hlen'] | [Herr ->]].
    - split; [lia | done].
    - simpl. split; [lia | done]. }
  destruct (Mvccpb.Version latestKV <? to);
    [match goal with
     | |- context [setIndex ?l ?i ?v ?s] =>
         destruct (setIndex_cases l i v s) as [-> | ->]
     end|]; try done; apply Hrest;
    by rewrite ?length_insert, length_replicate.
Qed.

(** X7. On a client with a request timeout, the first read decides the
    early exits of [History] on a range that passes the checks: an error
    of the transport is returned as it is, a key that does not exist gives
    NotFound, and a key whose latest version lies below [from] gives an
    empty result and no error. In each case one request has been sent and
    no fuel is needed. *)
Theorem History_early_exits (fuel : nat) (key : string) (from to : Z) c
    (resp : string + Clientv3.GetResponse) (t' : T) :
  let newKey := ApplyPrefix (opts c) key in
  let o := Clientv3.mkGetOptions false None in
  let c1 := withSent (sent c ++ [Clientv3.ReqGet newKey o]) (withKv t' c) in
  0 < RequestTimeout (opts c) ->
  0 <= from -> from < to ->
  kvGet newKey o (kv c) = (resp, t') ->
  (forall e, resp = inl e ->
     History fuel key from to c = Done (([], Some (errTransport e)), c1)) /\
  (forall r, resp = inr r -> Clientv3.Count r = 0 ->
     History fuel key from to c = Done (([], Some ErrNotFound), c1)) /\
  (forall r latestKV rest,
     resp = inr r -> Clientv3.Count r <> 0 ->
     Clientv3.Kvs r = latestKV :: rest ->
     Mvccpb.Version latestKV < from ->
     History fuel key from to c = Done (([], None), c1)).
Proof.
  intros newKey o c1 Hlive Hfrom Hlt Hget. unfold History.
  destruct (Z.ltb_spec to from); [lia|].
  destruct (Z.ltb_spec from 0); [lia|].
  destruct (Z.ltb_spec to 0); [lia|]. cbn [orb].
  destruct (Z.eqb_spec from to); [lia|].
  unfold bind, gets, defer, lift, callGet.
  rewrite (context_live _ Hlive), deferCall_live.
  fold newKey o. rewrite Hget. fold c1.
  split; [|split].
  - by intros e ->.
  - intros r -> Hzero. by rewrite Hzero.
  - intros r latestKV rest -> Hcount Hkvs Hbelow.
    destruct (Z.eqb_spec (Clientv3.Count r) 0); [done|]. rewrite Hkvs.
    by destruct (Z.ltb_spec (Mvccpb.Version latestKV) from); [|lia].
Qed.
End HistoryFacts.

(** ** Writes and transactions: failures and frames *)

Section WriteFacts.
Context {T : Type} {transport : Transport T}.
Context {Message : Type} {codec : Codec Message}.

Implicit Types c : client T.

(** Closes a goal that lists the requests sent: none, or the one just
    appended. *)
Local Ltac sent_at_most_one :=
  first [ exists []; split; [by rewrite app_nil_r | simpl; lia]
        | eexists; split; [reflexivity | simpl; lia] ].

(** What a write may do to the client: when it returns, the cache, its
    channel and the registry are as before and at most one request has
    been sent; it panics only on a client without a request timeout; and
    it always ends. *)
Lemma CheckAndSet_frame (key : string) (version : Z) (v : Message) c :
  match CheckAndSet key version v c with
  | Done (_, c') =>
      cache c' = cache c /\ cacheUpdatedCh c' = cacheUpdatedCh c /\
      watchables c' = watchables c /\ opts c' = opts c /\
      exists reqs, sent c' = sent c ++ reqs /\ (length reqs <= 1)%nat
  | Panic => RequestTimeout (opts c) <= 0
  | OutOfFuel => False
  end.
Proof.
  unfold CheckAndSet, context, callTxn.
  destruct (Z.ltb_spec 0 (RequestTimeout (opts c))); simpl; [|done].
  destruct (Marshal v) as [e | value]; simpl.
  { do 4 (split; [done|]). sent_at_most_one. }
  destruct (kvTxn _ _ (kv c)) as [[e | r] t']; simpl.
  - do 4 (split; [done|]). sent_at_most_one.
  - destruct (Clientv3.Succeeded r); simpl; do 4 (split; [done|]);
      sent_at_most_one.
Qed.

(** X8. Writes do not feed the cache: whenever [Set], [CheckAndSet] or
    [SetIfNotExists] returns, the cache, its channel and the registry of
    watchables are as they were and at most one request has been sent. A
    write that does not return has panicked, which happens only on a
    client without a request timeout. *)
Theorem writes_leave_cache (key : string) (version : Z) (v : Message) c :
  let frame (run : exec ((Z * option error) * client T)) :=
    match run with
    | Done (_, c') =>
        cache c' = cache c /\ cacheUpdatedCh c' = cacheUpdatedCh c /\
        watchables c' = watchables c /\
        exists reqs, sent c' = sent c ++ reqs /\ (length reqs <= 1)%nat
    | Panic => RequestTimeout (opts c) <= 0
    | OutOfFuel => False
    end in
  frame (Set_ key v c) /\
  frame (CheckAndSet key version v c) /\
  frame (SetIfNotExists key v c).
Proof.
  intros frame. unfold frame. split; [|split].
  - unfold Set_, context, callPut.
    destruct (Z.ltb_spec 0 (RequestTimeout (opts c))); simpl; [|done].
    destruct (Marshal v) as [e | value]; simpl.
    { do 3 (split; [done|]). sent_at_most_one. }
    destruct (kvPut _ _ _ (kv c)) as [[e | r] t']; simpl.
    + do 3 (split; [done|]). sent_at_most_one.
    + destruct (Clientv3.PrevKv r); simpl; do 3 (split; [done|]);
        sent_at_most_one.
  - pose proof (CheckAndSet_frame key version v c) as Hcas.
    destruct (CheckAndSet key version v c) as [[r c'] | |]; [|done|done].
    destruct Hcas as (? & ? & ? & _ & ?). done.
  - unfold SetIfNotExists, bind, ret.
    pose proof (CheckAndSet_frame key etcdVersionZero v c) as Hcas.
    destruct (CheckAndSet key etcdVersionZero v c) as [[[ver err] c'] | |];
      [|done|done].
    destruct Hcas as (? & ? & ? & _ & ?). done.
Qed.

(** X9. A write that fails reports version 0: whenever [Set],
    [CheckAndSet] or [SetIfNotExists] returns an error, the version
    returned with it is 0; and on a client with a request timeout a
    message that does not serialize stops each of them before anything is
    sent, with the client unchanged. *)
Theorem failed_writes_report_zero (key : string) (version : Z) (v : Message) c :
  (forall ver err c',
      Set_ key v c = Done ((ver, Some err), c') -> ver = 0) /\
  (forall ver err c',
      CheckAndSet key version v c = Done ((ver, Some err), c') -> ver = 0) /\
  (forall ver err c',
      SetIfNotExists key v c = Done ((ver, Some err), c') -> ver = 0) /\
  (forall e,
      0 < RequestTimeout (opts c) ->
      Marshal v = inl e ->
      Set_ key v c = Done ((0, Some (errMarshal e)), c) /\
      CheckAndSet key version v c = Done ((0, Some (errMarshal e)), c) /\
      SetIfNotExists key v c = Done ((0, Some (errMarshal e)), c)).
Proof.
  assert (forall expected ver err c',
             CheckAndSet key expected v c = Done ((ver, Some err), c') ->
             ver = 0) as Hcas.
  { intros expected ver err c'. unfold CheckAndSet, callTxn. returned.
    destruct (Marshal v) as [e | value]; [by intros [= <- _ _]|].
    destruct (kvTxn _ _ (kv c)) as [[e | r] t']; [by intros [= <- _ _]|].
    by destruct (Clientv3.Succeeded r); intros [= <- _ _]. }
  split; [|split; [|split]].
  - intros ver err c'. unfold Set_, callPut. returned.
    destruct (Marshal v) as [e | value]; [by intros [= <- _ _]|].
    destruct (kvPut _ _ _ (kv c)) as [[e | r] t']; [by intros [= <- _ _]|].
    by destruct (Clientv3.PrevKv r).
  - apply Hcas.
  - intros ver err c'. unfold SetIfNotExists, bind, ret.
    specialize (Hcas etcdVersionZero).
    destruct (CheckAndSet key etcdVersionZero v c)
      as [[[ver0 err0] c0] | |]; [|done|done].
    intros [= <- Herr <-]. destruct err0 as [err0|].
    + by apply (Hcas ver0 err0 c0).
    + by rewrite decide_False in Herr.
  - intros e Hlive He.
    unfold SetIfNotExists, bind, ret, CheckAndSet, Set_.
    rewrite (context_live _ Hlive), !deferCall_live. by rewrite He.
Qed.
(** *** Commit *)

Lemma processConditions_standard (conditions : list Kv.Condition) c :
  Forall (fun cond => Kv.condTargetType cond = Kv.TargetVersion /\
                      Kv.condCompareType cond = Kv.CompareEqual) conditions ->
  processConditions conditions c
  = inl (map (fun cond =>
                Clientv3.CompareVersionEqual
                  (ApplyPrefix (opts c) (Kv.condKey cond)) (Kv.condValue cond))
             conditions).
Proof.
  induction 1 as [|cond rest [Htarget Hcompare] _ IH]; [done|].
  simpl. unfold processCondition. by rewrite Htarget, Hcompare, IH.
Qed.

(** The first condition that does not translate decides the error. *)
Lemma processConditions_first_bad (good rest : list Kv.Condition)
    (bad : Kv.Condition) c :
  Forall (fun cond => Kv.condTargetType cond = Kv.TargetVersion /\
                      Kv.condCompareType cond = Kv.CompareEqual) good ->
  processConditions (good ++ bad :: rest) c
  = match Kv.condTargetType bad, Kv.condCompareType bad with
    | Kv.TargetOther, _ => inr ErrUnknownTargetType
    | Kv.TargetVersion, Kv.CompareOther => inr ErrUnknownCompareType
    | Kv.TargetVersion, Kv.CompareEqual =>
        match processConditions rest c with
        | inr err => inr err
        | inl cmps =>
            inl (map (fun cond =>
                        Clientv3.CompareVersionEqual
                          (ApplyPrefix (opts c) (Kv.condKey cond))
                          (Kv.condValue cond)) (good ++ [bad]) ++ cmps)
        end
    end.
Proof.
  induction 1 as [|cond good [Htarget Hcompare] _ IH]; simpl.
  - unfold processCondition.
    destruct (Kv.condTargetType bad); [|done].
    destruct (Kv.condCompareType bad); [|done].
    by destruct (processConditions rest c).
  - unfold processCondition at 1. rewrite Htarget, Hcompare, IH.
    destruct (Kv.condTargetType bad); [|done].
    destruct (Kv.condCompareType bad); [|done].
    by destruct (processConditions rest c).
Qed.

Lemma processOps_standard (ops : list (Kv.Op Message))
    (puts : list Clientv3.Op) c :
  Forall2 (fun op put =>
             exists key msg value,
               op = Kv.SetOp key msg /\ Marshal msg = inr value /\
               put = Clientv3.OpPut (ApplyPrefix (opts c) key) value true)
          ops puts ->
  processOps ops c = inl (puts, map Kv.NewOpResponse ops).
Proof.
  induction 1 as [|op put ops puts (key & msg & value & -> & Hm & ->) _ IH];
    [done|].
  simpl. by rewrite Hm, IH.
Qed.

(** The first operation that does not translate decides the error. *)
Lemma processOps_first_bad (good rest : list (Kv.Op Message))
    (bad : Kv.Op Message) c (err : error) :
  Forall (fun op => exists key msg value,
                      op = Kv.SetOp key msg /\ Marshal msg = inr value) good ->
  processOp bad c = inr err ->
  processOps (good ++ bad :: rest) c = inr err.
Proof.
  intros Hgood Hbad.
  induction Hgood as [|op good (key & msg & value & -> & Hm) _ IH]; simpl.
  - by rewrite Hbad.
  - by rewrite Hm, IH.
Qed.

(** X10. [Commit] checks before it sends. On a client with a request
    timeout, the first condition whose target is not the version makes it
    fail with UnknownTargetType, and the first whose comparison is not
    equality with UnknownCompareType; when all conditions are fine, the
    first operation that is not a set makes it fail with UnknownOpType,
    and the first whose message does not serialize with the error of the
    serialization. In each case the client is unchanged and nothing has
    reached the transport. Conditions are looked at before operations. *)
Theorem Commit_rejects_before_sending (conditions : list Kv.Condition)
    (ops : list (Kv.Op Message)) c :
  let standard (cond : Kv.Condition) :=
    Kv.condTargetType cond = Kv.TargetVersion /\
    Kv.condCompareType cond = Kv.CompareEqual in
  0 < RequestTimeout (opts c) ->
  (forall (good rest : list Kv.Condition) (bad : Kv.Condition),
      conditions = good ++ bad :: rest ->
      Forall standard good ->
      (Kv.condTargetType bad <> Kv.TargetVersion ->
       Commit conditions ops c
       = Done ((None, Some ErrUnknownTargetType), c)) /\
      (Kv.condTargetType bad = Kv.TargetVersion ->
       Kv.condCompareType bad <> Kv.CompareEqual ->
       Commit conditions ops c
       = Done ((None, Some ErrUnknownCompareType), c))) /\
  (Forall standard conditions ->
   forall (good rest : list (Kv.Op Message)) (bad : Kv.Op Message),
     ops = good ++ bad :: rest ->
     Forall (fun op => exists key msg value,
                         op = Kv.SetOp key msg /\ Marshal msg = inr value)
            good ->
     (forall key,
         bad = Kv.UnknownOp key ->
         Commit conditions ops c = Done ((None, Some ErrUnknownOpType), c)) /\
     (forall key msg e,
         bad = Kv.SetOp key msg -> Marshal msg = inl e ->
         Commit conditions ops c
         = Done ((None, Some (errMarshal e)), c))).
Proof.
  intros standard Hlive. split.
  - intros good rest bad -> Hgood. unfold Commit.
    rewrite (context_live _ Hlive), deferCall_live.
    rewrite (processConditions_first_bad _ _ _ _ Hgood). split.
    + intros Htarget. by destruct (Kv.condTargetType bad).
    + intros -> Hcompare. by destruct (Kv.condCompareType bad).
  - intros Hconds good rest bad -> Hgood. unfold Commit.
    rewrite (context_live _ Hlive), deferCall_live.
    rewrite (processConditions_standard _ _ Hconds). split.
    + intros key ->.
      by rewrite (processOps_first_bad _ _ _ _ ErrUnknownOpType Hgood).
    + intros key msg e -> Hm.
      rewrite (processOps_first_bad _ _ _ _ (errMarshal e) Hgood); [done|].
      simpl. by rewrite Hm.
Qed.

(** What the last loop of [Commit] does to the prepared responses when
    every response of the transport is a put response. *)
Lemma fillResponses_puts (prs : list Clientv3.PutResponse) :
  forall (i : nat) (opResponses : list (Kv.OpResponse Message)),
    (i + length prs <= length opResponses)%nat ->
    Forall (fun opr => Kv.opType (Kv.oprOp opr) = Kv.OpSet) opResponses ->
    exists out,
      fillResponses i (map Clientv3.ResponsePut prs) opResponses
      = Done (inl out) /\
      length out = length opResponses /\
      forall j : nat,
        out !! j
        = if bool_decide (i <= j < i + length prs)%nat
          then (fun opr =>
                  Kv.SetValue
                    (versionAfterPut
                       (from_option Clientv3.PrevKv None (prs !! (j - i)%nat)))
                    opr) <$> opResponses !! j
          else opResponses !! j.
Proof.
  induction prs as [|pr prs IH]; intros i opResponses Hlen Hset; simpl.
  - exists opResponses. split; [done|]. split; [done|].
    intros j. case_bool_decide; [lia | done].
  - destruct (lookup_lt_is_Some_2 opResponses i ltac:(simpl in Hlen; lia))
      as [opr Hopr].
    rewrite Hopr.
    rewrite (proj1 (Forall_lookup _ _) Hset i opr Hopr).
    set (opr1 := match Clientv3.PrevKv pr with
                 | Some prev => Kv.SetValue (add64 (Mvccpb.Version prev) 1) opr
                 | None => Kv.SetValue (etcdVersionZero + 1) opr
                 end).
    assert (opr1 = Kv.SetValue (versionAfterPut (Clientv3.PrevKv pr)) opr)
      as Hopr1 by (subst opr1; by destruct (Clientv3.PrevKv pr)).
    destruct (IH (S i) (<[i := opr1]> opResponses)) as (out & Hrun & Hlen' & Hat).
    { rewrite length_insert. simpl in Hlen. lia. }
    { apply Forall_insert; [done|]. rewrite Hopr1. simpl.
      exact (proj1 (Forall_lookup _ _) Hset i opr Hopr). }
    exists out. split; [done|]. rewrite length_insert in Hlen'.
    split; [done|]. intros j. rewrite Hat.
    destruct (decide (j = i)) as [-> | Hne].
    + rewrite bool_decide_eq_false_2 by lia.
      rewrite bool_decide_eq_true_2 by (simpl; lia).
      rewrite list_lookup_insert_eq by (by eapply lookup_lt_Some).
      rewrite Hopr, Nat.sub_diag. simpl. by rewrite Hopr1.
    + rewrite list_lookup_insert_ne by done.
      case_bool_decide as Hj.
      * rewrite bool_decide_eq_true_2 by (simpl; lia).
        replace (j - i)%nat with (S (j - S i)) by lia. done.
      * rewrite bool_decide_eq_false_2 by (simpl; lia). done.
Qed.

(** X11. On a client with a request timeout, a [Commit] whose conditions
    and operations all translate sends exactly one transaction, the
    comparisons and the puts in the order given, on fully-qualified keys
    and with previous-KV return. An error of the transport is returned
    and counted; a failed comparison gives ConditionCheckFailed; and when
    the transport answers every put, the result has one response for each
    operation, in order, carrying the version after that put. *)
Theorem Commit_single_txn (conditions : list Kv.Condition)
    (ops : list (Kv.Op Message)) (puts : list Clientv3.Op) c
    (resp : string + Clientv3.TxnResponse) (t' : T) :
  let cmps :=
    map (fun cond =>
           Clientv3.CompareVersionEqual
             (ApplyPrefix (opts c) (Kv.condKey cond)) (Kv.condValue cond))
        conditions in
  let c1 := withSent (sent c ++ [Clientv3.ReqTxn cmps puts]) (withKv t' c) in
  0 < RequestTimeout (opts c) ->
  Forall (fun cond => Kv.condTargetType cond = Kv.TargetVersion /\
                      Kv.condCompareType cond = Kv.CompareEqual) conditions ->
  Forall2 (fun op put =>
             exists key msg value,
               op = Kv.SetOp key msg /\ Marshal msg = inr value /\
               put = Clientv3.OpPut (ApplyPrefix (opts c) key) value true)
          ops puts ->
  kvTxn cmps puts (kv c) = (resp, t') ->
  (forall e, resp = inl e ->
     Commit conditions ops c
     = Done ((None, Some (errTransport e)), incEtcdTnxError c1)) /\
  (forall r, resp = inr r -> Clientv3.Succeeded r = false ->
     Commit conditions ops c = Done ((None, Some ErrConditionCheckFailed), c1)) /\
  (forall r prs,
     resp = inr r -> Clientv3.Succeeded r = true ->
     Clientv3.Responses r = map Clientv3.ResponsePut prs ->
     length prs = length ops ->
     Commit conditions ops c
     = Done ((Some (zip_with
                      (fun op pr =>
                         Kv.mkOpResponse op
                           (Some (versionAfterPut (Clientv3.PrevKv pr))))
                      ops prs), None), c1)).
Proof.
  intros cmps c1 Hlive Hconds Hops Htxn. unfold Commit, callTxn.
  rewrite (context_live _ Hlive), deferCall_live.
  rewrite (processConditions_standard _ _ Hconds).
  rewrite (processOps_standard _ _ _ Hops). fold cmps. rewrite Htxn. fold c1.
  split; [|split].
  - by intros e ->.
  - intros r -> Hfail. by rewrite Hfail.
  - intros r prs -> Hok Hresp Hlen. rewrite Hok, Hresp. simpl.
    destruct (fillResponses_puts prs 0 (map Kv.NewOpResponse ops))
      as (out & -> & Hlen' & Hat).
    { rewrite length_map. simpl. lia. }
    { apply Forall_fmap, Forall_forall. intros op Hin. simpl.
      apply (Forall2_Forall_l _ (fun op => Kv.opType op = Kv.OpSet)) in Hops.
      - by apply (proj1 (Forall_forall _ _) Hops).
      - apply Forall_forall. intros put _ op' (key & msg & value & -> & _).
        done. }
    assert (out = zip_with
                    (fun op pr =>
                       Kv.mkOpResponse op
                         (Some (versionAfterPut (Clientv3.PrevKv pr))))
                    ops prs) as ->; [|done].
    apply list_eq. intros j. rewrite Hat.
    rewrite lookup_zip_with, list_lookup_fmap.
    destruct (ops !! j) as [op|] eqn:Hop; simpl.
    + assert (j < length prs)%nat as Hj
          by (rewrite Hlen; by eapply lookup_lt_Some).
      destruct (lookup_lt_is_Some_2 prs j Hj) as [pr Hpr].
      rewrite bool_decide_eq_true_2 by lia.
      rewrite Nat.sub_0_r, Hpr. done.
    + by case_bool_decide.
Qed.
End WriteFacts.

(** ** The update callback on a batch of events *)

Section UpdateFacts.
Context {T : Type} {transport : Transport T}.

Implicit Types c : client T.

Lemma getFromEtcdEvents_last (key : string) (events : list Mvccpb.Event)
    (e : Mvccpb.Event) c :
  getFromEtcdEvents key (events ++ [e]) c = getFromEtcdEvents key [e] c.
Proof. unfold getFromEtcdEvents. by rewrite last_snoc. Qed.

Lemma getFromEtcdEvents_registry (key : string) (events : list Mvccpb.Event)
    c nv c1 :
  getFromEtcdEvents key events c = Done (nv, c1) ->
  watchables c1 = watchables c /\ opts c1 = opts c.
Proof.
  unfold getFromEtcdEvents. destruct (last events) as [e|]; [|done].
  destruct (Mvccpb.Type_ e); intros [= <- <-].
  - apply mergeCache_registry.
  - apply deleteCache_registry.
Qed.

Lemma getFromKVStore_registry (key : string) c nv err c1 :
  getFromKVStore key c = Done ((nv, err), c1) ->
  watchables c1 = watchables c /\ opts c1 = opts c.
Proof.
  unfold getFromKVStore.
  destruct (Retry.Attempt _ _ _) as [[execErr [c2 [nv2 err2]]] | |] eqn:Hread;
    [|done|done].
  apply Attempt_get_results in Hread as (Hw & Ho & _).
  destruct execErr as [e|]; [case_decide|]; by intros [= <- <- <-].
Qed.

(** X12. Of a batch of events only the last one counts: the callback does
    with a batch what it does with its last event alone. *)
Theorem update_last_event_only (key : string) (events : list Mvccpb.Event)
    (e : Mvccpb.Event) c :
  update key (events ++ [e]) c = update key [e] c.
Proof.
  unfold update, bind. rewrite length_app. simpl.
  replace (length events + 1 =? 0)%nat with false
    by (symmetry; apply Nat.eqb_neq; lia).
  by rewrite getFromEtcdEvents_last.
Qed.

(** X13. One call of the callback moves the watchable of the key forward
    or not at all. If the watchable held a value of this store before,
    then afterwards it is unchanged, or has taken nil, or has taken a
    value of a strictly higher revision; its log of updates has grown by
    that one entry; and no other key of the registry is touched. *)
Theorem update_delivers_strictly_newer (key : string)
    (events : list Mvccpb.Event) c r c' (w : Kv.ValueWatchable) (cur : value) :
  update key events c = Done (r, c') ->
  watchables c !! key = Some (Kv.OfValue w) ->
  Kv.held w = Some (ptrValue cur) ->
  (exists w',
      watchables c' !! key = Some (Kv.OfValue w') /\
      (w' = w \/
       w' = Kv.mkValueWatchable None (Kv.updates w ++ [None]) \/
       exists v', Rev cur < Rev v' /\
                  w' = Kv.mkValueWatchable (Some (ptrValue v'))
                         (Kv.updates w ++ [Some (ptrValue v')]))) /\
  (forall k, k <> key -> watchables c' !! k = watchables c !! k).
Proof.
  intros Hrun Hw Hheld. unfold update, bind in Hrun.
  assert (exists nv err c1,
             (if (length events =? 0)%nat
              then getFromKVStore key c
              else match getFromEtcdEvents key events c with
                   | Done (nv, c1) => Done ((nv, None), c1)
                   | Panic => Panic
                   | OutOfFuel => OutOfFuel
                   end) = Done ((nv, err), c1) /\
             watchables c1 = watchables c /\
             match err with
             | Some _ => Done (None, c1)
             | None =>
                 match Kv.held w, nv with
                 | None, None => Done (None, c1)
                 | Some _, None => updateWatchable key w None c1
                 | None, Some v => updateWatchable key w nv c1
                 | Some cur, Some v =>
                     if IsNewer v cur
                     then updateWatchable key w nv c1
                     else Done (None, c1)
                 end
             end = Done (r, c')) as (nv & err & c1 & _ & Hsame & Hrest).
  { destruct (length events =? 0)%nat.
    - destruct (getFromKVStore key c) as [[[nv err] c1] | |] eqn:Hread;
        [|done|done].
      exists nv, err, c1. split; [done|].
      destruct (getFromKVStore_registry _ _ _ _ _ Hread) as [Hsame _].
      split; [done|]. destruct err; [done|].
      unfold gets in Hrun. cbv beta iota in Hrun.
      rewrite Hsame, Hw in Hrun. unfold Kv.Get, ret in Hrun.
      destruct (Kv.held w), nv; try destruct (IsNewer _ _); exact Hrun.
    - unfold ret in Hrun.
      destruct (getFromEtcdEvents key events c) as [[nv c1] | |] eqn:Hev;
        [|done|done].
      exists nv, None, c1. split; [done|].
      destruct (getFromEtcdEvents_registry _ _ _ _ _ Hev) as [Hsame _].
      split; [done|]. unfold gets in Hrun. cbv beta iota in Hrun.
      rewrite Hsame, Hw in Hrun. unfold Kv.Get, ret in Hrun.
      destruct (Kv.held w), nv; try destruct (IsNewer _ _); exact Hrun. }
  clear Hrun. rewrite Hheld in Hrest.
  assert (forall nv',
             updateWatchable key w nv' c1 = Done (r, c') ->
             watchables c'
             = <[key := Kv.OfValue (Kv.Update nv' w)]> (watchables c)) as Hupd.
  { intros nv'. unfold updateWatchable, bind, modify, ret.
    intros [= <- <-]. simpl. by rewrite Hsame. }
  destruct err as [e|].
  { injection Hrest as <- <-. rewrite Hsame. split; [|done]. eauto. }
  destruct nv as [v|].
  - destruct (IsNewer v (ptrValue cur)) eqn:Hnewer.
    + apply Hupd in Hrest as ->. split.
      * eexists. split; [apply lookup_insert_eq|]. right. right.
        exists v. split; [by apply Z.ltb_lt|].
        unfold Kv.Update. by rewrite Hheld, Hnewer.
      * intros k Hk. by apply lookup_insert_ne.
    + injection Hrest as <- <-. rewrite Hsame. split; [|done]. eauto.
  - apply Hupd in Hrest as ->. split.
    + eexists. split; [apply lookup_insert_eq|]. right. left. done.
    + intros k Hk. by apply lookup_insert_ne.
Qed.
(** The callback on a batch that ends in a given event, once the event
    has been applied to the cache. *)
Lemma update_after_event (key : string) (events : list Mvccpb.Event)
    (e : Mvccpb.Event) c :
  let nv :=
    match Mvccpb.Type_ e with
    | Mvccpb.PUT =>
        Some (newValue (Mvccpb.Value (Mvccpb.Kv e))
                (Mvccpb.Version (Mvccpb.Kv e))
                (Mvccpb.ModRevision (Mvccpb.Kv e)))
    | Mvccpb.DELETE => None
    end in
  let c1 :=
    match nv with
    | Some v => mergeCache key v c
    | None => deleteCache key c
    end in
  watchables c1 = watchables c /\
  update key (events ++ [e]) c
  = match watchables c !! key with
    | None => Done (Some (errNoWatchable key), c1)
    | Some Kv.OfPrefix => Done (Some (errNotValueWatchable key), c1)
    | Some (Kv.OfValue w) =>
        match Kv.held w, nv with
        | None, None => Done (None, c1)
        | Some cur, Some v =>
            if IsNewer v cur
            then Done (None,
                       withWatchables
                         (<[key := Kv.OfValue (Kv.Update nv w)]> (watchables c))
                         c1)
            else Done (None, c1)
        | _, _ =>
            Done (None,
                  withWatchables
                    (<[key := Kv.OfValue (Kv.Update nv w)]> (watchables c)) c1)
        end
    end.
Proof.
  intros nv c1.
  assert (watchables c1 = watchables c) as Hsame.
  { unfold c1, nv. destruct (Mvccpb.Type_ e).
    - apply mergeCache_registry.
    - apply deleteCache_registry. }
  split; [done|].
  unfold update, bind. rewrite length_app. simpl.
  replace (length events + 1 =? 0)%nat with false
    by (symmetry; apply Nat.eqb_neq; lia).
  rewrite getFromEtcdEvents_last. unfold getFromEtcdEvents. simpl.
  assert (match Mvccpb.Type_ e with
          | Mvccpb.PUT =>
              Done (Some (newValue (Mvccpb.Value (Mvccpb.Kv e))
                            (Mvccpb.Version (Mvccpb.Kv e))
                            (Mvccpb.ModRevision (Mvccpb.Kv e))),
                    mergeCache key
                      (newValue (Mvccpb.Value (Mvccpb.Kv e))
                         (Mvccpb.Version (Mvccpb.Kv e))
                         (Mvccpb.ModRevision (Mvccpb.Kv e))) c)
          | Mvccpb.DELETE => Done (None, deleteCache key c)
          end = Done (nv, c1)) as ->.
  { unfold c1, nv. by destruct (Mvccpb.Type_ e). }
  unfold ret, gets. rewrite Hsame.
  destruct (watchables c !! key) as [[w|]|]; [|done|done].
  clearbody c1. clearbody nv. unfold Kv.Get.
  destruct (Kv.held w), nv; try destruct (IsNewer _ _);
    unfold updateWatchable, bind, modify, ret; by rewrite ?Hsame.
Qed.

(** X14. A batch that ends in a delete event removes the key from the
    cache; a watchable that held a value takes nil, which is entered in its
    log, and one that held nothing is left alone. *)
Theorem update_delete_event (key : string) (events : list Mvccpb.Event)
    (e : Mvccpb.Event) c (w : Kv.ValueWatchable) :
  Mvccpb.Type_ e = Mvccpb.DELETE ->
  watchables c !! key = Some (Kv.OfValue w) ->
  exists c',
    update key (events ++ [e]) c = Done (None, c') /\
    cache c' = delete key (cache c) /\
    watchables c' !! key
    = Some (Kv.OfValue
              (match Kv.held w with
               | Some _ => Kv.mkValueWatchable None (Kv.updates w ++ [None])
               | None => w
               end)).
Proof.
  intros Htype Hw.
  destruct (update_after_event key events e c) as [Hsame ->].
  rewrite Htype in Hsame |- *. rewrite Hw. cbv beta iota zeta in Hsame.
  destruct (Kv.held w) eqn:Hheld; eexists; (split; [reflexivity|]); simpl;
    rewrite cache_deleteCache; (split; [done|]).
  - by rewrite lookup_insert_eq.
  - by rewrite Hsame.
Qed.

(** X15. A batch that ends in a put event is entered in the cache, newer
    only, and offered to the watchable: when the watchable holds nothing,
    or a value of this store with a lower revision, it holds the value of
    the event afterwards; when it holds a value whose revision is not
    lower, it is left as it was. *)
Theorem update_put_event (key : string) (events : list Mvccpb.Event)
    (e : Mvccpb.Event) c (w : Kv.ValueWatchable) :
  let v := newValue (Mvccpb.Value (Mvccpb.Kv e)) (Mvccpb.Version (Mvccpb.Kv e))
             (Mvccpb.ModRevision (Mvccpb.Kv e)) in
  Mvccpb.Type_ e = Mvccpb.PUT ->
  watchables c !! key = Some (Kv.OfValue w) ->
  exists c',
    update key (events ++ [e]) c = Done (None, c') /\
    cache c' = cache (mergeCache key v c) /\
    ((Kv.held w = None \/
      exists cur, Kv.held w = Some (ptrValue cur) /\ Rev cur < Rev v) ->
     watchables c' !! key
     = Some (Kv.OfValue
               (Kv.mkValueWatchable (Some (ptrValue v))
                  (Kv.updates w ++ [Some (ptrValue v)])))) /\
    (forall cur,
        Kv.held w = Some (ptrValue cur) -> Rev v <= Rev cur ->
        watchables c' = watchables c).
Proof.
  intros v Htype Hw.
  destruct (update_after_event key events e c) as [Hsame ->].
  rewrite Htype in Hsame |- *. rewrite Hw. cbv beta iota zeta in Hsame.
  fold v in Hsame |- *.
  destruct (Kv.held w) as [held|] eqn:Hheld.
  - destruct (IsNewer v held) eqn:Hnewer; eexists;
      (split; [reflexivity|]); (split; [done|]); split.
    + intros _. simpl. rewrite lookup_insert_eq.
      unfold Kv.Update. by rewrite Hheld, Hnewer.
    + intros cur [= ->] Hle. unfold IsNewer in Hnewer.
      apply Z.ltb_lt in Hnewer. lia.
    + intros [? | (cur & [= ->] & Hlt)]; [done|].
      unfold IsNewer in Hnewer. apply Z.ltb_ge in Hnewer. lia.
    + intros cur _ _. exact Hsame.
  - eexists. split; [reflexivity|]. split; [done|]. split.
    + intros _. simpl. rewrite lookup_insert_eq.
      unfold Kv.Update. by rewrite Hheld.
    + done.
Qed.

(** X16. The event reaches the cache before the registry is looked at: on
    a key without a watchable the callback reports the missing watchable,
    and the cache has been changed by the last event all the same. *)
Theorem update_unregistered_key (key : string) (events : list Mvccpb.Event)
    (e : Mvccpb.Event) c :
  watchables c !! key = None ->
  exists c',
    update key (events ++ [e]) c = Done (Some (errNoWatchable key), c') /\
    watchables c' = watchables c /\
    cache c'
    = match Mvccpb.Type_ e with
      | Mvccpb.PUT =>
          cache (mergeCache key
                   (newValue (Mvccpb.Value (Mvccpb.Kv e))
                      (Mvccpb.Version (Mvccpb.Kv e))
                      (Mvccpb.ModRevision (Mvccpb.Kv e))) c)
      | Mvccpb.DELETE => delete key (cache c)
      end.
Proof.
  intros Hw.
  destruct (update_after_event key events e c) as [Hsame ->].
  rewrite Hw. eexists. split; [reflexivity|]. split; [done|].
  destruct (Mvccpb.Type_ e); [done|]. by rewrite cache_deleteCache.
Qed.
End UpdateFacts.

(** ** The retried read behind a new watch *)

Section RetryFacts.
Context {T : Type} {transport : Transport T}.

Implicit Types c : client T.

(** The retrier stops after an attempt that returns no error or the
    non-retryable marker. *)
Lemma Attempt_answered (key : string) (retries : nat) c
    (st : option value * option error) nv err c1 :
  get key c = Done ((nv, err), c1) ->
  err = None \/ err = Some ErrNotFound ->
  Retry.Attempt retries (getAttempt key) (c, st)
  = Done (match err with
          | Some _ => Some (NonRetryableError ErrNotFound)
          | None => None
          end, (c1, (nv, err))).
Proof.
  intros Hget Herr.
  destruct retries; simpl; unfold bind, getAttempt; simpl; rewrite Hget;
    by destruct Herr as [-> | ->].
Qed.

(** One turn of the retrier. *)
Lemma Attempt_unfold {S : Type} (retries : nat) (fn : M S (option error))
    (s : S) :
  Retry.Attempt retries fn s
  = match fn s with
    | Done (None, s') => Done (None, s')
    | Done (Some (NonRetryableError inner), s') =>
        Done (Some (NonRetryableError inner), s')
    | Done (Some err, s') =>
        match retries with
        | O => Done (Some err, s')
        | Datatypes.S n => Retry.Attempt n fn s'
        end
    | Panic => Panic
    | OutOfFuel => OutOfFuel
    end.
Proof.
  destruct retries; simpl; unfold bind;
    destruct (fn s) as [[[[]|] s'] | |]; done.
Qed.

(** Every attempt fails while the transport is down and the cache has no
    entry for the key. *)
Lemma Attempt_all_fail (key : string) (down : T -> Prop) (e : string)
    (fast : bool) :
  (forall t, down t ->
     exists t', kvGet key (Clientv3.mkGetOptions fast None) t = (inl e, t') /\
                down t') ->
  forall (retries : nat) c (st : option value * option error),
    EnableFastGets (opts c) = fast -> 0 < RequestTimeout (opts c) ->
    down (kv c) -> cache c !! key = None ->
    exists c',
      Retry.Attempt retries (getAttempt key) (c, st)
      = Done (Some (errTransport e), (c', (None, Some (errTransport e)))) /\
      opts c' = opts c /\
      sent c'
      = sent c ++ replicate (S retries)
                    (Clientv3.ReqGet key (Clientv3.mkGetOptions fast None)) /\
      etcdGetError (m c') = (etcdGetError (m c) + S retries)%nat /\
      cache c' = cache c /\ cacheUpdatedCh c' = cacheUpdatedCh c /\
      watchables c' = watchables c.
Proof.
  intros Hdown. induction retries as [|retries IH];
    intros c st Hfast Hlive Hkv Hcache;
    destruct (Hdown _ Hkv) as (t' & Hget & Hkv');
    rewrite Attempt_unfold;
    (assert (getAttempt key (c, st)
             = Done (Some (errTransport e),
                     (incEtcdGetError
                        (withSent
                           (sent c ++ [Clientv3.ReqGet key
                                         (Clientv3.mkGetOptions fast None)])
                           (withKv t' c)),
                      (None, Some (errTransport e))))) as ->;
     [unfold getAttempt; simpl; unfold get, callGet;
      rewrite (context_live _ Hlive), deferCall_live, Hfast, Hget;
      unfold getCache; simpl; by rewrite Hcache|]).
  - eexists. split; [reflexivity|]. simpl.
    repeat split; try done. lia.
  - match goal with
    | |- context [Retry.Attempt retries _ (?c0, ?st0)] =>
        destruct (IH c0 st0) as (c' & -> & Ho & Hs & Hm & Hc & Hch & Hw);
          [done | done | done | done |]
    end.
    simpl in Ho, Hs, Hm, Hc, Hch, Hw. exists c'. split; [done|].
    split; [done|]. split; [by rewrite Hs, <- app_assoc|].
    split; [lia|]. done.
Qed.

(** X17. On a client with a request timeout, the retried read stops at
    the first answer. A value that the store returns is merged into the cache and returned; a key that the
    store does not have gives nil without an error, after one read; and a
    failure of the transport is not retried either when the cache has the
    key: the cached value is returned after one read. *)
Theorem getFromKVStore_first_answer (key : string) c
    (resp : string + Clientv3.GetResponse) (t' : T) :
  let o := Clientv3.mkGetOptions (EnableFastGets (opts c)) None in
  let c1 := withSent (sent c ++ [Clientv3.ReqGet key o]) (withKv t' c) in
  0 < RequestTimeout (opts c) ->
  kvGet key o (kv c) = (resp, t') ->
  (forall r kv0 rest,
      resp = inr r -> Clientv3.Count r <> 0 ->
      Clientv3.Kvs r = kv0 :: rest ->
      let v := newValue (Mvccpb.Value kv0) (Mvccpb.Version kv0)
                 (Mvccpb.ModRevision kv0) in
      getFromKVStore key c = Done ((Some v, None), mergeCache key v c1)) /\
  (forall r,
      resp = inr r -> Clientv3.Count r = 0 ->
      getFromKVStore key c = Done ((None, None), deleteCache key c1)) /\
  (forall e cachedV,
      resp = inl e -> cache c !! key = Some cachedV ->
      getFromKVStore key c = Done ((Some cachedV, None), incEtcdGetError c1)).
Proof.
  intros o c1 Hlive Hget.
  assert (forall nv err c2,
             get key c = Done ((nv, err), c2) ->
             err = None \/ err = Some ErrNotFound ->
             getFromKVStore key c = Done ((nv, None), c2)) as Hstop.
  { intros nv err c2 Hread Herr. unfold getFromKVStore.
    rewrite (Attempt_answered _ _ _ _ _ _ _ Hread Herr).
    by destruct Herr as [-> | ->]. }
  split; [|split].
  - intros r kv0 rest -> Hcount Hkvs v. apply (Hstop _ None); [|by left].
    unfold get, callGet. rewrite (context_live _ Hlive), deferCall_live.
    fold o. rewrite Hget. fold c1.
    destruct (Z.eqb_spec (Clientv3.Count r) 0); [done|]. by rewrite Hkvs.
  - intros r -> Hcount. apply (Hstop _ (Some ErrNotFound)); [|by right].
    unfold get, callGet. rewrite (context_live _ Hlive), deferCall_live.
    fold o. rewrite Hget. fold c1. by rewrite Hcount.
  - intros e cachedV -> Hcached. apply (Hstop _ None); [|by left].
    unfold get, callGet. rewrite (context_live _ Hlive), deferCall_live.
    fold o. rewrite Hget. fold c1.
    unfold getCache. simpl. by rewrite Hcached.
Qed.

(** X18. On a client with a request timeout, while the transport stays
    down and the cache has no entry for the key, the retried read makes
    one attempt and then as many as the
    retry options allow, each a read of the key that is counted as a get
    error, and returns the error of the transport; cache, channel and
    registry are as before. *)
Theorem getFromKVStore_retries_failures (key : string) (down : T -> Prop)
    (e : string) c :
  let o := Clientv3.mkGetOptions (EnableFastGets (opts c)) None in
  0 < RequestTimeout (opts c) ->
  (forall t, down t -> exists t', kvGet key o t = (inl e, t') /\ down t') ->
  down (kv c) ->
  cache c !! key = None ->
  exists c',
    getFromKVStore key c = Done ((None, Some (errTransport e)), c') /\
    sent c' = sent c ++ replicate (S (MaxRetries (opts c))) (Clientv3.ReqGet key o) /\
    etcdGetError (m c')
    = (etcdGetError (m c) + S (MaxRetries (opts c)))%nat /\
    cache c' = cache c /\ cacheUpdatedCh c' = cacheUpdatedCh c /\
    watchables c' = watchables c.
Proof.
  intros o Hlive Hdown Hkv Hcache. unfold getFromKVStore.
  destruct (Attempt_all_fail key down e (EnableFastGets (opts c)) Hdown
              (MaxRetries (opts c)) c (None, None))
    as (c' & -> & _ & Hs & Hm & Hc & Hch & Hw);
    [done | done | done | done |].
  exists c'. simpl. done.
Qed.
End RetryFacts.

(** ** Writes followed by reads, against the reference transport *)

Section RoundTrips.
Context {Message : Type} {codec : Codec Message}.

Implicit Types (c : client Etcd.Store) (s : Etcd.Store) (key : string).

Lemma latest_version_bounds s key (kv0 : Mvccpb.KeyValue) :
  Etcd.wf s = true ->
  Etcd.latest s key = Some kv0 ->
  1 <= Mvccpb.Version kv0 < Etcd.revision s.
Proof.
  intros Hwf Hkv. unfold Etcd.latest in Hkv.
  destruct (wf_revisions _ Hwf) as (Hlog & _ & _ & _).
  destruct (kvAt_chain _ _ _ _ Hlog Hkv) as (Hpos & _ & _).
  destruct (kvAt_Some _ _ _ _ Hkv) as (_ & Hle & _).
  pose proof (kvAt_version_bound s key Hwf
                (Z.to_nat (Mvccpb.Version kv0)) _ _ Hkv) as Hbound.
  rewrite Z2Nat.id in Hbound by lia. specialize (Hbound eq_refl). lia.
Qed.

(** What the store holds under a key once a value has been written on
    top of its log. *)
Lemma kvAt_after_put s key (val : bytes) :
  Etcd.wf s = true ->
  Etcd.kvAt (Etcd.mkWrite (Etcd.revision s + 1) key (Some val) :: Etcd.log s)
    key (Etcd.revision s + 1)
  = Some (Mvccpb.mkKeyValue key val
            (match Etcd.latest s key with
             | Some prev => Mvccpb.Version prev
             | None => 0
             end + 1)
            (Etcd.revision s + 1)).
Proof.
  intros Hwf. destruct (wf_revisions _ Hwf) as (_ & _ & _ & Hrevs).
  simpl. rewrite Z.leb_refl, bool_decide_eq_true_2 by done. simpl.
  rewrite (kvAt_irrelevant (Etcd.log s) key (Etcd.revision s)
             (Etcd.revision s + 1)); [done | | lia].
  intros w Hin _. specialize (Hrevs w Hin). lia.
Qed.

Lemma mergeCache_kv key (v : value) c :
  kv (mergeCache key v c) = kv c /\ sent (mergeCache key v c) = sent c.
Proof.
  unfold mergeCache.
  destruct (match cache c !! key with
            | Some cur => IsNewer v (ptrValue cur)
            | None => true
            end); [|done].
  by destruct (notifyCacheUpdate_fields (withCache (<[key:=v]> (cache c)) c))
    as (_ & -> & _ & _ & _ & ->).
Qed.

Lemma deleteCache_kv key c :
  kv (deleteCache key c) = kv c /\ sent (deleteCache key c) = sent c.
Proof.
  unfold deleteCache. destruct (cache c !! key); [|done].
  by destruct (notifyCacheUpdate_fields (withCache (delete key (cache c)) c))
    as (_ & -> & _ & _ & _ & ->).
Qed.

(** The methods of the client on a store that is online, called with a
    request timeout. *)
Lemma Get_online c key :
  Etcd.online (kv c) = true ->
  0 < RequestTimeout (opts c) ->
  let fq := ApplyPrefix (opts c) key in
  let c1 :=
    withSent (sent c ++ [Clientv3.ReqGet fq
                           (Clientv3.mkGetOptions (EnableFastGets (opts c))
                              None)]) c in
  Get key c
  = match Etcd.latest (kv c) fq with
    | Some kv0 =>
        let v := newValue (Mvccpb.Value kv0) (Mvccpb.Version kv0)
                   (Mvccpb.ModRevision kv0) in
        Done ((Some v, None), mergeCache fq v c1)
    | None => Done ((None, Some ErrNotFound), deleteCache fq c1)
    end.
Proof.
  intros Hon Hlive fq c1. unfold Get, get, callGet.
  rewrite (context_live _ Hlive), deferCall_live.
  simpl. unfold Etcd.get.
  rewrite Hon. simpl. rewrite Z.ltb_irrefl, withKv_same. fold fq c1.
  unfold Etcd.latest. by destruct (Etcd.kvAt _ _ _).
Qed.

Lemma Set_online c key (msg : Message) (val : bytes) :
  Etcd.online (kv c) = true ->
  0 < RequestTimeout (opts c) ->
  Marshal msg = inr val ->
  let fq := ApplyPrefix (opts c) key in
  Set_ key msg c
  = Done ((versionAfterPut (Etcd.latest (kv c) fq), None),
          withSent (sent c ++ [Clientv3.ReqPut fq val true])
            (withKv (Etcd.mkStore true (Etcd.revision (kv c) + 1)
                       (Etcd.mkWrite (Etcd.revision (kv c) + 1) fq (Some val)
                          :: Etcd.log (kv c))) c)).
Proof.
  intros Hon Hlive Hm fq. unfold Set_, callPut.
  rewrite (context_live _ Hlive), deferCall_live.
  rewrite Hm. simpl. unfold Etcd.put.
  rewrite Hon. simpl. fold fq. by destruct (Etcd.latest (kv c) fq).
Qed.

Lemma CheckAndSet_online c key (version : Z) (msg : Message) (val : bytes) :
  Etcd.online (kv c) = true ->
  0 < RequestTimeout (opts c) ->
  Marshal msg = inr val ->
  let fq := ApplyPrefix (opts c) key in
  let c1 :=
    withSent (sent c ++ [Clientv3.ReqTxn
                           [Clientv3.CompareVersionEqual fq version]
                           [Clientv3.OpPut fq val false]]) c in
  CheckAndSet key version msg c
  = Done
      (if match Etcd.latest (kv c) fq with
          | Some kv0 => Mvccpb.Version kv0 =? version
          | None => 0 =? version
          end
       then ((add64 version 1, None),
             withKv (Etcd.mkStore true (Etcd.revision (kv c) + 1)
                       (Etcd.mkWrite (Etcd.revision (kv c) + 1) fq (Some val)
                          :: Etcd.log (kv c))) c1)
       else ((0, Some ErrVersionMismatch), c1)).
Proof.
  intros Hon Hlive Hm fq c1. unfold CheckAndSet, callTxn.
  rewrite (context_live _ Hlive), deferCall_live. rewrite Hm. f_equal.
  cbn -[Z.eqb Z.add]. unfold Etcd.txn. rewrite Hon. fold fq.
  cbn -[Z.eqb Z.add]. rewrite andb_true_r.
  destruct (match Etcd.latest (kv c) fq with
            | Some kv0 => Mvccpb.Version kv0 =? version
            | None => 0 =? version
            end); simpl; [done|].
  unfold c1. by rewrite withKv_same.
Qed.

Lemma Delete_online c key :
  Etcd.online (kv c) = true ->
  0 < RequestTimeout (opts c) ->
  let fq := ApplyPrefix (opts c) key in
  let c1 := withSent (sent c ++ [Clientv3.ReqDelete fq true]) c in
  Delete key c
  = match Etcd.latest (kv c) fq with
    | Some prev =>
        Done ((Some (newValue (Mvccpb.Value prev) (Mvccpb.Version prev)
                       (Mvccpb.ModRevision prev)), None),
              deleteCache fq
                (withKv (Etcd.mkStore true (Etcd.revision (kv c) + 1)
                           (Etcd.mkWrite (Etcd.revision (kv c) + 1) fq None
                              :: Etcd.log (kv c))) c1))
    | None => Done ((None, Some ErrNotFound), c1)
    end.
Proof.
  intros Hon Hlive fq c1. unfold Delete, callDelete.
  rewrite (context_live _ Hlive), deferCall_live.
  simpl. unfold Etcd.delete.
  rewrite Hon. simpl. fold fq.
  destruct (Etcd.latest (kv c) fq); simpl; [done|].
  unfold c1. by rewrite withKv_same.
Qed.

Lemma versionAfterPut_latest s key :
  Etcd.wf s = true -> Etcd.revision s < max_int64 ->
  versionAfterPut (Etcd.latest s key)
  = match Etcd.latest s key with
    | Some prev => Mvccpb.Version prev
    | None => 0
    end + 1.
Proof.
  intros Hwf Hroom. destruct (Etcd.latest s key) as [prev|] eqn:Hprev; [|done].
  simpl. apply add64_succ.
  pose proof (latest_version_bounds _ _ _ Hwf Hprev).
  unfold min_int64, max_int64 in *. lia.
Qed.

(** X19. What [Set] writes, [Get] reads, under the version that [Set]
    returned: on a store that is online and a client with a request
    timeout, a [Set] of a message that serializes to [val] returns the
    version after the latest one of the key (1 for a key the store does
    not hold), and the [Get] that follows returns [val] with this version
    and the revision of the write. *)
Theorem Set_then_Get c key (msg : Message) (val : bytes) :
  0 < RequestTimeout (opts c) ->
  Etcd.online (kv c) = true -> Etcd.wf (kv c) = true ->
  Etcd.revision (kv c) < max_int64 ->
  Marshal msg = inr val ->
  exists (version : Z) c1 c2,
    Set_ key msg c = Done ((version, None), c1) /\
    Get key c1
    = Done ((Some (newValue val version (Etcd.revision (kv c) + 1)), None),
            c2) /\
    version = match Etcd.latest (kv c) (ApplyPrefix (opts c) key) with
              | Some prev => Mvccpb.Version prev + 1
              | None => 1
              end.
Proof.
  intros Hlive Hon Hwf Hroom Hm.
  rewrite (Set_online _ _ _ _ Hon Hlive Hm).
  rewrite (versionAfterPut_latest _ _ Hwf Hroom).
  do 3 eexists. split; [reflexivity|]. split.
  - rewrite Get_online by done. cbn [opts withSent withKv kv].
    unfold Etcd.latest at 1. cbn [Etcd.log Etcd.revision].
    rewrite (kvAt_after_put _ _ _ Hwf). reflexivity.
  - by destruct (Etcd.latest (kv c) (ApplyPrefix (opts c) key)).
Qed.

Lemma Get_online_Some c key (v : value) c1 :
  Etcd.online (kv c) = true ->
  Get key c = Done ((Some v, None), c1) ->
  exists kv0,
    Etcd.latest (kv c) (ApplyPrefix (opts c) key) = Some kv0 /\
    v = newValue (Mvccpb.Value kv0) (Mvccpb.Version kv0)
          (Mvccpb.ModRevision kv0) /\
    kv c1 = kv c /\ opts c1 = opts c /\ 0 < RequestTimeout (opts c).
Proof.
  intros Hon Hget.
  assert (0 < RequestTimeout (opts c)) as Hlive
      by exact (get_returned _ _ _ Hget).
  revert Hget. rewrite Get_online by done.
  destruct (Etcd.latest _ _) as [kv0|]; [|done].
  intros [= <- <-]. exists kv0. split; [done|]. split; [done|].
  match goal with
  | |- context [mergeCache ?k ?v ?c0] =>
      destruct (mergeCache_kv k v c0) as [-> _];
      destruct (mergeCache_registry k v c0) as [_ ->]
  end.
  done.
Qed.

Lemma Get_online_NotFound c key c1 :
  Etcd.online (kv c) = true ->
  Get key c = Done ((None, Some ErrNotFound), c1) ->
  Etcd.latest (kv c) (ApplyPrefix (opts c) key) = None /\
  kv c1 = kv c /\ opts c1 = opts c /\ 0 < RequestTimeout (opts c).
Proof.
  intros Hon Hget.
  assert (0 < RequestTimeout (opts c)) as Hlive
      by exact (get_returned _ _ _ Hget).
  revert Hget. rewrite Get_online by done.
  destruct (Etcd.latest _ _) as [kv0|]; [done|].
  intros [= <-]. split; [done|].
  match goal with
  | |- context [deleteCache ?k ?c0] =>
      destruct (deleteCache_kv k c0) as [-> _];
      destruct (deleteCache_registry k c0) as [_ ->]
  end.
  done.
Qed.

(** X20. Optimistic concurrency on the version that [Get] returned: on
    a store that is online, [CheckAndSet] with the version of the value
    just read succeeds and returns the next version; the same call made
    again, now with a stale version, fails with VersionMismatch; and
    [Get] then returns what the first call wrote. *)
Theorem CheckAndSet_after_Get c key (v : value) c1 (msg : Message)
    (val : bytes) :
  Etcd.online (kv c) = true -> Etcd.wf (kv c) = true ->
  Etcd.revision (kv c) < max_int64 ->
  Marshal msg = inr val ->
  Get key c = Done ((Some v, None), c1) ->
  exists c2 c3 c4,
    CheckAndSet key (Version v) msg c1
    = Done ((Version v + 1, None), c2) /\
    CheckAndSet key (Version v) msg c2
    = Done ((0, Some ErrVersionMismatch), c3) /\
    Get key c3
    = Done ((Some (newValue val (Version v + 1) (Etcd.revision (kv c) + 1)),
             None), c4).
Proof.
  intros Hon Hwf Hroom Hm Hget.
  destruct (Get_online_Some _ _ _ _ Hon Hget)
    as (kv0 & Hlatest & -> & Hkv & Hopts & Hlive).
  pose proof (latest_version_bounds _ _ _ Hwf Hlatest) as Hbounds.
  unfold Version. cbn [Ver newValue].
  do 3 eexists. split; [|split].
  - rewrite (CheckAndSet_online c1 key _ msg val) by (by rewrite ?Hkv, ?Hopts).
    rewrite Hkv, Hopts, Hlatest, Z.eqb_refl.
    rewrite add64_succ by (unfold min_int64, max_int64 in *; lia).
    reflexivity.
  - rewrite (CheckAndSet_online _ key _ msg val)
      by (done || (simpl; by rewrite Hopts)).
    cbn [opts withSent withKv kv]. rewrite Hopts.
    unfold Etcd.latest at 1. cbn [Etcd.log Etcd.revision].
    rewrite (kvAt_after_put _ _ _ Hwf), Hlatest. cbn [Mvccpb.Version].
    destruct (Z.eqb_spec (Mvccpb.Version kv0 + 1) (Mvccpb.Version kv0));
      [lia|]. reflexivity.
  - rewrite Get_online by (done || (simpl; by rewrite Hopts)).
    cbn [opts withSent withKv kv]. rewrite Hopts.
    unfold Etcd.latest at 1. cbn [Etcd.log Etcd.revision].
    rewrite (kvAt_after_put _ _ _ Hwf), Hlatest. reflexivity.
Qed.

(** X21. [SetIfNotExists] decides by what [Get] has just seen: for a key
    that [Get] returned, it fails with AlreadyExists and writes nothing;
    for a key that [Get] did not find, it creates the key at version 1,
    and [Get] then returns the value written. *)
Theorem SetIfNotExists_by_existence c key (msg : Message) (val : bytes) :
  Etcd.online (kv c) = true -> Etcd.wf (kv c) = true ->
  Etcd.revision (kv c) < max_int64 ->
  Marshal msg = inr val ->
  (forall v c1,
      Get key c = Done ((Some v, None), c1) ->
      exists c2,
        SetIfNotExists key msg c1 = Done ((0, Some ErrAlreadyExists), c2) /\
        kv c2 = kv c) /\
  (forall c1,
      Get key c = Done ((None, Some ErrNotFound), c1) ->
      exists c2 c3,
        SetIfNotExists key msg c1 = Done ((1, None), c2) /\
        Get key c2
        = Done ((Some (newValue val 1 (Etcd.revision (kv c) + 1)), None),
                c3)).
Proof.
  intros Hon Hwf Hroom Hm. split.
  - intros v c1 Hget.
    destruct (Get_online_Some _ _ _ _ Hon Hget)
      as (kv0 & Hlatest & _ & Hkv & Hopts & Hlive).
    pose proof (latest_version_bounds _ _ _ Hwf Hlatest) as Hbounds.
    unfold SetIfNotExists, bind, ret.
    rewrite (CheckAndSet_online c1 key _ msg val)
      by (by rewrite ?Hkv, ?Hopts).
    rewrite Hkv, Hopts, Hlatest.
    destruct (Z.eqb_spec (Mvccpb.Version kv0) etcdVersionZero) as [Hz | _];
      [unfold etcdVersionZero in Hz; lia|].
    rewrite decide_True by done. eexists. split; [reflexivity|]. done.
  - intros c1 Hget.
    destruct (Get_online_NotFound _ _ _ Hon Hget)
      as (Hlatest & Hkv & Hopts & Hlive).
    unfold SetIfNotExists, bind, ret.
    rewrite (CheckAndSet_online c1 key _ msg val)
      by (by rewrite ?Hkv, ?Hopts).
    rewrite Hkv, Hopts, Hlatest. change (0 =? etcdVersionZero) with true.
    change (add64 etcdVersionZero 1) with 1. cbv beta iota zeta.
    rewrite decide_False by done.
    do 2 eexists. split; [reflexivity|].
    rewrite Get_online by (done || (simpl; by rewrite Hopts)).
    cbn [opts withSent withKv kv]. rewrite Hopts.
    unfold Etcd.latest at 1. cbn [Etcd.log Etcd.revision].
    rewrite (kvAt_after_put _ _ _ Hwf), Hlatest. reflexivity.
Qed.

(** X22. After a [Delete] that returned a value, which is the latest one
    the store held, the key is gone: [Get] answers NotFound, and the next
    [Set] starts the key again at version 1. *)
Theorem Delete_then_Get_and_Set c key (v : value) c1 :
  Etcd.online (kv c) = true ->
  Delete key c = Done ((Some v, None), c1) ->
  (exists kv0,
      Etcd.latest (kv c) (ApplyPrefix (opts c) key) = Some kv0 /\
      v = newValue (Mvccpb.Value kv0) (Mvccpb.Version kv0)
            (Mvccpb.ModRevision kv0)) /\
  (exists c2, Get key c1 = Done ((None, Some ErrNotFound), c2)) /\
  (forall (msg : Message) (val : bytes),
      Marshal msg = inr val ->
      exists c2, Set_ key msg c1 = Done ((1, None), c2)).
Proof.
  intros Hon Hdel.
  assert (0 < RequestTimeout (opts c)) as Hlive
      by exact (Delete_returned _ _ _ Hdel).
  revert Hdel. rewrite Delete_online by done.
  destruct (Etcd.latest _ _) as [kv0|] eqn:Hlatest; [|done].
  intros [= <- <-]. split; [by exists kv0|].
  match goal with
  | |- context [deleteCache ?k ?c0] =>
      destruct (deleteCache_kv k c0) as [Hkv _];
      destruct (deleteCache_registry k c0) as [_ Hopts];
      set (c1 := deleteCache k c0) in *
  end.
  cbn [opts withSent withKv kv] in Hkv, Hopts.
  assert (Etcd.latest (kv c1) (ApplyPrefix (opts c1) key) = None) as Hgone.
  { rewrite Hkv, Hopts. unfold Etcd.latest. cbn [Etcd.log Etcd.revision].
    simpl. by rewrite Z.leb_refl, bool_decide_eq_true_2. }
  assert (Etcd.online (kv c1) = true) as Hon1 by (by rewrite Hkv).
  assert (0 < RequestTimeout (opts c1)) as Hlive1 by (by rewrite Hopts).
  split.
  - rewrite Get_online by done. rewrite Hgone. by eexists.
  - intros msg val Hm. rewrite (Set_online _ _ _ _ Hon1 Hlive1 Hm), Hgone.
    by eexists.
Qed.
End RoundTrips.

(** ** The callback of a prefix watch *)

Section PrefixFacts.

Implicit Types (events : list Mvccpb.Event) (curValues : gmap string kvValue).
Implicit Types (values : gmap string value) (toDelete : list string).

Lemma getFromEtcdEventsForPrefix_snoc events (e : Mvccpb.Event) :
  getFromEtcdEventsForPrefix (events ++ [e])
  = match Mvccpb.Type_ e with
    | Mvccpb.DELETE =>
        (fst (getFromEtcdEventsForPrefix events),
         snd (getFromEtcdEventsForPrefix events) ++ [Mvccpb.Key (Mvccpb.Kv e)])
    | Mvccpb.PUT =>
        (<[Mvccpb.Key (Mvccpb.Kv e) :=
             newValue (Mvccpb.Value (Mvccpb.Kv e))
               (Mvccpb.Version (Mvccpb.Kv e))
               (Mvccpb.ModRevision (Mvccpb.Kv e))]>
           (fst (getFromEtcdEventsForPrefix events)),
         snd (getFromEtcdEventsForPrefix events))
    end.
Proof.
  unfold getFromEtcdEventsForPrefix. rewrite fold_left_app. simpl.
  by destruct (fold_left _ events _).
Qed.

Lemma getFromEtcdEventsForPrefix_toDelete events :
  snd (getFromEtcdEventsForPrefix events)
  = map (fun e => Mvccpb.Key (Mvccpb.Kv e))
      (List.filter (fun e => match Mvccpb.Type_ e with
                             | Mvccpb.DELETE => true
                             | Mvccpb.PUT => false
                             end) events).
Proof.
  induction events as [|e events IH] using rev_ind; [done|].
  rewrite getFromEtcdEventsForPrefix_snoc, List.filter_app, map_app, <- IH.
  simpl. destruct (Mvccpb.Type_ e); simpl; by rewrite ?app_nil_r.
Qed.

Lemma getFromEtcdEventsForPrefix_values events (k : string) :
  fst (getFromEtcdEventsForPrefix events) !! k
  = (fun e => newValue (Mvccpb.Value (Mvccpb.Kv e))
                (Mvccpb.Version (Mvccpb.Kv e))
                (Mvccpb.ModRevision (Mvccpb.Kv e)))
    <$> last (List.filter
                (fun e => match Mvccpb.Type_ e with
                          | Mvccpb.PUT =>
                              bool_decide (Mvccpb.Key (Mvccpb.Kv e) = k)
                          | Mvccpb.DELETE => false
                          end) events).
Proof.
  induction events as [|e events IH] using rev_ind; [done|].
  rewrite getFromEtcdEventsForPrefix_snoc, List.filter_app. simpl.
  destruct (Mvccpb.Type_ e); simpl.
  - case_bool_decide as Hk.
    + rewrite last_snoc. simpl. rewrite <- Hk. apply lookup_insert_eq.
    + rewrite app_nil_r, lookup_insert_ne by done. exact IH.
  - rewrite app_nil_r. exact IH.
Qed.

(** X23. How a batch of events is split for a prefix watch: the keys to
    delete are the keys of the delete events, in the order of the batch;
    and the values hold, under each key, the value of the last put event
    of this key in the batch, and nothing for a key that the batch does not
    put. A delete event takes no value away. *)
Theorem getFromEtcdEventsForPrefix_last_put events :
  snd (getFromEtcdEventsForPrefix events)
  = map (fun e => Mvccpb.Key (Mvccpb.Kv e))
      (List.filter (fun e => match Mvccpb.Type_ e with
                             | Mvccpb.DELETE => true
                             | Mvccpb.PUT => false
                             end) events) /\
  forall k : string,
    fst (getFromEtcdEventsForPrefix events) !! k
    = (fun e => newValue (Mvccpb.Value (Mvccpb.Kv e))
                  (Mvccpb.Version (Mvccpb.Kv e))
                  (Mvccpb.ModRevision (Mvccpb.Kv e)))
      <$> last (List.filter
                  (fun e => match Mvccpb.Type_ e with
                            | Mvccpb.PUT =>
                                bool_decide (Mvccpb.Key (Mvccpb.Kv e) = k)
                            | Mvccpb.DELETE => false
                            end) events).
Proof.
  split.
  - apply getFromEtcdEventsForPrefix_toDelete.
  - apply getFromEtcdEventsForPrefix_values.
Qed.

Lemma fold_delete_lookup toDelete :
  forall (m : gmap string kvValue) (k : string),
    fold_left (fun acc k => delete k acc) toDelete m !! k
    = if bool_decide (k ∈ toDelete) then None else m !! k.
Proof.
  induction toDelete as [|d toDelete IH]; intros m k; simpl; [done|].
  rewrite IH. destruct (decide (k ∈ toDelete)) as [Hin | Hout].
  - rewrite !bool_decide_eq_true_2; [done | by right | done].
  - rewrite (bool_decide_eq_false_2 (k ∈ toDelete)) by done.
    destruct (decide (k = d)) as [-> | Hne].
    + rewrite bool_decide_eq_true_2 by (by left). apply lookup_delete_eq.
    + rewrite bool_decide_eq_false_2
        by (intros [? | ?]%elem_of_cons; done).
      by apply lookup_delete_ne.
Qed.

(** The map that the callback builds, key by key. *)
Lemma updatedValues_lookup curValues values toDelete (k : string) :
  fold_left (fun acc k => delete k acc) toDelete
    ((ptrValue <$> values) ∪ curValues) !! k
  = if bool_decide (k ∈ toDelete) then None
    else match values !! k with
         | Some v => Some (ptrValue v)
         | None => curValues !! k
         end.
Proof.
  rewrite fold_delete_lookup. case_bool_decide; [done|].
  rewrite lookup_union, lookup_fmap.
  by destruct (values !! k), (curValues !! k).
Qed.

Lemma updateForPrefixMerge_Some curValues values toDelete
    (updatedValues : gmap string kvValue) :
  updateForPrefixMerge curValues values toDelete = Some updatedValues ->
  updatedValues
  = fold_left (fun acc k => delete k acc) toDelete
      ((ptrValue <$> values) ∪ curValues).
Proof.
  unfold updateForPrefixMerge.
  destruct ((size curValues =? 0)%nat && (size values =? 0)%nat); [done|].
  destruct (negb _); [by intros [= <-]|].
  destruct (existsb _ _); [by intros [= <-] | done].
Qed.

(** X24. What a prefix watchable is handed when it is updated: a key
    that is to be deleted is absent, whatever the batch or the watchable
    hold for it; any other key has the value of the batch when the batch
    has one, of whatever revision, and else the value that the watchable
    held. *)
Theorem updateForPrefix_updated_values curValues values toDelete
    (updatedValues : gmap string kvValue) :
  updateForPrefixMerge curValues values toDelete = Some updatedValues ->
  forall k : string,
    updatedValues !! k
    = if bool_decide (k ∈ toDelete) then None
      else match values !! k with
           | Some v => Some (ptrValue v)
           | None => curValues !! k
           end.
Proof.
  intros ->%updateForPrefixMerge_Some k. apply updatedValues_lookup.
Qed.

(** X25. Within one batch a delete outweighs a put, also a later one:
    if a batch of events has a delete event for a key, anywhere, the map
    handed to the prefix watchable has no entry for this key; and for a
    key without a delete event in the batch, it has the value of the last
    put event of the key. *)
Theorem updateForPrefix_delete_outweighs_put curValues events
    (updatedValues : gmap string kvValue) :
  updateForPrefixMerge curValues (fst (getFromEtcdEventsForPrefix events))
    (snd (getFromEtcdEventsForPrefix events)) = Some updatedValues ->
  (forall e : Mvccpb.Event,
      e ∈ events -> Mvccpb.Type_ e = Mvccpb.DELETE ->
      updatedValues !! Mvccpb.Key (Mvccpb.Kv e) = None) /\
  (forall (before after : list Mvccpb.Event) (e : Mvccpb.Event),
      events = before ++ e :: after ->
      Mvccpb.Type_ e = Mvccpb.PUT ->
      (forall e', e' ∈ after ->
                  Mvccpb.Key (Mvccpb.Kv e') <> Mvccpb.Key (Mvccpb.Kv e)) ->
      (forall e', e' ∈ before -> Mvccpb.Type_ e' = Mvccpb.DELETE ->
                  Mvccpb.Key (Mvccpb.Kv e') <> Mvccpb.Key (Mvccpb.Kv e)) ->
      updatedValues !! Mvccpb.Key (Mvccpb.Kv e)
      = Some (ptrValue (newValue (Mvccpb.Value (Mvccpb.Kv e))
                          (Mvccpb.Version (Mvccpb.Kv e))
                          (Mvccpb.ModRevision (Mvccpb.Kv e))))).
Proof.
  intros ->%updateForPrefixMerge_Some. split.
  - intros e Hin Htype. rewrite updatedValues_lookup.
    rewrite bool_decide_eq_true_2; [done|].
    rewrite getFromEtcdEventsForPrefix_toDelete.
    apply list_elem_of_In, in_map_iff. exists e. split; [done|].
    apply filter_In. split; [by apply list_elem_of_In | by rewrite Htype].
  - intros before after e -> Htype Hafter Hbefore.
    rewrite updatedValues_lookup.
    rewrite bool_decide_eq_false_2.
    + rewrite getFromEtcdEventsForPrefix_values.
      rewrite List.filter_app. simpl. rewrite Htype.
      rewrite bool_decide_eq_true_2 by done.
      assert (List.filter
                (fun e0 => match Mvccpb.Type_ e0 with
                           | Mvccpb.PUT =>
                               bool_decide (Mvccpb.Key (Mvccpb.Kv e0)
                                            = Mvccpb.Key (Mvccpb.Kv e))
                           | Mvccpb.DELETE => false
                           end) after = []) as ->.
      { clear -Hafter. induction after as [|e' after IH]; [done|]. simpl.
        destruct (Mvccpb.Type_ e').
        - rewrite bool_decide_eq_false_2 by (apply Hafter; by left).
          apply IH. intros e'' Hin. apply Hafter. by right.
        - apply IH. intros e'' Hin. apply Hafter. by right. }
      by rewrite last_snoc.
    + rewrite getFromEtcdEventsForPrefix_toDelete.
      intros Hin%list_elem_of_In. apply in_map_iff in Hin
        as (e' & Hkey & Hin). apply filter_In in Hin as [Hin Hdel].
      destruct (Mvccpb.Type_ e') eqn:Htype'; [done|].
      apply in_app_or in Hin as [Hin | [<- | Hin]].
      * by apply (Hbefore e'); [apply list_elem_of_In| |].
      * congruence.
      * by apply (Hafter e'); [apply list_elem_of_In|].
Qed.

(** The last loop of the callback finds nothing exactly when every key of
    the batch is held with a value that the one of the batch is not newer
    than. *)
Lemma existsb_newer_false curValues values :
  existsb (fun '(k, v) =>
             match curValues !! k with
             | None => true
             | Some existing => IsNewer v existing
             end) (map_to_list values) = false <->
  forall (k : string) (v : value),
    values !! k = Some v ->
    exists held, curValues !! k = Some held /\ IsNewer v held = false.
Proof.
  split.
  - intros Hnone k v Hk.
    assert (match curValues !! k with
            | None => true
            | Some existing => IsNewer v existing
            end = false) as Hf.
    { destruct (match curValues !! k with
                | None => true
                | Some existing => IsNewer v existing
                end) eqn:Hf; [|done].
      rewrite <- Hnone. symmetry. apply existsb_exists. exists (k, v).
      split; [by apply list_elem_of_In, elem_of_map_to_list | done]. }
    destruct (curValues !! k) as [held|]; [|done]. by exists held.
  - intros Hall.
    destruct (existsb _ _) eqn:Hex; [|done].
    apply existsb_exists in Hex as ([k v] & Hin & Hf).
    apply list_elem_of_In, elem_of_map_to_list in Hin.
    destruct (Hall k v Hin) as (held & Hheld & Hold).
    rewrite Hheld in Hf. congruence.
Qed.

(** X26. When the prefix watchable is updated. A batch value under a key
    that the watchable does not hold, or holds with an older value, always
    leads to an update, and so does the deletion of a key that the
    watchable holds. When every value of the batch is held already, not
    older, and no key that is held is deleted, there is no update. *)
Theorem updateForPrefix_when_updated curValues values toDelete :
  ((exists (k : string) (v : value),
       values !! k = Some v /\
       match curValues !! k with
       | None => True
       | Some held => IsNewer v held = true
       end) ->
   is_Some (updateForPrefixMerge curValues values toDelete)) /\
  ((exists k : string, k ∈ toDelete /\ is_Some (curValues !! k)) ->
   is_Some (updateForPrefixMerge curValues values toDelete)) /\
  ((forall (k : string) (v : value),
       values !! k = Some v ->
       exists held, curValues !! k = Some held /\ IsNewer v held = false) ->
   (forall k : string, k ∈ toDelete -> curValues !! k = None) ->
   updateForPrefixMerge curValues values toDelete = None).
Proof.
  split; [|split].
  - intros (k & v & Hk & Hnew). unfold updateForPrefixMerge.
    assert (size values <> 0%nat) as Hsize.
    { intros Hz%map_size_empty_iff. by rewrite Hz in Hk. }
    apply Nat.eqb_neq in Hsize. rewrite Hsize, andb_false_r.
    destruct (negb _); [done|].
    destruct (existsb _ _) eqn:Hex; [done|].
    destruct (proj1 (existsb_newer_false _ _) Hex k v Hk)
      as (held & Hheld & Hold).
    rewrite Hheld in Hnew. congruence.
  - intros (k & Hdel & Hheld). unfold updateForPrefixMerge.
    assert (size curValues <> 0%nat) as Hsize.
    { intros Hz%map_size_empty_iff. rewrite Hz in Hheld.
      by apply is_Some_None in Hheld. }
    apply Nat.eqb_neq in Hsize. rewrite Hsize. simpl.
    destruct (Nat.eqb_spec
                (size (fold_left (fun acc k => delete k acc) toDelete
                         ((ptrValue <$> values) ∪ curValues)))
                (size curValues)) as [Heq | _]; [|done]. simpl.
    destruct (existsb _ _) eqn:Hex; [done|]. exfalso.
    pose proof (proj1 (existsb_newer_false _ _) Hex) as Hall.
    rewrite <- !size_dom in Heq.
    assert (dom (fold_left (fun acc k => delete k acc) toDelete
                   ((ptrValue <$> values) ∪ curValues)) ⊂ dom curValues)
      as Hsub.
    { split.
      - intros k'. rewrite !elem_of_dom, updatedValues_lookup.
        case_bool_decide; [by intros ?%is_Some_None|].
        destruct (values !! k') as [v|] eqn:Hv; [|done].
        intros _. destruct (Hall k' v Hv) as (held & -> & _). done.
      - intros Hall'. specialize (Hall' k).
        rewrite !elem_of_dom, updatedValues_lookup in Hall'.
        rewrite bool_decide_eq_true_2 in Hall' by done.
        by destruct (Hall' Hheld) as [? ?]. }
    apply subset_size in Hsub. lia.
  - intros Hall Hdel. unfold updateForPrefixMerge.
    destruct ((size curValues =? 0)%nat && (size values =? 0)%nat); [done|].
    assert (dom (fold_left (fun acc k => delete k acc) toDelete
                   ((ptrValue <$> values) ∪ curValues)) = dom curValues)
      as Hdom.
    { apply set_eq. intros k. rewrite !elem_of_dom, updatedValues_lookup.
      case_bool_decide as Hk.
      - rewrite (Hdel k Hk). done.
      - destruct (values !! k) as [v|] eqn:Hv; [|done].
        destruct (Hall k v Hv) as (held & -> & _).
        split; intros _; done. }
    apply (f_equal size) in Hdom. rewrite !size_dom in Hdom.
    rewrite Hdom, Nat.eqb_refl. simpl.
    by rewrite (proj2 (existsb_newer_false _ _) Hall).
Qed.
End PrefixFacts.

(** ** A client without a request timeout *)

Section NoTimeout.
Context {T : Type} {transport : Transport T}.
Context {Message : Type} {codec : Codec Message}.

Implicit Types c : client T.

Lemma fillResponses_ends (responses : list Clientv3.ResponseOp) :
  forall (i : nat) (opResponses : list (Kv.OpResponse Message)),
    fillResponses i responses opResponses <> OutOfFuel.
Proof.
  induction responses as [|response rest IH]; intros i opResponses; simpl;
    [done|].
  destruct (opResponses !! i) as [opr|]; [|done].
  destruct (Kv.opType (Kv.oprOp opr)); [|apply IH].
  destruct (Clientv3.GetResponsePut response); [apply IH | done].
Qed.

Lemma deferCall_nil_panics {A : Type} (body : exec A) :
  body <> OutOfFuel -> deferCall nilFunc body = Panic.
Proof. by destruct body. Qed.

Lemma get_panics (key : string) c :
  RequestTimeout (opts c) <= 0 -> get key c = Panic.
Proof.
  intros Hnone. unfold get. rewrite (context_nil _ Hnone).
  apply deferCall_nil_panics. unfold callGet.
  destruct (kvGet _ _ (kv c)) as [[e | r] t']; simpl.
  - unfold getCache. by destruct (cache _ !! key).
  - destruct (Clientv3.Count r =? 0); [done|].
    by destruct (Clientv3.Kvs r).
Qed.

(** X27. Without a request timeout no method that opens a request
    context returns. [context] hands out [noopCancel], which is the nil
    function, and the deferred call of it panics when the method is about
    to return: [Get], [Set], [CheckAndSet], [SetIfNotExists], [Delete]
    and [Commit] panic, whatever the transport answers, and so do the
    retried read and the update callback on an empty batch. [History]
    still returns from its two checks of the range, and never from behind
    them. *)
Theorem no_timeout_no_return (key : string) (version : Z) (v : Message)
    (conditions : list Kv.Condition) (ops : list (Kv.Op Message)) c :
  RequestTimeout (opts c) <= 0 ->
  Get key c = Panic /\
  Set_ key v c = Panic /\
  CheckAndSet key version v c = Panic /\
  SetIfNotExists key v c = Panic /\
  Delete key c = Panic /\
  Commit conditions ops c = Panic /\
  getFromKVStore key c = Panic /\
  update key [] c = Panic /\
  (forall (fuel : nat) (from to : Z) x,
      0 <= from -> from < to -> History fuel key from to c <> Done x).
Proof.
  intros Hnone.
  assert (CheckAndSet key version v c = Panic /\
          CheckAndSet key etcdVersionZero v c = Panic) as [Hcas Hcas0].
  { unfold CheckAndSet. by rewrite (context_nil _ Hnone). }
  assert (getFromKVStore key c = Panic) as Hread.
  { unfold getFromKVStore.
    destruct (MaxRetries (opts c)); simpl; unfold bind, getAttempt; simpl;
      by rewrite (get_panics _ _ Hnone). }
  split; [by apply get_panics|].
  split; [unfold Set_; by rewrite (context_nil _ Hnone)|].
  split; [done|].
  split; [unfold SetIfNotExists, bind; by rewrite Hcas0|].
  split.
  { unfold Delete. rewrite (context_nil _ Hnone).
    apply deferCall_nil_panics. unfold callDelete.
    destruct (kvDelete _ _ (kv c)) as [[e | r] t']; simpl; [done|].
    destruct (Clientv3.Deleted r =? 0); [done|].
    by destruct (Clientv3.PrevKvs r). }
  split.
  { unfold Commit. rewrite (context_nil _ Hnone).
    apply deferCall_nil_panics.
    destruct (processConditions conditions c) as [cmps | err]; [|done].
    destruct (processOps ops c) as [[etcdOps opResponses] | err]; [|done].
    unfold callTxn. destruct (kvTxn _ _ (kv c)) as [[e | r] t']; simpl;
      [done|].
    destruct (negb (Clientv3.Succeeded r)); [done|].
    pose proof (fillResponses_ends (Clientv3.Responses r) 0 opResponses).
    by destruct (fillResponses 0 (Clientv3.Responses r) opResponses)
      as [[?|?] | |]. }
  split; [done|].
  split; [unfold update, bind; simpl; by rewrite Hread|].
  intros fuel from to x Hfrom Hlt. unfold History.
  destruct (Z.ltb_spec to from); [lia|].
  destruct (Z.ltb_spec from 0); [lia|].
  destruct (Z.ltb_spec to 0); [lia|]. cbn [orb].
  destruct (Z.eqb_spec from to); [lia|].
  unfold bind, gets, defer. rewrite (context_nil _ Hnone).
  apply deferCall_nil.
Qed.
End NoTimeout.

(** ** The further properties on the scenarios *)

Section FurtherRuns.
Import Byte Scenario Fixtures.

(** An older value offered to the cache leaves the newer entry. *)
Lemma mergeCache_entry_monotone_witness :
  exists v' : value,
    cache (mergeCache "p/k" v3 cached5) !! "p/k"%string = Some v' /\
    Rev v3 <= Rev v' /\ Rev v5 <= Rev v'.
Proof.
  destruct (mergeCache_entry_monotone "p/k" v3 cached5)
    as [(v' & Hv' & Hle & _ & Hcur) _].
  exists v'. split; [exact Hv'|]. split; [exact Hle|].
  apply Hcur. vm_compute. reflexivity.
Defined.

(** Deleting the cached key, and merging a newer value, each leave one
    signal. *)
Lemma cache_change_signals_once_witness :
  (cache (deleteCache "p/k" cached5) !! "p/k"%string = None /\
   cacheUpdatedCh (deleteCache "p/k" cached5) = 1%nat) /\
  (cache (mergeCache "p/k" v6 cached5) !! "p/k"%string = Some v6 /\
   cacheUpdatedCh (mergeCache "p/k" v6 cached5) = 1%nat).
Proof.
  destruct (cache_change_signals_once "p/k" cached5) as [Hdel Hmerge].
  { vm_compute. lia. }
  split.
  - apply (Hdel v5). vm_compute. reflexivity.
  - apply (Hmerge v6). right. exists v5.
    split; vm_compute; reflexivity.
Defined.

(** The key is read, the store goes down, the key is read again. *)
Lemma Get_then_transport_failure_witness :
  exists c1 v' c2,
    Get "k" written5 = Done ((Some v5, None), c1) /\
    Get "k" (withKv (kv (severed written5)) c1)
    = Done ((Some v', None), c2) /\
    Rev v5 <= Rev v' /\ cache c2 = cache c1.
Proof.
  assert (exists c1, Get "k" written5 = Done ((Some v5, None), c1))
    as [c1 Hget] by (eexists; vm_compute; reflexivity).
  destruct (Get_then_transport_failure "k" written5 v5 c1
              (kv (severed written5)) Etcd.unavailable
              (kv (severed written5)) Hget)
    as (v' & c2 & Hagain & Hle & Hcache); [vm_compute; reflexivity|].
  exists c1, v', c2. split; [exact Hget|]. split; [exact Hagain|].
  split; [exact Hle | exact Hcache].
Defined.

(** The cached key is deleted, the store goes down, the key is read. *)
Lemma no_cached_value_after_miss_or_delete_witness :
  exists c1 c2,
    Delete "k" cached5 = Done ((Some v5, None), c1) /\
    cache c1 !! "p/k"%string = None /\
    Get "k" (withKv (kv (severed written5)) c1)
    = Done ((None, Some (errTransport Etcd.unavailable)), c2).
Proof.
  assert (exists c1, Delete "k" cached5 = Done ((Some v5, None), c1))
    as [c1 Hdel] by (eexists; vm_compute; reflexivity).
  destruct (no_cached_value_after_miss_or_delete "k" cached5 c1
              (kv (severed written5)) Etcd.unavailable
              (kv (severed written5)))
    as (Hnone & c2 & Hget).
  { right. exists v5. exact Hdel. }
  { vm_compute. reflexivity. }
  exists c1, c2. split; [exact Hdel|]. split; [exact Hnone | exact Hget].
Defined.

(** History over versions 1 to 3 of the key written five times. *)
Lemma History_only_reads_witness :
  exists r c' reads,
    History 4 "k" 1 4 written5 = Done (r, c') /\
    cache c' = cache written5 /\ watchables c' = watchables written5 /\
    sent c' = sent written5 ++ reads /\ (length reads <= 5)%nat.
Proof.
  destruct (History 4 "k" 1 4 written5) as [[r c'] | |] eqn:Hrun;
    try (vm_compute in Hrun; discriminate Hrun).
  destruct (History_only_reads 4 "k" 1 4 written5 r c' Hrun)
    as (Hcache & _ & Hw & _ & reads & Hsent & Hn & _).
  exists r, c', reads. split; [reflexivity|]. split; [exact Hcache|].
  split; [exact Hw|]. split; [exact Hsent | exact Hn].
Defined.

Lemma History_length_bound_witness :
  exists res err c',
    History 4 "k" 1 4 written5 = Done ((res, err), c') /\
    Z.of_nat (length res) <= 4 - 1.
Proof.
  destruct (History 4 "k" 1 4 written5) as [[[res err] c'] | |] eqn:Hrun;
    try (vm_compute in Hrun; discriminate Hrun).
  destruct (History_length_bound 4 "k" 1 4 written5 res err c')
    as [Hlen _]; [lia | lia | unfold max_int64; lia | exact Hrun |].
  exists res, err, c'. split; [reflexivity | exact Hlen].
Defined.

(** History with the store down, on a key that does not exist, and from
    a version above the latest one. *)
Lemma History_early_exits_witness :
  (exists c', History 0 "k" 1 4 (severed written5)
              = Done (([], Some (errTransport Etcd.unavailable)), c')) /\
  (exists c', History 0 "k" 1 4 fresh = Done (([], Some ErrNotFound), c')) /\
  (exists c', History 0 "k" 7 9 written5 = Done (([], None), c')).
Proof.
  split; [|split].
  - destruct (History_early_exits 0 "k" 1 4 (severed written5)
                (inl Etcd.unavailable) (kv (severed written5)))
      as (Hfail & _);
      [vm_compute; reflexivity | lia | lia | vm_compute; reflexivity |].
    eexists. apply (Hfail Etcd.unavailable eq_refl).
  - destruct (History_early_exits 0 "k" 1 4 fresh
                (inr (Clientv3.mkGetResponse 0 [])) Etcd.empty)
      as (_ & Hmiss & _);
      [vm_compute; reflexivity | lia | lia | vm_compute; reflexivity |].
    eexists. apply (Hmiss (Clientv3.mkGetResponse 0 []) eq_refl).
    reflexivity.
  - destruct (History_early_exits 0 "k" 7 9 written5
                (inr (Clientv3.mkGetResponse 1 [kv5])) store5)
      as (_ & _ & Hbelow);
      [vm_compute; reflexivity | lia | lia | vm_compute; reflexivity |].
    eexists.
    apply (Hbelow (Clientv3.mkGetResponse 1 [kv5]) kv5 [] eq_refl);
      [discriminate | reflexivity | simpl; lia].
Defined.

(** A nil message, a write with the store down, and a second creation of
    the key. *)
Lemma failed_writes_report_zero_witness :
  Set_ "k" (None : option bytes) fresh
  = Done ((0, Some (errMarshal nilMessage)), fresh) /\
  (exists err c', Set_ "k" [x61] (severed fresh) = Done ((0, Some err), c')) /\
  (exists err c',
      SetIfNotExists "k" [x61] written5 = Done ((0, Some err), c')).
Proof.
  split; [|split].
  - destruct (failed_writes_report_zero "k" 0 (None : option bytes) fresh)
      as (_ & _ & _ & Hnil).
    apply (Hnil nilMessage); [vm_compute; reflexivity | reflexivity].
  - destruct (Set_ "k" [x61] (severed fresh))
      as [[[ver [err|]] c'] | |] eqn:Hrun;
      try (vm_compute in Hrun; discriminate Hrun).
    destruct (failed_writes_report_zero "k" 0 [x61] (severed fresh))
      as (Hset & _).
    rewrite (Hset ver err c' Hrun). by exists err, c'.
  - destruct (SetIfNotExists "k" [x61] written5)
      as [[[ver [err|]] c'] | |] eqn:Hrun;
      try (vm_compute in Hrun; discriminate Hrun).
    destruct (failed_writes_report_zero "k" 0 [x61] written5)
      as (_ & _ & Hnew & _).
    rewrite (Hnew ver err c' Hrun). by exists err, c'.
Defined.

(** A condition on something else than the version, and an operation of
    an unknown kind behind a condition and an operation that are fine. *)
Lemma Commit_rejects_before_sending_witness :
  Commit [Kv.mkCondition Kv.TargetOther Kv.CompareEqual "k" 5]
         [Kv.SetOp "k" [x66]] written5
  = Done ((None, Some ErrUnknownTargetType), written5) /\
  Commit [Kv.mkCondition Kv.TargetVersion Kv.CompareEqual "k" 5]
         [Kv.SetOp "k" [x66]; Kv.UnknownOp "j"] written5
  = Done ((None, Some ErrUnknownOpType), written5).
Proof.
  split.
  - destruct (Commit_rejects_before_sending
                [Kv.mkCondition Kv.TargetOther Kv.CompareEqual "k" 5]
                [Kv.SetOp "k" [x66]] written5) as [Hcond _];
      [vm_compute; reflexivity|].
    destruct (Hcond [] []
                (Kv.mkCondition Kv.TargetOther Kv.CompareEqual "k" 5)
                eq_refl) as [Htarget _]; [apply Forall_nil_2|].
    apply Htarget. discriminate.
  - destruct (Commit_rejects_before_sending
                [Kv.mkCondition Kv.TargetVersion Kv.CompareEqual "k" 5]
                [Kv.SetOp "k" [x66]; Kv.UnknownOp "j"] written5)
      as [_ Hop]; [vm_compute; reflexivity|].
    destruct (Hop ltac:(apply Forall_cons; split;
                        [split; reflexivity | apply Forall_nil_2])
                [Kv.SetOp "k" [x66]] [] (Kv.UnknownOp "j") eq_refl)
      as [Hunknown _].
    { apply Forall_cons. split; [|apply Forall_nil_2].
      exists "k"%string, [x66], [x66]. split; reflexivity. }
    apply (Hunknown "j"%string eq_refl).
Defined.

(** The sixth write of ["k"] and the first of ["j"] in one transaction. *)
Lemma Commit_single_txn_witness :
  exists opResponses c',
    Commit [Kv.mkCondition Kv.TargetVersion Kv.CompareEqual "k" 5]
           [Kv.SetOp "k" [x66]; Kv.SetOp "j" [x67]] written5
    = Done ((Some opResponses, None), c') /\
    opResponses = [Kv.mkOpResponse (Kv.SetOp "k" [x66]) (Some 6);
                   Kv.mkOpResponse (Kv.SetOp "j" [x67]) (Some 1)].
Proof.
  destruct (Commit_single_txn
              [Kv.mkCondition Kv.TargetVersion Kv.CompareEqual "k" 5]
              [Kv.SetOp "k" [x66]; Kv.SetOp "j" [x67]]
              [Clientv3.OpPut "p/k" [x66] true; Clientv3.OpPut "p/j" [x67] true]
              written5
              (inr (Clientv3.mkTxnResponse true
                      [Clientv3.ResponsePut (Clientv3.mkPutResponse (Some kv5));
                       Clientv3.ResponsePut (Clientv3.mkPutResponse None)]))
              (snd (Etcd.txn [Clientv3.CompareVersionEqual "p/k" 5]
                      [Clientv3.OpPut "p/k" [x66] true;
                       Clientv3.OpPut "p/j" [x67] true] store5)))
    as (_ & _ & Hok).
  { vm_compute. reflexivity. }
  { apply Forall_cons. split; [split; reflexivity | apply Forall_nil_2]. }
  { apply Forall2_cons. split; [by exists "k"%string, [x66], [x66]|].
    apply Forall2_cons. split; [by exists "j"%string, [x67], [x67]|].
    apply Forall2_nil_2. }
  { vm_compute. reflexivity. }
  do 2 eexists. split.
  - apply (Hok (Clientv3.mkTxnResponse true
                  [Clientv3.ResponsePut (Clientv3.mkPutResponse (Some kv5));
                   Clientv3.ResponsePut (Clientv3.mkPutResponse None)])
             [Clientv3.mkPutResponse (Some kv5); Clientv3.mkPutResponse None]
             eq_refl eq_refl eq_refl eq_refl).
  - vm_compute. reflexivity.
Defined.

(** A put event of revision 7 reaches the watchable that holds [v5]. *)
Lemma update_delivers_strictly_newer_witness :
  exists r c' w',
    update "p/k" [put6] watching = Done (r, c') /\
    watchables c' !! "p/k"%string = Some (Kv.OfValue w') /\
    (w' = holding5 \/
     w' = Kv.mkValueWatchable None (Kv.updates holding5 ++ [None]) \/
     exists v', Rev v5 < Rev v' /\
                w' = Kv.mkValueWatchable (Some (ptrValue v'))
                       (Kv.updates holding5 ++ [Some (ptrValue v')])).
Proof.
  destruct (update "p/k" [put6] watching) as [[r c'] | |] eqn:Hrun;
    try (vm_compute in Hrun; discriminate Hrun).
  destruct (update_delivers_strictly_newer "p/k" [put6] watching r c'
              holding5 v5 Hrun)
    as [(w' & Hw' & Hcases) _]; [vm_compute; reflexivity | reflexivity |].
  exists r, c', w'. split; [reflexivity|]. split; [exact Hw' | exact Hcases].
Defined.

(** A batch that ends in the delete event. *)
Lemma update_delete_event_witness :
  exists c',
    update "p/k" [put6; deleted8] watching = Done (None, c') /\
    watchables c' !! "p/k"%string
    = Some (Kv.OfValue (Kv.mkValueWatchable None [None])).
Proof.
  destruct (update_delete_event "p/k" [put6] deleted8 watching holding5)
    as (c' & Hrun & _ & Hw); [reflexivity | vm_compute; reflexivity |].
  exists c'. split; [exact Hrun | exact Hw].
Defined.

(** A put event that is newer than what the watchable holds, and one
    that is older. *)
Lemma update_put_event_witness :
  (exists c',
      update "p/k" [put6] watching = Done (None, c') /\
      watchables c' !! "p/k"%string
      = Some (Kv.OfValue (Kv.mkValueWatchable (Some (ptrValue v6))
                            [Some (ptrValue v6)]))) /\
  (exists c',
      update "p/k" [put3] watching = Done (None, c') /\
      watchables c' = watchables watching).
Proof.
  split.
  - destruct (update_put_event "p/k" [] put6 watching holding5)
      as (c' & Hrun & _ & Hnew & _); [reflexivity | vm_compute; reflexivity |].
    exists c'. split; [exact Hrun|]. apply Hnew. right. exists v5.
    split; [reflexivity | vm_compute; reflexivity].
  - destruct (update_put_event "p/k" [] put3 watching holding5)
      as (c' & Hrun & _ & _ & Hold); [reflexivity | vm_compute; reflexivity |].
    exists c'. split; [exact Hrun|].
    apply (Hold v5); [reflexivity | simpl; lia].
Defined.

(** An event for a key that nobody watches. *)
Lemma update_unregistered_key_witness :
  exists c',
    update "p/k" [put6] fresh = Done (Some (errNoWatchable "p/k"), c') /\
    cache c' !! "p/k"%string = Some v6.
Proof.
  destruct (update_unregistered_key "p/k" [] put6 fresh)
    as (c' & Hrun & _ & Hcache); [vm_compute; reflexivity|].
  exists c'. split; [exact Hrun|]. rewrite Hcache. vm_compute. reflexivity.
Defined.

(** The retried read with the key in the store, without it, and with the
    store down but the key in the cache. *)
Lemma getFromKVStore_first_answer_witness :
  (exists c', getFromKVStore "p/k" written5 = Done ((Some v5, None), c')) /\
  (exists c', getFromKVStore "p/k" fresh = Done ((None, None), c') /\
              length (sent c') = 1%nat) /\
  (exists c', getFromKVStore "p/k" (severed cached5)
              = Done ((Some v5, None), c') /\
              length (sent c') = S (length (sent cached5))).
Proof.
  split; [|split].
  - destruct (getFromKVStore_first_answer "p/k" written5
                (inr (Clientv3.mkGetResponse 1 [kv5])) store5)
      as (Hhit & _); [vm_compute; reflexivity | vm_compute; reflexivity |].
    eexists.
    apply (Hhit (Clientv3.mkGetResponse 1 [kv5]) kv5 [] eq_refl);
      [discriminate | reflexivity].
  - destruct (getFromKVStore_first_answer "p/k" fresh
                (inr (Clientv3.mkGetResponse 0 [])) Etcd.empty)
      as (_ & Hmiss & _);
      [vm_compute; reflexivity | vm_compute; reflexivity |].
    eexists. split.
    + apply (Hmiss (Clientv3.mkGetResponse 0 []) eq_refl). reflexivity.
    + vm_compute. reflexivity.
  - destruct (getFromKVStore_first_answer "p/k" (severed cached5)
                (inl Etcd.unavailable) (kv (severed cached5)))
      as (_ & _ & Hcached);
      [vm_compute; reflexivity | vm_compute; reflexivity |].
    eexists. split.
    + apply (Hcached Etcd.unavailable v5 eq_refl). vm_compute. reflexivity.
    + vm_compute. reflexivity.
Defined.

(** The retried read with the store down and nothing in the cache: three
    attempts. *)
Lemma getFromKVStore_retries_failures_witness :
  exists c',
    getFromKVStore "p/k" (severed written5)
    = Done ((None, Some (errTransport Etcd.unavailable)), c') /\
    length (sent c') = (length (sent written5) + 3)%nat /\
    etcdGetError (m c') = 3%nat.
Proof.
  destruct (getFromKVStore_retries_failures "p/k" down Etcd.unavailable
              (severed written5))
    as (c' & Hrun & Hsent & Hm & _).
  { vm_compute. reflexivity. }
  { intros t Ht. exists t. split; [|exact Ht].
    simpl. unfold Etcd.get. unfold down in Ht. rewrite Ht. reflexivity. }
  { reflexivity. }
  { vm_compute. reflexivity. }
  exists c'. split; [exact Hrun|]. split.
  - rewrite Hsent, length_app. reflexivity.
  - rewrite Hm. reflexivity.
Defined.

(** The sixth write of ["k"], read back. *)
Lemma Set_then_Get_witness :
  exists c1 c2,
    Set_ "k" [x66] written5 = Done ((6, None), c1) /\
    Get "k" c1 = Done ((Some v6, None), c2).
Proof.
  destruct (Set_then_Get written5 "k" [x66] [x66])
    as (version & c1 & c2 & Hset & Hget & Hver);
    [vm_compute; reflexivity | vm_compute; reflexivity
     | vm_compute; reflexivity | vm_compute; reflexivity | reflexivity |].
  vm_compute in Hver. subst version.
  exists c1, c2. split; [exact Hset | exact Hget].
Defined.

(** Two writers that have read version 5: the first wins. *)
Lemma CheckAndSet_after_Get_witness :
  exists c1 c2 c3 c4,
    Get "k" written5 = Done ((Some v5, None), c1) /\
    CheckAndSet "k" 5 [x66] c1 = Done ((6, None), c2) /\
    CheckAndSet "k" 5 [x66] c2 = Done ((0, Some ErrVersionMismatch), c3) /\
    Get "k" c3 = Done ((Some v6, None), c4).
Proof.
  assert (exists c1, Get "k" written5 = Done ((Some v5, None), c1))
    as [c1 Hget] by (eexists; vm_compute; reflexivity).
  destruct (CheckAndSet_after_Get written5 "k" v5 c1 [x66] [x66])
    as (c2 & c3 & c4 & Hfirst & Hsecond & Hread);
    [vm_compute; reflexivity | vm_compute; reflexivity
     | vm_compute; reflexivity | reflexivity | exact Hget |].
  exists c1, c2, c3, c4. split; [exact Hget|]. split; [exact Hfirst|].
  split; [exact Hsecond | exact Hread].
Defined.

(** Creating a key that exists, and one that does not. *)
Lemma SetIfNotExists_by_existence_witness :
  (exists c1 c2,
      Get "k" written5 = Done ((Some v5, None), c1) /\
      SetIfNotExists "k" [x66] c1
      = Done ((0, Some ErrAlreadyExists), c2) /\
      kv c2 = kv written5) /\
  (exists c1 c2 c3,
      Get "k" fresh = Done ((None, Some ErrNotFound), c1) /\
      SetIfNotExists "k" [x61] c1 = Done ((1, None), c2) /\
      Get "k" c2 = Done ((Some (newValue [x61] 1 2), None), c3)).
Proof.
  split.
  - assert (exists c1, Get "k" written5 = Done ((Some v5, None), c1))
      as [c1 Hget] by (eexists; vm_compute; reflexivity).
    destruct (SetIfNotExists_by_existence written5 "k" [x66] [x66])
      as [Hexists _];
      [vm_compute; reflexivity | vm_compute; reflexivity
       | vm_compute; reflexivity | reflexivity |].
    destruct (Hexists v5 c1 Hget) as (c2 & Hset & Hkv).
    exists c1, c2. split; [exact Hget|]. split; [exact Hset | exact Hkv].
  - assert (exists c1, Get "k" fresh = Done ((None, Some ErrNotFound), c1))
      as [c1 Hget] by (eexists; vm_compute; reflexivity).
    destruct (SetIfNotExists_by_existence fresh "k" [x61] [x61])
      as [_ Habsent];
      [vm_compute; reflexivity | vm_compute; reflexivity
       | vm_compute; reflexivity | reflexivity |].
    destruct (Habsent c1 Hget) as (c2 & c3 & Hset & Hread).
    exists c1, c2, c3. split; [exact Hget|]. split; [exact Hset | exact Hread].
Defined.

(** The key written five times is deleted, read, and written again. *)
Lemma Delete_then_Get_and_Set_witness :
  exists c1 c2 c3,
    Delete "k" written5 = Done ((Some v5, None), c1) /\
    Get "k" c1 = Done ((None, Some ErrNotFound), c2) /\
    Set_ "k" [x61] c1 = Done ((1, None), c3).
Proof.
  assert (exists c1, Delete "k" written5 = Done ((Some v5, None), c1))
    as [c1 Hdel] by (eexists; vm_compute; reflexivity).
  destruct (Delete_then_Get_and_Set (Message := bytes) written5 "k" v5 c1)
    as (_ & [c2 Hget] & Hset); [vm_compute; reflexivity | exact Hdel |].
  destruct (Hset [x61] [x61] eq_refl) as [c3 Hset'].
  exists c1, c2, c3. split; [exact Hdel|]. split; [exact Hget | exact Hset'].
Defined.

(** One key deleted and one key put, on a watchable that holds ["p/a"]. *)
Lemma updateForPrefix_updated_values_witness :
  exists updatedValues,
    updateForPrefixMerge heldA {[ "p/b"%string := vb ]} ["p/a"%string]
    = Some updatedValues /\
    updatedValues !! "p/a"%string = None /\
    updatedValues !! "p/b"%string = Some (ptrValue vb).
Proof.
  destruct (updateForPrefixMerge heldA {[ "p/b"%string := vb ]}
              ["p/a"%string]) as [updatedValues|] eqn:Hrun;
    [|vm_compute in Hrun; discriminate Hrun].
  pose proof (updateForPrefix_updated_values _ _ _ _ Hrun) as Hat.
  exists updatedValues. split; [reflexivity|].
  split; rewrite Hat; vm_compute; reflexivity.
Defined.

(** The batch that deletes ["p/a"], puts it again and puts ["p/b"]. *)
Lemma updateForPrefix_delete_outweighs_put_witness :
  exists updatedValues,
    updateForPrefixMerge heldA (fst (getFromEtcdEventsForPrefix batch))
      (snd (getFromEtcdEventsForPrefix batch)) = Some updatedValues /\
    updatedValues !! "p/a"%string = None /\
    updatedValues !! "p/b"%string = Some (ptrValue vb).
Proof.
  destruct (updateForPrefixMerge heldA
              (fst (getFromEtcdEventsForPrefix batch))
              (snd (getFromEtcdEventsForPrefix batch)))
    as [updatedValues|] eqn:Hrun; [|vm_compute in Hrun; discriminate Hrun].
  destruct (updateForPrefix_delete_outweighs_put heldA batch updatedValues
              Hrun) as [Hdel Hput].
  clear Hrun. exists updatedValues. split; [reflexivity|]. split.
  - apply (Hdel deleteA);
      [apply elem_of_cons; left; reflexivity | reflexivity].
  - apply (Hput [deleteA; putA] [] putB); [reflexivity | reflexivity | |].
    + intros e' Hin. apply elem_of_nil in Hin. destruct Hin.
    + intros e' Hin Hdelete.
      apply elem_of_cons in Hin as [-> | Hin];
        [intros Hkey; vm_compute in Hkey; discriminate Hkey|].
      apply elem_of_cons in Hin as [-> | Hin]; [discriminate Hdelete|].
      apply elem_of_nil in Hin. destruct Hin.
Defined.

(** A new key, a deleted key, and a batch that brings nothing new. *)
Lemma updateForPrefix_when_updated_witness :
  is_Some (updateForPrefixMerge heldA {[ "p/b"%string := vb ]} []) /\
  is_Some (updateForPrefixMerge heldA ∅ ["p/a"%string]) /\
  updateForPrefixMerge heldA {[ "p/a"%string := va ]} ["p/c"%string] = None.
Proof.
  split; [|split].
  - apply (proj1 (updateForPrefix_when_updated heldA
                    {[ "p/b"%string := vb ]} [])).
    exists "p/b"%string, vb. split; vm_compute; reflexivity.
  - apply (proj1 (proj2 (updateForPrefix_when_updated heldA ∅
                           ["p/a"%string]))).
    exists "p/a"%string. split; [apply elem_of_cons; left; reflexivity|].
    exists (ptrValue va). vm_compute. reflexivity.
  - apply (proj2 (proj2 (updateForPrefix_when_updated heldA
                           {[ "p/a"%string := va ]} ["p/c"%string]))).
    + intros k v [<- <-]%lookup_singleton_Some. exists (ptrValue va).
      split; vm_compute; reflexivity.
    + intros k Hin. apply elem_of_cons in Hin as [-> | Hin];
        [vm_compute; reflexivity|].
      apply elem_of_nil in Hin. destruct Hin.
Defined.

(** A client without a request timeout: a read and a write. *)
Lemma no_timeout_no_return_witness :
  Get "k" untimed = Panic /\ Set_ "k" [x61] untimed = Panic /\
  forall x, History 5 "k" 1 4 untimed <> Done x.
Proof.
  destruct (no_timeout_no_return "k" 0 [x61] [] [] untimed)
    as (Hget & Hset & _ & _ & _ & _ & _ & _ & Hhistory);
    [vm_compute; discriminate|].
  split; [exact Hget|]. split; [exact Hset|].
  intros x. apply Hhistory; lia.
Defined.
End FurtherRuns.
